(** * Paired-comparison and correlation analysis engine

    A shallow embedding of the statistical decision logic of the
    repository:

    - [experiment_analyzer.py], class [ExperimentAnalyzer]:
      [test_normality], [analyze_rq1], [analyze_rq2];
    - [generate_experiment_report.py], class
      [GraphQLvsRESTReportGenerator]: the same three methods, with a
      different result dictionary;
    - [generate_report.py], class [ReportGenerator]:
      [calculate_correlations] and the label computed by
      [format_correlation_table].

    Numbers are IEEE 754 binary64 values (Python [float], numpy
    [float64]), embedded as Rocq's primitive floats, so NaN and the
    infinities behave as they do in the program: every comparison with NaN
    is false.  Python's integer literals [0] and [1] that are stored next
    to floats are embedded as the floats of the same value.

    The routines of numpy, scipy and pandas that the program calls are not
    part of the repository.  They are parameters of the development (record
    [Externals]); each may return a value or raise, and every theorem holds
    for all of them.  Calls to the scipy routines are recorded in a log, so
    that "the test is (not) run" is a statement about the program.  The
    process-global random generator read by [Series.sample] is an explicit
    component of the state. *)

From Stdlib Require Import Floats ZArith String List Bool Lia.
From Stdlib Require Uint63.
From stdpp Require Import gmap strings.
Import ListNotations.

Set Warnings "-inexact-float".

#[local] Open Scope string_scope.
#[local] Open Scope Z_scope.

(** ** Python values and control effects *)

(** [len(x)] of a list: a Python integer. *)
Definition len {A : Type} (l : list A) : Z := Z.of_nat (length l).

(** A raised exception, by the name of its class. *)
Inductive exn : Type :=
| Exception (class_name : string).

Definition ValueError : exn := Exception "ValueError".
Definition KeyError : exn := Exception "KeyError".

(** How a call ends: with a value, or with an exception. *)
Inductive outcome (A : Type) : Type :=
| Returns (a : A)
| Raises (e : exn).
Arguments Returns {A} a.
Arguments Raises {A} e.

(** One call of a scipy routine, with its arguments. *)
Inductive call : Type :=
| Shapiro (sample : list float)
| TTestRel (a b : list float)
| Wilcoxon (x y : list float) (alternative : string)
| Pearsonr (x y : list float)
| Spearmanr (x y : list float).

(** A paired test is one of the two tests of [analyze_rq1]. *)
Definition is_paired_test (c : call) : bool :=
  match c with
  | TTestRel _ _ | Wilcoxon _ _ _ => true
  | _ => false
  end.

Definition is_normality_test (c : call) : bool :=
  match c with
  | Shapiro _ => true
  | _ => false
  end.

(** The state a run threads: the state of the global random generator and
    the log of scipy calls made so far, oldest first. *)
Record world (R : Type) : Type := World {
  rng : R;
  calls : list call
}.
Arguments World {R} rng calls.
Arguments rng {R} w.
Arguments calls {R} w.

(** A Python computation: it reads and updates the world and ends with an
    outcome.  The world survives a raised exception, as it does in Python. *)
Definition M (R A : Type) : Type := world R -> outcome A * world R.

Definition ret {R A : Type} (a : A) : M R A := fun w => (Returns a, w).

Definition raise {R A : Type} (e : exn) : M R A := fun w => (Raises e, w).

Definition bind {R A B : Type} (m : M R A) (k : A -> M R B) : M R B :=
  fun w =>
    match m w with
    | (Returns a, w') => k a w'
    | (Raises e, w') => (Raises e, w')
    end.

(** [try: body / except: handler], a bare [except] that catches every
    exception. *)
Definition try_except {R A : Type} (body : M R A) (handler : exn -> M R A)
  : M R A :=
  fun w =>
    match body w with
    | (Returns a, w') => (Returns a, w')
    | (Raises e, w') => handler e w'
    end.

(** A library result lifted into a computation. *)
Definition lift {R A : Type} (o : outcome A) : M R A := fun w => (o, w).

Definition record_call {R : Type} (c : call) (w : world R) : world R :=
  World (rng w) (calls w ++ [c])%list.

Declare Scope py_scope.
Delimit Scope py_scope with py.
Notation "x <- m ;; k" := (bind m (fun x => k))
  (at level 100, m at next level, right associativity) : py_scope.
#[local] Open Scope py_scope.

(** ** The external routines *)

(** What the program imports from numpy, scipy and pandas.  [R] is the type
    of the state of numpy's global random generator.

    - [sample_draw r data n]: [data.sample(n)] of a pandas Series, a draw
      of [n] values without replacement that advances the generator;
    - [np_mean], [np_median], [np_std]: reductions that return NaN rather
      than raise;
    - [np_min], [np_max]: reductions without identity, which raise on an
      empty array;
    - the scipy routines return the pair (statistic, p-value) or raise. *)
Record Externals (R : Type) : Type := {
  sample_draw : R -> list float -> Z -> list float * R;
  np_mean : list float -> float;
  np_median : list float -> float;
  np_std : list float -> float;
  np_min : list float -> outcome float;
  np_max : list float -> outcome float;
  shapiro_fn : list float -> outcome (float * float);
  ttest_rel_fn : list float -> list float -> outcome (float * float);
  wilcoxon_fn : list float -> list float -> string -> outcome (float * float);
  pearsonr_fn : list float -> list float -> outcome (float * float);
  spearmanr_fn : list float -> list float -> outcome (float * float)
}.
Arguments sample_draw {R} e r data n.
Arguments np_mean {R} e x.
Arguments np_median {R} e x.
Arguments np_std {R} e x.
Arguments np_min {R} e x.
Arguments np_max {R} e x.
Arguments shapiro_fn {R} e x.
Arguments ttest_rel_fn {R} e a b.
Arguments wilcoxon_fn {R} e x y alternative.
Arguments pearsonr_fn {R} e x y.
Arguments spearmanr_fn {R} e x y.

Section Calls.
Context {R : Type} (lib : Externals R).

(** [data.sample(n)]: reads and advances the global generator. *)
Definition Series_sample (data : list float) (n : Z) : M R (list float) :=
  fun w =>
    let '(s, r') := sample_draw lib (rng w) data n in
    (Returns s, World r' (calls w)).

Definition shapiro (x : list float) : M R (float * float) :=
  fun w => (shapiro_fn lib x, record_call (Shapiro x) w).

Definition ttest_rel (a b : list float) : M R (float * float) :=
  fun w => (ttest_rel_fn lib a b, record_call (TTestRel a b) w).

Definition wilcoxon (x y : list float) (alternative : string)
  : M R (float * float) :=
  fun w => (wilcoxon_fn lib x y alternative,
            record_call (Wilcoxon x y alternative) w).

Definition pearsonr (x y : list float) : M R (float * float) :=
  fun w => (pearsonr_fn lib x y, record_call (Pearsonr x y) w).

Definition spearmanr (x y : list float) : M R (float * float) :=
  fun w => (spearmanr_fn lib x y, record_call (Spearmanr x y) w).
End Calls.

(** ** The Normality Classifier *)

Section Normality.
Context {R : Type} (lib : Externals R).

(** [test_normality(self, data)], the same text in [ExperimentAnalyzer]
    and in [GraphQLvsRESTReportGenerator]. *)
Definition test_normality (data : list float) : M R (bool * float) :=
  if len data <? 3 then ret (false, 1.0%float)
  else
    sample <- (if 5000 <? len data
               then Series_sample lib data (Z.min 5000 (len data))
               else ret data) ;;
    try_except
      (res <- shapiro lib sample ;;
       let '(stat, p_value) := res in
       let is_normal := (0.05 <? p_value)%float in
       ret (is_normal, p_value))
      (fun _ => ret (false, 0.0%float)).

(** The sample handed to the goodness-of-fit test and the world in which
    the test is called. *)
Definition tested_sample (data : list float) (w : world R)
  : list float * world R :=
  if 5000 <? len data
  then let '(s, r') := sample_draw lib (rng w) data (Z.min 5000 (len data)) in
       (s, World r' (calls w))
  else (data, w).

(** The verdict read off the answer of the goodness-of-fit test; a
    raised exception gives the fallback. *)
Definition verdict_of (answer : outcome (float * float)) : bool * float :=
  match answer with
  | Returns (_, p_value) => ((0.05 <? p_value)%float, p_value)
  | Raises _ => (false, 0.0%float)
  end.

(** The verdict and the world that [test_normality] leaves, in closed
    form. *)
Definition normality (data : list float) (w : world R)
  : (bool * float) * world R :=
  if len data <? 3 then ((false, 1.0%float), w)
  else
    let '(s, w1) := tested_sample data w in
    (verdict_of (shapiro_fn lib s), record_call (Shapiro s) w1).
End Normality.

(** ** The experiment data *)

(** One row of [experiment_data.csv] after [load_data]: the columns the
    analysis reads.  A key cell may be missing ([None]); a numeric cell
    that is missing or malformed is NaN ([pd.to_numeric(errors='coerce')]). *)
Record Row : Type := {
  repository_owner : option string;
  repository_name : option string;
  query_type : option string;
  api_type : string;
  response_time_ms : float;
  response_size_bytes : float
}.

Definition DataFrame : Type := list Row.

Definition group_key : Type := string * string * string.

Definition key_of (r : Row) : option group_key :=
  match repository_owner r, repository_name r, query_type r with
  | Some o, Some n, Some q => Some (o, n, q)
  | _, _, _ => None
  end.

Definition key_compare (a b : group_key) : comparison :=
  let '(o1, n1, q1) := a in
  let '(o2, n2, q2) := b in
  match String.compare o1 o2 with
  | Eq => match String.compare n1 n2 with
          | Eq => String.compare q1 q2
          | c => c
          end
  | c => c
  end.

(** Puts a row into the group of its key; groups are kept in increasing
    order of the key and rows in the order of the frame. *)
Fixpoint add_to_group (k : group_key) (r : Row)
  (groups : list (group_key * DataFrame)) : list (group_key * DataFrame) :=
  match groups with
  | [] => [(k, [r])]
  | (k', rows) :: rest =>
      match key_compare k k' with
      | Eq => (k', (rows ++ [r])%list) :: rest
      | Lt => (k, [r]) :: groups
      | Gt => (k', rows) :: add_to_group k r rest
      end
  end.

(** [df.groupby(['repository_owner', 'repository_name', 'query_type'])]:
    one group per key, keys sorted, rows with a missing key cell dropped. *)
Definition groupby (df : DataFrame) : list (group_key * DataFrame) :=
  fold_left
    (fun groups r =>
       match key_of r with
       | Some k => add_to_group k r groups
       | None => groups
       end)
    df [].

(** [df[df['api_type'] == api][column].values] *)
Definition column_of (api : string) (column : Row -> float) (df : DataFrame)
  : list float :=
  map column (List.filter (fun r => String.eqb (api_type r) api) df).

(** The dictionary appended to [results] for one group.  ([ExperimentAnalyzer]
    also stores the two arrays of the group, which nothing reads.) *)
Record GroupResult : Type := {
  repository : string;
  group_query_type : string;
  graphql_mean : float;
  rest_mean : float;
  difference : float
}.

(** The descriptive statistics dictionary. *)
Module Stats.
Record t : Type := {
  mean : float;
  median : float;
  std : float;
  min : float;
  max : float;
  count : Z
}.
End Stats.

Section Aggregation.
Context {R : Type} (lib : Externals R).

(** The loop over the groups: a group yields a pair only when it has
    values on both sides. *)
Definition paired_groups (column : Row -> float) (df : DataFrame)
  : list GroupResult :=
  flat_map
    (fun '((repo_owner, repo_name, qtype), group) =>
       let graphql_values := column_of "graphql" column group in
       let rest_values := column_of "rest" column group in
       if (0 <? len graphql_values) && (0 <? len rest_values)
       then [ {| repository := (repo_owner ++ "/" ++ repo_name)%string;
                 group_query_type := qtype;
                 graphql_mean := np_mean lib graphql_values;
                 rest_mean := np_mean lib rest_values;
                 difference := (np_mean lib graphql_values
                                - np_mean lib rest_values)%float |} ]
       else [])
    (groupby df).

(** The dictionary of mean, median, std, min, max and count; its entries
    are evaluated in this order. *)
Definition describe (x : list float) : outcome Stats.t :=
  match np_min lib x with
  | Raises e => Raises e
  | Returns lo =>
      match np_max lib x with
      | Raises e => Raises e
      | Returns hi =>
          Returns {| Stats.mean := np_mean lib x;
                     Stats.median := np_median lib x;
                     Stats.std := np_std lib x;
                     Stats.min := lo;
                     Stats.max := hi;
                     Stats.count := len x |}
      end
  end.

(** Cohen's d of the paired differences, the three lines
    [mean_diff = np.mean(paired_differences)],
    [std_diff = np.std(paired_differences)] and
    [cohens_d = mean_diff / std_diff if std_diff > 0 else 0]
    of [analyze_rq1] and [analyze_rq2]. *)
Definition effect_size (paired_differences : list float) : float :=
  let mean_diff := np_mean lib paired_differences in
  let std_diff := np_std lib paired_differences in
  if (0 <? std_diff)%float then (mean_diff / std_diff)%float else 0%float.
End Aggregation.

(** The two sentences that differ between [analyze_rq1] and [analyze_rq2]. *)
Record Wording : Type := {
  graphql_wins : string;
  rest_wins : string
}.

Definition rq1_wording : Wording :=
  {| graphql_wins := "GraphQL é significativamente mais rápido que REST";
     rest_wins := "REST é significativamente mais rápido que GraphQL" |}.

Definition rq2_wording : Wording :=
  {| graphql_wins :=
       "GraphQL produz respostas significativamente menores que REST";
     rest_wins :=
       "REST produz respostas significativamente menores que GraphQL" |}.

Definition no_difference : string :=
  "Não há diferença significativa entre GraphQL e REST".

(** ** [experiment_analyzer.py]: class [ExperimentAnalyzer] *)

Module ExperimentAnalyzer.

(** The dictionary returned by [analyze_rq1].  [analyze_rq2] returns the
    same dictionary with the last entry under the key
    ['graphql_smaller']. *)
Record Result : Type := {
  graphql_stats : Stats.t;
  rest_stats : Stats.t;
  test_name : string;
  p_value : float;
  cohens_d : float;
  conclusion : string;
  mean_difference : float;
  graphql_faster : bool
}.

Definition insufficient_data : string :=
  "Dados insuficientes para análise estatística".

Section Analysis.
Context {R : Type} (lib : Externals R).

(** The body shared by [analyze_rq1] and [analyze_rq2], which differ in
    the column they read and in the two sentences of [Wording].  The
    [print] calls are left out.  In the branch without a test the
    variable [test_name] is unbound in the source; the empty string
    stands for it and is never read. *)
Definition analyze_rq (column : Row -> float) (wording : Wording)
  (df : DataFrame) : M R Result :=
  let results := paired_groups lib column df in
  let all_graphql := column_of "graphql" column df in
  let all_rest := column_of "rest" column df in
  graphql_stats <- lift (describe lib all_graphql) ;;
  rest_stats <- lift (describe lib all_rest) ;;
  graphql_verdict <- test_normality lib all_graphql ;;
  rest_verdict <- test_normality lib all_rest ;;
  let '(graphql_normal, graphql_p) := graphql_verdict in
  let '(rest_normal, rest_p) := rest_verdict in
  let paired_differences := map difference results in
  verdict <-
    (if 1 <? len paired_differences then
       tested <-
         (if graphql_normal && rest_normal then
            res <- ttest_rel lib (map graphql_mean results)
                                 (map rest_mean results) ;;
            ret (res, "Teste t pareado")
          else
            res <- wilcoxon lib (map graphql_mean results)
                                (map rest_mean results) "two-sided" ;;
            ret (res, "Teste de Wilcoxon")) ;;
       let '((t_stat, p_value), test_name) := tested in
       let mean_diff := np_mean lib paired_differences in
       let cohens_d := effect_size lib paired_differences in
       let conclusion :=
         if (p_value <? 0.05)%float then
           if (mean_diff <? 0)%float
           then graphql_wins wording
           else rest_wins wording
         else no_difference in
       ret (test_name, p_value, cohens_d, conclusion)
     else
       ret ("", 1.0%float, 0.0%float, insufficient_data)) ;;
  let '(test_name, p_value, cohens_d, conclusion) := verdict in
  let non_empty := negb (len paired_differences =? 0) in
  ret {| graphql_stats := graphql_stats;
         rest_stats := rest_stats;
         test_name :=
           if 1 <? len paired_differences then test_name else "N/A";
         p_value :=
           if 1 <? len paired_differences then p_value else 1.0%float;
         cohens_d := cohens_d;
         conclusion := conclusion;
         mean_difference :=
           if non_empty then np_mean lib paired_differences
           else 0%float;
         graphql_faster :=
           if non_empty
           then (np_mean lib paired_differences <? 0)%float
           else false |}.

Definition analyze_rq1 : DataFrame -> M R Result :=
  analyze_rq response_time_ms rq1_wording.

Definition analyze_rq2 : DataFrame -> M R Result :=
  analyze_rq response_size_bytes rq2_wording.

(** [main]: the two analyses, one after the other. *)
Definition run_analysis (df : DataFrame) : M R (Result * Result) :=
  rq1_results <- analyze_rq1 df ;;
  rq2_results <- analyze_rq2 df ;;
  ret (rq1_results, rq2_results).
End Analysis.

End ExperimentAnalyzer.

(** ** [generate_experiment_report.py]: class [GraphQLvsRESTReportGenerator] *)

Module GraphQLvsRESTReportGenerator.

(** The dictionary returned by [analyze_rq1] and [analyze_rq2]. *)
Record Result : Type := {
  graphql_stats : Stats.t;
  rest_stats : Stats.t;
  test_name : string;
  p_value : float;
  cohens_d : float;
  conclusion : string;
  graphql_normal : bool;
  rest_normal : bool;
  graphql_p : float;
  rest_p : float
}.

Definition insufficient_data : string := "Dados insuficientes".

Section Analysis.
Context {R : Type} (lib : Externals R).

(** The body shared by [analyze_rq1] and [analyze_rq2] of this class. *)
Definition analyze_rq (column : Row -> float) (wording : Wording)
  (df : DataFrame) : M R Result :=
  let results := paired_groups lib column df in
  let all_graphql := column_of "graphql" column df in
  let all_rest := column_of "rest" column df in
  graphql_stats <- lift (describe lib all_graphql) ;;
  rest_stats <- lift (describe lib all_rest) ;;
  graphql_verdict <- test_normality lib all_graphql ;;
  rest_verdict <- test_normality lib all_rest ;;
  let '(graphql_normal, graphql_p) := graphql_verdict in
  let '(rest_normal, rest_p) := rest_verdict in
  let paired_differences := map difference results in
  verdict <-
    (if 1 <? len paired_differences then
       tested <-
         (if graphql_normal && rest_normal then
            res <- ttest_rel lib (map graphql_mean results)
                                 (map rest_mean results) ;;
            ret (res, "Teste t pareado")
          else
            res <- wilcoxon lib (map graphql_mean results)
                                (map rest_mean results) "two-sided" ;;
            ret (res, "Teste de Wilcoxon")) ;;
       let '((t_stat, p_value), test_name) := tested in
       let mean_diff := np_mean lib paired_differences in
       let cohens_d := effect_size lib paired_differences in
       let conclusion :=
         if (p_value <? 0.05)%float then
           if (mean_diff <? 0)%float
           then graphql_wins wording
           else rest_wins wording
         else no_difference in
       ret (test_name, p_value, cohens_d, conclusion)
     else
       ret ("N/A", 1.0%float, 0.0%float, insufficient_data)) ;;
  let '(test_name, p_value, cohens_d, conclusion) := verdict in
  ret {| graphql_stats := graphql_stats;
         rest_stats := rest_stats;
         test_name := test_name;
         p_value := p_value;
         cohens_d := cohens_d;
         conclusion := conclusion;
         graphql_normal := graphql_normal;
         rest_normal := rest_normal;
         graphql_p := graphql_p;
         rest_p := rest_p |}.

Definition analyze_rq1 : DataFrame -> M R Result :=
  analyze_rq response_time_ms rq1_wording.

Definition analyze_rq2 : DataFrame -> M R Result :=
  analyze_rq response_size_bytes rq2_wording.

(** [generate_markdown_report]: the two analyses, one after the
    other. *)
Definition run_analysis (df : DataFrame) : M R (Result * Result) :=
  rq1_results <- analyze_rq1 df ;;
  rq2_results <- analyze_rq2 df ;;
  ret (rq1_results, rq2_results).
End Analysis.

End GraphQLvsRESTReportGenerator.

(** ** [generate_report.py]: class [ReportGenerator] *)

Module ReportGenerator.

(** [{'correlation': ..., 'p_value': ...}] *)
Record Coefficient : Type := {
  correlation : float;
  p_value : float
}.

(** [{'pearson': ..., 'spearman': ...}] *)
Record Correlations : Type := {
  pearson : Coefficient;
  spearman : Coefficient
}.

(** The entry stored when the correlation is not computed. *)
Definition neutral : Correlations :=
  {| pearson := {| correlation := 0%float; p_value := 1%float |};
     spearman := {| correlation := 0%float; p_value := 1%float |} |}.

(** [series.notna().sum()]: the number of cells that are not NaN. *)
Definition notna_sum (series : list float) : Z :=
  len (List.filter (fun v => negb (PrimFloat.is_nan v)) series).

(** The number that [calculate_correlations] compares with 10: the
    non-missing values of the quality column, 0 for a column that the
    frame does not have. *)
Definition valid_count (data : gmap string (list float))
  (quality_metric : string) : Z :=
  match data !! quality_metric with
  | Some series => notna_sum series
  | None => 0
  end.

(** The rows of two columns in which both values are present. *)
Definition valid_pairs (x y : list float) : Z :=
  len (List.filter
         (fun xy => negb (PrimFloat.is_nan (fst xy))
                    && negb (PrimFloat.is_nan (snd xy)))
         (combine x y)).

Section Correlation.
Context {R : Type} (lib : Externals R).

(** [data[name]] of a frame, a map from column names to columns: a
    missing column raises KeyError. *)
Definition getitem (data : gmap string (list float)) (name : string)
  : M R (list float) :=
  match data !! name with
  | Some series => ret series
  | None => raise KeyError
  end.

(** The body of the loop of [calculate_correlations]: the entry for
    one quality metric. *)
Definition correlate (data : gmap string (list float))
  (process_metric quality_metric : string) : M R Correlations :=
  let computed :=
    match data !! quality_metric with
    | Some series => 10 <? notna_sum series
    | None => false
    end in
  if computed then
    x <- getitem data process_metric ;;
    y <- getitem data quality_metric ;;
    linear <- pearsonr lib x y ;;
    x' <- getitem data process_metric ;;
    y' <- getitem data quality_metric ;;
    monotonic <- spearmanr lib x' y' ;;
    ret {| pearson := {| correlation := fst linear;
                         p_value := snd linear |};
           spearman := {| correlation := fst monotonic;
                          p_value := snd monotonic |} |}
  else ret neutral.

Fixpoint correlations_loop (data : gmap string (list float))
  (process_metric : string) (quality_metrics : list string)
  (correlations : gmap string Correlations)
  : M R (gmap string Correlations) :=
  match quality_metrics with
  | [] => ret correlations
  | quality_metric :: rest =>
      entry <- correlate data process_metric quality_metric ;;
      correlations_loop data process_metric rest
        (<[quality_metric := entry]> correlations)
  end.

(** [calculate_correlations(self, data, process_metric,
    quality_metrics)] *)
Definition calculate_correlations (data : gmap string (list float))
  (process_metric : string) (quality_metrics : list string)
  : M R (gmap string Correlations) :=
  correlations_loop data process_metric quality_metrics ∅.
End Correlation.

(** The label that [format_correlation_table] computes for one entry of
    the dictionary: the chain of [if]/[elif] of the loop body. *)
Definition interpretation (corr_data : Correlations) : string :=
  let pearson_r := correlation (pearson corr_data) in
  let pearson_p := p_value (pearson corr_data) in
  let magnitude := PrimFloat.abs pearson_r in
  let is_significant := (pearson_p <? 0.05)%float in
  if (magnitude <? 0.1)%float then
    if is_significant
    then "Correlação detectável"
    else "Correlação inexistente"
  else if (magnitude <? 0.3)%float then
    if is_significant
    then "Correlação fraca"
    else "Correlação fraca (não confiável)"
  else if (magnitude <? 0.5)%float then
    if is_significant
    then "Correlação moderada"
    else "Correlação moderada (não confiável)"
  else if (magnitude <? 0.7)%float then
    if is_significant
    then "Correlação forte"
    else "Correlação forte (não confiável)"
  else
    if is_significant
    then "Correlação muito forte"
    else "Correlação muito forte (não confiável)".

(** The ten labels. *)
Definition labels : list string :=
  [ "Correlação detectável"; "Correlação inexistente";
    "Correlação fraca"; "Correlação fraca (não confiável)";
    "Correlação moderada"; "Correlação moderada (não confiável)";
    "Correlação forte"; "Correlação forte (não confiável)";
    "Correlação muito forte"; "Correlação muito forte (não confiável)" ].

(** The cut points of the magnitude bands. *)
Definition cut_points : list float := [0.1; 0.3; 0.5; 0.7]%float.

(** The classification table as the specification words it, row by row
    (rows [<0.1], [[0.1,0.3)], [[0.3,0.5)], [[0.5,0.7)], [>=0.7]; columns
    [p < 0.05] and [p >= 0.05]): the label [l] stands in the row of [|r|]
    and the column of [p].  It is compared with [interpretation] below. *)
Definition spec_table (r p : float) (l : string) : Prop :=
  let m := PrimFloat.abs r in
  let significant := (p <? 0.05)%float = true in
  let not_significant := (0.05 <=? p)%float = true in
  ((m <? 0.1)%float = true /\ significant
   /\ l = "Correlação detectável")
  \/ ((m <? 0.1)%float = true /\ not_significant
      /\ l = "Correlação inexistente")
  \/ ((0.1 <=? m)%float = true /\ (m <? 0.3)%float = true /\ significant
      /\ l = "Correlação fraca")
  \/ ((0.1 <=? m)%float = true /\ (m <? 0.3)%float = true
      /\ not_significant /\ l = "Correlação fraca (não confiável)")
  \/ ((0.3 <=? m)%float = true /\ (m <? 0.5)%float = true /\ significant
      /\ l = "Correlação moderada")
  \/ ((0.3 <=? m)%float = true /\ (m <? 0.5)%float = true
      /\ not_significant /\ l = "Correlação moderada (não confiável)")
  \/ ((0.5 <=? m)%float = true /\ (m <? 0.7)%float = true /\ significant
      /\ l = "Correlação forte")
  \/ ((0.5 <=? m)%float = true /\ (m <? 0.7)%float = true
      /\ not_significant /\ l = "Correlação forte (não confiável)")
  \/ ((0.7 <=? m)%float = true /\ significant
      /\ l = "Correlação muito forte")
  \/ ((0.7 <=? m)%float = true /\ not_significant
      /\ l = "Correlação muito forte (não confiável)").

End ReportGenerator.

(** ** The comparison result of either class *)

(** The entries that the result dictionaries of the two classes share:
    the ComparisonResult of the analysis. *)
Record Comparison : Type := {
  test_name : string;
  p_value : float;
  cohens_d : float;
  conclusion : string
}.

Inductive implementation : Type :=
| Analyzer          (* experiment_analyzer.py *)
| Reporter.  (* generate_experiment_report.py *)

Definition analyzer_comparison (r : ExperimentAnalyzer.Result)
  : Comparison :=
  {| test_name := ExperimentAnalyzer.test_name r;
     p_value := ExperimentAnalyzer.p_value r;
     cohens_d := ExperimentAnalyzer.cohens_d r;
     conclusion := ExperimentAnalyzer.conclusion r |}.

Definition reporter_comparison (r : GraphQLvsRESTReportGenerator.Result)
  : Comparison :=
  {| test_name := GraphQLvsRESTReportGenerator.test_name r;
     p_value := GraphQLvsRESTReportGenerator.p_value r;
     cohens_d := GraphQLvsRESTReportGenerator.cohens_d r;
     conclusion := GraphQLvsRESTReportGenerator.conclusion r |}.

Definition fmap {R A B : Type} (f : A -> B) (m : M R A) : M R B :=
  fun w =>
    match m w with
    | (Returns a, w') => (Returns (f a), w')
    | (Raises e, w') => (Raises e, w')
    end.

(** A run of the body of [analyze_rq1] and [analyze_rq2] of the given
    class, read through the shared entries. *)
Definition compare_rq {R : Type} (impl : implementation)
  (lib : Externals R) (column : Row -> float) (wording : Wording)
  (df : DataFrame) : M R Comparison :=
  match impl with
  | Analyzer =>
      fmap analyzer_comparison
        (ExperimentAnalyzer.analyze_rq lib column wording df)
  | Reporter =>
      fmap reporter_comparison
        (GraphQLvsRESTReportGenerator.analyze_rq lib column wording df)
  end.

(** A run of [analyze_rq1] of the given class, read through the shared
    entries. *)
Definition compare_rq1 {R : Type} (impl : implementation)
  (lib : Externals R) (df : DataFrame) : M R Comparison :=
  match impl with
  | Analyzer =>
      fmap analyzer_comparison (ExperimentAnalyzer.analyze_rq1 lib df)
  | Reporter =>
      fmap reporter_comparison
        (GraphQLvsRESTReportGenerator.analyze_rq1 lib df)
  end.

Definition insufficient_data (impl : implementation) : string :=
  match impl with
  | Analyzer => ExperimentAnalyzer.insufficient_data
  | Reporter => GraphQLvsRESTReportGenerator.insufficient_data
  end.

(** ** The Test Selector, in closed form *)

(** The paired test that two normality flags select, as a logged call. *)
Definition selected_test (graphql_normal rest_normal : bool)
  (a b : list float) : call :=
  if graphql_normal && rest_normal
  then TTestRel a b
  else Wilcoxon a b "two-sided".

Definition selected_name (graphql_normal rest_normal : bool) : string :=
  if graphql_normal && rest_normal
  then "Teste t pareado"
  else "Teste de Wilcoxon".

(** What the library answers to a call. *)
Definition answer {R : Type} (lib : Externals R) (c : call)
  : outcome (float * float) :=
  match c with
  | Shapiro x => shapiro_fn lib x
  | TTestRel a b => ttest_rel_fn lib a b
  | Wilcoxon x y alternative => wilcoxon_fn lib x y alternative
  | Pearsonr x y => pearsonr_fn lib x y
  | Spearmanr x y => spearmanr_fn lib x y
  end.

Definition conclusion_of (wording : Wording) (p_value mean_diff : float)
  : string :=
  if (p_value <? 0.05)%float then
    if (mean_diff <? 0)%float
    then graphql_wins wording
    else rest_wins wording
  else no_difference.

Section Selection.
Context {R : Type} (lib : Externals R).
Variables (column : Row -> float) (df : DataFrame).

(** The worlds after the first and after the second normality test. *)
Definition after_graphql (w : world R) : world R :=
  snd (normality lib (column_of "graphql" column df) w).
Definition after_rest (w : world R) : world R :=
  snd (normality lib (column_of "rest" column df) (after_graphql w)).
Definition graphql_verdict (w : world R) : bool * float :=
  fst (normality lib (column_of "graphql" column df) w).
Definition rest_verdict (w : world R) : bool * float :=
  fst (normality lib (column_of "rest" column df) (after_graphql w)).

(** The test that a run started in [w] selects. *)
Definition selected (w : world R) : call :=
  selected_test (fst (graphql_verdict w)) (fst (rest_verdict w))
    (map graphql_mean (paired_groups lib column df))
    (map rest_mean (paired_groups lib column df)).

(** The calls that the two normality tests add to the log. *)
Definition normality_calls (w : world R) : list call :=
  ((if len (column_of "graphql" column df) <? 3 then []
    else [Shapiro (fst (tested_sample lib (column_of "graphql" column df)
                          w))])
   ++
   (if len (column_of "rest" column df) <? 3 then []
    else [Shapiro (fst (tested_sample lib (column_of "rest" column df)
                          (after_graphql w)))]))%list.
End Selection.

(** ** Reproducibility *)

(** A computation is oblivious of the log when its outcome and the state
    in which it leaves the random generator depend on the state of the
    generator alone, and the log only grows. *)
Definition oblivious {R A : Type} (m : M R A) : Prop :=
  forall r : R,
    exists (o : outcome A) (r' : R) (new : list call),
      forall c : list call, m (World r c) = (o, World r' (c ++ new)%list).

(** ** Reference instances of the external routines

    Concrete stand-ins on which the program can be run.  The numpy
    reductions are computed in binary64 in the order of the array, which
    is what numpy computes for arrays of fewer than 8 values (longer
    arrays are summed in blocks, and the last bits can differ).  The state
    of the random generator is one integer.  A scipy routine answers every
    call with the outcome it is given. *)
Module Reference.

Definition float_of_Z (n : Z) : float :=
  PrimFloat.of_uint63 (Uint63.of_Z n).

Definition sum (x : list float) : float :=
  fold_left PrimFloat.add x 0%float.

(** [np.mean]: NaN on an empty array (0/0). *)
Definition mean (x : list float) : float :=
  (sum x / float_of_Z (len x))%float.

(** [np.std] with [ddof=0]: the population standard deviation. *)
Definition std (x : list float) : float :=
  let m := mean x in
  PrimFloat.sqrt (mean (map (fun v => ((v - m) * (v - m))%float) x)).

Fixpoint insert_sorted (v : float) (x : list float) : list float :=
  match x with
  | [] => [v]
  | u :: rest =>
      if (v <=? u)%float then v :: x else u :: insert_sorted v rest
  end.

Definition sort (x : list float) : list float :=
  fold_right insert_sorted [] x.

(** [np.median]: NaN when the array is empty or holds a NaN. *)
Definition median (x : list float) : float :=
  if existsb PrimFloat.is_nan x then nan
  else
    let s := sort x in
    let n := length x in
    match n with
    | O => nan
    | _ =>
        if Nat.even n
        then ((nth (n / 2 - 1) s nan + nth (n / 2) s nan) / 2)%float
        else nth (n / 2) s nan
    end.

Definition pick (keep_new : float -> float -> bool) (acc v : float)
  : float :=
  if PrimFloat.is_nan acc then acc
  else if PrimFloat.is_nan v then v
  else if keep_new v acc then v else acc.

(** [np.min], [np.max]: ValueError on an empty array, NaN when the array
    holds a NaN. *)
Definition minimum (x : list float) : outcome float :=
  match x with
  | [] => Raises ValueError
  | v :: rest => Returns (fold_left (pick PrimFloat.ltb) rest v)
  end.

Definition maximum (x : list float) : outcome float :=
  match x with
  | [] => Raises ValueError
  | v :: rest =>
      Returns (fold_left (pick (fun a b => PrimFloat.ltb b a)) rest v)
  end.

(** A draw of [n] values: the array rotated by the state; the state then
    moves on. *)
Definition draw (seed : Z) (data : list float) (n : Z)
  : list float * Z :=
  let k := Z.to_nat (seed mod (Z.max 1 (len data))) in
  (firstn (Z.to_nat n) (skipn k data ++ firstn k data)%list,
   (seed * 1103515245 + 12345) mod 2147483648).

(** The library in which the scipy routines give the fixed answers
    [normality_answer], [ttest_answer], [rank_answer], [linear_answer]
    and [monotonic_answer]. *)
Definition library
  (normality_answer ttest_answer rank_answer linear_answer
     monotonic_answer : outcome (float * float)) : Externals Z :=
  {| sample_draw := draw;
     np_mean := mean;
     np_median := median;
     np_std := std;
     np_min := minimum;
     np_max := maximum;
     shapiro_fn := fun _ => normality_answer;
     ttest_rel_fn := fun _ _ => ttest_answer;
     wilcoxon_fn := fun _ _ _ => rank_answer;
     pearsonr_fn := fun _ _ => linear_answer;
     spearmanr_fn := fun _ _ => monotonic_answer |}.

(** Fixed answers of the kind scipy gives on well-behaved samples. *)
Definition lab : Externals Z :=
  library (Returns (0.9, 0.5)%float) (Returns (2.0, 0.01)%float)
    (Returns (0.0, 0.5)%float) (Returns (0.0, 1.0)%float)
    (Returns (0.0, 1.0)%float).

(** Fixed answers of the kind scipy gives on degenerate samples:
    Shapiro-Wilk on a constant sample answers W = 1 and p = 1, the paired
    t-test on differences that are all zero answers NaN twice, and the
    Wilcoxon test on differences that are all zero raises ValueError. *)
Definition degenerate : Externals Z :=
  library (Returns (1.0, 1.0)%float) (Returns (nan, nan))
    (Raises ValueError) (Returns (nan, nan)) (Returns (nan, nan)).

Definition start (seed : Z) : world Z := World seed [].

Definition measurement (owner name qtype api : string)
  (time size : float) : Row :=
  {| repository_owner := Some owner;
     repository_name := Some name;
     query_type := Some qtype;
     api_type := api;
     response_time_ms := time;
     response_size_bytes := size |}.

(** Three paired groups and a row without a partner. *)
Definition three_groups : DataFrame :=
  [ measurement "o" "a" "simple" "graphql" 5.0 10.0;
    measurement "o" "a" "simple" "rest" 5.0 20.0;
    measurement "o" "b" "simple" "graphql" 5.0 10.0;
    measurement "o" "b" "simple" "rest" 5.0 20.0;
    measurement "o" "a" "complex" "rest" 5.0 20.0;
    measurement "o" "a" "complex" "graphql" 7.0 20.0;
    measurement "o" "a" "complex" "graphql" 8.0 20.0;
    measurement "n" "z" "complex" "rest" 5.0 20.0 ]%float.

(** One paired group of three measurements a side. *)
Definition one_group : DataFrame :=
  [ measurement "o" "a" "simple" "graphql" 11.0 10.0;
    measurement "o" "a" "simple" "graphql" 12.0 10.0;
    measurement "o" "a" "simple" "graphql" 13.0 10.0;
    measurement "o" "a" "simple" "rest" 21.0 20.0;
    measurement "o" "a" "simple" "rest" 22.0 20.0;
    measurement "o" "a" "simple" "rest" 24.0 20.0 ]%float.

(** Paired means A = [5, 5, 5] and B = [5, 5, 5]. *)
Definition fives : DataFrame :=
  [ measurement "o" "a" "simple" "graphql" 5.0 10.0;
    measurement "o" "a" "simple" "rest" 5.0 10.0;
    measurement "o" "b" "simple" "graphql" 5.0 10.0;
    measurement "o" "b" "simple" "rest" 5.0 10.0;
    measurement "o" "c" "simple" "graphql" 5.0 10.0;
    measurement "o" "c" "simple" "rest" 5.0 10.0 ]%float.

(** Paired means A = [5, 5] and B = [5, 5]: the pooled samples have two
    values each. *)
Definition two_fives : DataFrame :=
  [ measurement "o" "a" "simple" "graphql" 5.0 10.0;
    measurement "o" "a" "simple" "rest" 5.0 10.0;
    measurement "o" "b" "simple" "graphql" 5.0 10.0;
    measurement "o" "b" "simple" "rest" 5.0 10.0 ]%float.

(** Two pairs whose differences add up to more than the largest
    binary64 value. *)
Definition huge : DataFrame :=
  [ measurement "o" "a" "simple" "graphql" 1.5e308 10.0;
    measurement "o" "a" "simple" "rest" 0.0 10.0;
    measurement "o" "b" "simple" "graphql" 1e308 10.0;
    measurement "o" "b" "simple" "rest" 0.0 10.0 ]%float.

End Reference.

(** * Further code of the three classes *)

(** ** [analyze_by_query_type], the same text in both experiment classes *)

(** The dictionary stored for one query type. *)
Record TypeMeans : Type := {
  graphql_time_mean : float;
  rest_time_mean : float;
  graphql_size_mean : float;
  rest_size_mean : float
}.

(** The list the loop runs over. *)
Definition query_types : list string := ["simple"; "complex"; "multiple"].

(** [df['query_type'] == query_type]: false on a missing cell. *)
Definition has_query_type (qt : string) (r : Row) : bool :=
  match query_type r with
  | Some q => String.eqb q qt
  | None => false
  end.

Section ByType.
Context {R : Type} (lib : Externals R).

(** [np.mean(x) if len(x) > 0 else 0] *)
Definition mean_or_zero (x : list float) : float :=
  if 0 <? len x then np_mean lib x else 0%float.

(** [analyze_by_query_type(self)]: the dictionary, as the list of its
    entries in the order of insertion.  The [print] calls of
    [ExperimentAnalyzer] are left out. *)
Definition analyze_by_query_type (df : DataFrame)
  : list (string * TypeMeans) :=
  flat_map
    (fun qt =>
       let type_data := List.filter (has_query_type qt) df in
       if 0 <? len type_data then
         [ (qt,
            {| graphql_time_mean :=
                 mean_or_zero (column_of "graphql" response_time_ms type_data);
               rest_time_mean :=
                 mean_or_zero (column_of "rest" response_time_ms type_data);
               graphql_size_mean :=
                 mean_or_zero
                   (column_of "graphql" response_size_bytes type_data);
               rest_size_mean :=
                 mean_or_zero
                   (column_of "rest" response_size_bytes type_data) |}) ]
       else [])
    query_types.

(** The analyses of [main] of [experiment_analyzer.py]: [analyze_rq1],
    [analyze_rq2] and [analyze_by_query_type], and then the same three
    again inside [generate_summary_report], whose text is built from the
    second results. *)
Definition analyzer_main (df : DataFrame)
  : M R ((ExperimentAnalyzer.Result * ExperimentAnalyzer.Result)
         * (ExperimentAnalyzer.Result * ExperimentAnalyzer.Result)) :=
  printed <- ExperimentAnalyzer.run_analysis lib df ;;
  let by_type := analyze_by_query_type df in
  reported <- ExperimentAnalyzer.run_analysis lib df ;;
  let by_type' := analyze_by_query_type df in
  ret (printed, reported).

(** The analyses of [generate_complete_report] of
    [generate_experiment_report.py]: [analyze_rq1] and [analyze_rq2], and
    then the same two again inside [generate_markdown_report]. *)
Definition reporter_complete_report (df : DataFrame)
  : M R ((GraphQLvsRESTReportGenerator.Result
          * GraphQLvsRESTReportGenerator.Result)
         * (GraphQLvsRESTReportGenerator.Result
            * GraphQLvsRESTReportGenerator.Result)) :=
  discarded <- GraphQLvsRESTReportGenerator.run_analysis lib df ;;
  reported <- GraphQLvsRESTReportGenerator.run_analysis lib df ;;
  ret (discarded, reported).
End ByType.

(** ** The sentences that [generate_markdown_report] of
    [GraphQLvsRESTReportGenerator] derives from a result *)

Module Markdown.

(** Section 4.3.3: the test the interpretation names. *)
Definition interpretation_test (r : GraphQLvsRESTReportGenerator.Result)
  : string :=
  if GraphQLvsRESTReportGenerator.graphql_normal r
     && GraphQLvsRESTReportGenerator.rest_normal r
  then "Teste t pareado"
  else "Teste de Wilcoxon".

(** Section 4.3.3: what is said of the null hypothesis. *)
Definition null_hypothesis (r : GraphQLvsRESTReportGenerator.Result)
  : string :=
  if (GraphQLvsRESTReportGenerator.p_value r <? 0.05)%float
  then "rejeitamos a hipótese nula (p < 0.05)"
  else "não rejeitamos a hipótese nula (p ≥ 0.05)".

(** Section 4.3.3: the size of the effect, in words. *)
Definition effect_magnitude (cohens_d : float) : string :=
  if (PrimFloat.abs cohens_d <? 0.2)%float then "muito pequeno"
  else if (PrimFloat.abs cohens_d <? 0.5)%float then "pequeno"
  else if (PrimFloat.abs cohens_d <? 0.8)%float then "médio"
  else "grande".

(** The place of a size in the order of the four. *)
Definition magnitude_rank (size : string) : nat :=
  if String.eqb size "muito pequeno" then 0
  else if String.eqb size "pequeno" then 1
  else if String.eqb size "médio" then 2
  else 3.

End Markdown.

(** ** [generate_report.py]: class [ReportGenerator], the research
    questions *)

Module PullRequests.
Import ReportGenerator.

(** The reductions of a pandas [Series] that [get_summary_stats] calls;
    they answer NaN where numpy raises, and [std] is the sample standard
    deviation. *)
Record Series : Type := {
  pd_mean : list float -> float;
  pd_median : list float -> float;
  pd_std : list float -> float;
  pd_min : list float -> float;
  pd_max : list float -> float
}.

Definition notna (v : float) : bool := negb (PrimFloat.is_nan v).

(** [series.dropna()] *)
Definition Series_dropna (series : list float) : list float :=
  List.filter notna series.

(** Row [i] has a value in each of the columns. *)
Definition complete (columns : list (list float)) (i : nat) : bool :=
  forallb (fun series => notna (nth i series nan)) columns.

(** The values of a column in the rows that [keep] selects. *)
Definition take_rows (keep : nat -> bool) (series : list float)
  : list float :=
  map snd
    (List.filter (fun iv => keep (fst iv))
       (combine (seq 0 (length series)) series)).

(** [df[name]] for each name of a list, KeyError at the first column
    that the frame does not have. *)
Fixpoint columns_of (df : gmap string (list float)) (names : list string)
  : outcome (list (list float)) :=
  match names with
  | [] => Returns []
  | name :: rest =>
      match df !! name with
      | None => Raises KeyError
      | Some series =>
          match columns_of df rest with
          | Raises e => Raises e
          | Returns others => Returns (series :: others)
          end
      end
  end.

(** [df.dropna(subset=subset)]: the rows without a missing value in the
    columns of [subset]; KeyError when the frame lacks one of them. *)
Definition dropna (df : gmap string (list float)) (subset : list string)
  : outcome (gmap string (list float)) :=
  match columns_of df subset with
  | Raises e => Raises e
  | Returns columns => Returns (take_rows (complete columns) <$> df)
  end.

(** A frame of [n] rows: every column has [n] cells. *)
Definition rows (df : gmap string (list float)) (n : nat) : Prop :=
  forall (name : string) (series : list float),
    df !! name = Some series -> length series = n.

(** The entry of one research question. *)
Record Entry : Type := {
  question : string;
  metric : string;
  correlations : gmap string Correlations;
  summary_stats : Stats.t
}.

Definition process_metrics : list string :=
  ["pr_size_score"; "analysis_time_hours"; "pr_description_length";
   "total_interactions"].

Definition outcome_metrics : list string :=
  ["pr_status_binary"; "pr_reviews_count"].

(** What a call of scipy in [analyze_research_questions] is given: two
    columns of one length, more than 10 values, none missing. *)
Definition complete_pair (c : call) : bool :=
  match c with
  | Pearsonr x y | Spearmanr x y =>
      (length x =? length y)%nat && (10 <? len x)
      && forallb notna x && forallb notna y
  | _ => false
  end.

(** The calls that a computation adds to the log all satisfy [P]. *)
Definition logs_only {R A : Type} (P : call -> bool) (m : M R A) : Prop :=
  forall w : world R,
    exists new : list call,
      calls (snd (m w)) = (calls w ++ new)%list
      /\ forallb P new = true.

Section Questions.
Context {R : Type} (lib : Externals R) (pd : Series).

(** [get_summary_stats(self, data, metric)] *)
Definition get_summary_stats (data : gmap string (list float))
  (metric : string) : outcome Stats.t :=
  match data !! metric with
  | None => Raises KeyError
  | Some series =>
      let values := Series_dropna series in
      Returns {| Stats.mean := pd_mean pd values;
                 Stats.median := pd_median pd values;
                 Stats.std := pd_std pd values;
                 Stats.min := pd_min pd values;
                 Stats.max := pd_max pd values;
                 Stats.count := len values |}
  end.

(** The dictionary literal that [analyze_research_questions] writes out
    for each question; its entries are evaluated in this order. *)
Definition rq_entry (valid_data : gmap string (list float))
  (question metric process_metric outcome_metric : string) : M R Entry :=
  correlations <-
    calculate_correlations lib valid_data process_metric [outcome_metric] ;;
  summary_stats <- lift (get_summary_stats valid_data process_metric) ;;
  ret {| question := question;
         metric := metric;
         correlations := correlations;
         summary_stats := summary_stats |}.

(** [analyze_research_questions(self)] on the frame [self.df]. *)
Definition analyze_research_questions (df : gmap string (list float))
  : M R (gmap string Entry) :=
  let results : gmap string Entry := ∅ in
  valid_data <- lift (dropna df (process_metrics ++ outcome_metrics)) ;;
  rq01 <- rq_entry valid_data
    "Qual a relação entre o tamanho dos PRs e o feedback final das revisões?"
    "Tamanho do PR" "pr_size_score" "pr_status_binary" ;;
  let results := <["RQ01" := rq01]> results in
  rq02 <- rq_entry valid_data
    "Qual a relação entre o tempo de análise dos PRs e o feedback final das revisões?"
    "Tempo de Análise" "analysis_time_hours" "pr_status_binary" ;;
  let results := <["RQ02" := rq02]> results in
  rq03 <- rq_entry valid_data
    "Qual a relação entre a descrição dos PRs e o feedback final das revisões?"
    "Tamanho da Descrição" "pr_description_length" "pr_status_binary" ;;
  let results := <["RQ03" := rq03]> results in
  rq04 <- rq_entry valid_data
    "Qual a relação entre as interações nos PRs e o feedback final das revisões?"
    "Total de Interações" "total_interactions" "pr_status_binary" ;;
  let results := <["RQ04" := rq04]> results in
  rq05 <- rq_entry valid_data
    "Qual a relação entre o tamanho dos PRs e o número de revisões realizadas?"
    "Tamanho do PR" "pr_size_score" "pr_reviews_count" ;;
  let results := <["RQ05" := rq05]> results in
  rq06 <- rq_entry valid_data
    "Qual a relação entre o tempo de análise dos PRs e o número de revisões realizadas?"
    "Tempo de Análise" "analysis_time_hours" "pr_reviews_count" ;;
  let results := <["RQ06" := rq06]> results in
  rq07 <- rq_entry valid_data
    "Qual a relação entre a descrição dos PRs e o número de revisões realizadas?"
    "Tamanho da Descrição" "pr_description_length" "pr_reviews_count" ;;
  let results := <["RQ07" := rq07]> results in
  rq08 <- rq_entry valid_data
    "Qual a relação entre as interações nos PRs e o número de revisões realizadas?"
    "Total de Interações" "total_interactions" "pr_reviews_count" ;;
  let results := <["RQ08" := rq08]> results in
  ret results.
End Questions.

Section Findings.
(** [str.upper] and the format [:.3f] of a float. *)
Variables (upper : string -> string) (format_3f : float -> string).

(** The body of the loop of [analyze_hypothesis]: what one entry of the
    dictionary appends to [significant_results]. *)
Definition hypothesis_line (hypothesis_type metric : string)
  (corr_data : Correlations) : list string :=
  let pearson_r := correlation (pearson corr_data) in
  let pearson_p := p_value (pearson corr_data) in
  if (pearson_p <? 0.05)%float then
    if existsb (String.eqb hypothesis_type) ["RQ01"; "RQ03"; "RQ04"] then
      if (0 <? pearson_r)%float
      then [(upper metric ++ " (correlação positiva)")%string]
      else [(upper metric
             ++ " (correlação negativa - contraria hipótese)")%string]
    else if String.eqb hypothesis_type "RQ02" then
      if (pearson_r <? 0)%float
      then [(upper metric ++ " (correlação negativa)")%string]
      else [(upper metric
             ++ " (correlação positiva - contraria hipótese)")%string]
    else if existsb (String.eqb hypothesis_type)
              ["RQ05"; "RQ06"; "RQ07"; "RQ08"] then
      if (0 <? pearson_r)%float
      then [(upper metric ++ " (correlação positiva)")%string]
      else [(upper metric
             ++ " (correlação negativa - contraria hipótese)")%string]
    else []
  else [].

Definition not_supported : string :=
  "Não suportada: nenhuma correlação significativa encontrada".

(** [analyze_hypothesis(self, rq_result, hypothesis_type)].  The entries
    of the dictionary are visited in the order of [map_to_list]; Python
    visits them in the order of insertion, which is the same for the
    dictionaries of one entry that [analyze_research_questions] builds. *)
Definition analyze_hypothesis (rq_result : Entry) (hypothesis_type : string)
  : string :=
  let significant_results :=
    flat_map
      (fun item => hypothesis_line hypothesis_type (fst item) (snd item))
      (map_to_list (correlations rq_result)) in
  if negb (len significant_results =? 0)
  then ("Parcialmente suportada: correlações significativas encontradas com "
        ++ String.concat ", " significant_results)%string
  else not_supported.

(** The body of the loop of [get_main_finding] on the pair of
    [strongest_corr] and [strongest_value]. *)
Definition strongest_step (acc : option string * float)
  (item : string * Correlations) : option string * float :=
  let pearson_r := PrimFloat.abs (correlation (pearson (snd item))) in
  let pearson_p := p_value (pearson (snd item)) in
  if (pearson_p <? 0.05)%float && (snd acc <? pearson_r)%float
  then (Some (fst item), pearson_r)
  else acc.

Definition no_finding : string :=
  "Nenhuma correlação significativa identificada".

(** [get_main_finding(self, rq_result)]; [None] and the empty string
    count as false.  The order of the visit is that of [map_to_list], as
    in [analyze_hypothesis]. *)
Definition get_main_finding (rq_result : Entry) : outcome string :=
  let strongest_corr :=
    fst (fold_left strongest_step (map_to_list (correlations rq_result))
           (None, 0%float)) in
  match strongest_corr with
  | Some name =>
      if negb (String.eqb name "") then
        match correlations rq_result !! name with
        | None => Raises KeyError
        | Some corr_data =>
            let direction :=
              if (0 <? correlation (pearson corr_data))%float
              then "positiva" else "negativa" in
            Returns ("Correlação " ++ direction
                     ++ " significativa mais forte com " ++ upper name
                     ++ " (r=" ++ format_3f (correlation (pearson corr_data))
                     ++ ")")%string
        end
      else Returns no_finding
  | None => Returns no_finding
  end.

(** [rq_results[name]] *)
Definition getitem_rq (rq_results : gmap string Entry) (name : string)
  : outcome Entry :=
  match rq_results !! name with
  | Some entry => Returns entry
  | None => Raises KeyError
  end.

(** The verdicts on the four hypotheses and the eight main findings that
    [generate_markdown_report] writes, from the results of
    [analyze_research_questions]. *)
Definition report_verdicts {R : Type} (lib : Externals R) (pd : Series)
  (df : gmap string (list float)) : M R (list string * list string) :=
  rq_results <- analyze_research_questions lib pd df ;;
  rq01 <- lift (getitem_rq rq_results "RQ01") ;;
  rq02 <- lift (getitem_rq rq_results "RQ02") ;;
  rq03 <- lift (getitem_rq rq_results "RQ03") ;;
  rq04 <- lift (getitem_rq rq_results "RQ04") ;;
  let hypotheses :=
    [ analyze_hypothesis rq01 "RQ01"; analyze_hypothesis rq02 "RQ02";
      analyze_hypothesis rq03 "RQ03"; analyze_hypothesis rq04 "RQ04" ] in
  f01 <- lift (get_main_finding rq01) ;;
  f02 <- lift (get_main_finding rq02) ;;
  f03 <- lift (get_main_finding rq03) ;;
  f04 <- lift (get_main_finding rq04) ;;
  rq05 <- lift (getitem_rq rq_results "RQ05") ;;
  f05 <- lift (get_main_finding rq05) ;;
  rq06 <- lift (getitem_rq rq_results "RQ06") ;;
  f06 <- lift (get_main_finding rq06) ;;
  rq07 <- lift (getitem_rq rq_results "RQ07") ;;
  f07 <- lift (get_main_finding rq07) ;;
  rq08 <- lift (getitem_rq rq_results "RQ08") ;;
  f08 <- lift (get_main_finding rq08) ;;
  ret (hypotheses, [f01; f02; f03; f04; f05; f06; f07; f08]).
End Findings.

(** A frame of twelve pull requests of which two lack a value, and a
    frame that lacks a column. *)
Definition twelve : gmap string (list float) :=
  <["pr_size_score" :=
      [1; 2; nan; 4; 5; 6; 7; 8; 9; 10; 11; 12]%float]>
  (<["analysis_time_hours" :=
       [5; 3; 8; 1; 9; 2; 7; 4; 6; 3; 2; 1]%float]>
  (<["pr_description_length" :=
       [200; 210; 180; 400; 90; 310; 250; 260; 120; 330; 205; 199]%float]>
  (<["total_interactions" :=
       [2; 4; 1; 3; 5; 2; 2; 8; 1; nan; 3; 6]%float]>
  (<["pr_status_binary" :=
       [1; 0; 1; 1; 0; 1; 1; 0; 1; 1; 0; 1]%float]>
  (<["pr_reviews_count" :=
       [1; 2; 1; 0; 3; 1; 2; 2; 1; 0; 4; 1]%float]>
  (<["pr_additions" :=
       [10; 20; 30; 40; 50; 60; 70; 80; 90; 100; 110; nan]%float]> ∅)))))).

Definition without_reviews : gmap string (list float) :=
  delete "pr_reviews_count" twelve.

(** [Series.std]: the sample standard deviation, NaN on fewer than two
    values. *)
Definition sample_std (x : list float) : float :=
  if len x <? 2 then nan
  else
    let m := Reference.mean x in
    PrimFloat.sqrt
      (Reference.sum (map (fun v => ((v - m) * (v - m))%float) x)
       / Reference.float_of_Z (len x - 1))%float.

(** Stand-ins for the pandas reductions, computed in the order of the
    series. *)
Definition series : Series :=
  {| pd_mean := Reference.mean;
     pd_median := Reference.median;
     pd_std := sample_std;
     pd_min := fun x => match Reference.minimum x with
                        | Returns v => v
                        | Raises _ => nan
                        end;
     pd_max := fun x => match Reference.maximum x with
                        | Returns v => v
                        | Raises _ => nan
                        end |}.

End PullRequests.

(** ** Relations and data used in the statements below *)

(** Two rows that agree on the cells that an analysis of [column]
    reads: the three key cells, the API and the column itself. *)
Definition same_but (column : Row -> float) (r r' : Row) : Prop :=
  repository_owner r = repository_owner r'
  /\ repository_name r = repository_name r'
  /\ query_type r = query_type r'
  /\ api_type r = api_type r'
  /\ column r = column r'.

(** A computation that leaves the random generator in the state in which
    it found it. *)
Definition keeps_rng {R A : Type} (m : M R A) : Prop :=
  forall w : world R, rng (snd (m w)) = rng w.

(** A frame of twelve pull requests without a missing value. *)
Definition dozen : gmap string (list float) :=
  <["pr_size_score" :=
      [1; 2; 3; 4; 5; 6; 7; 8; 9; 10; 11; 12]%float]>
  (<["analysis_time_hours" :=
       [5; 3; 8; 1; 9; 2; 7; 4; 6; 3; 2; 1]%float]>
  (<["pr_description_length" :=
       [200; 210; 180; 400; 90; 310; 250; 260; 120; 330; 205; 199]%float]>
  (<["total_interactions" :=
       [2; 4; 1; 3; 5; 2; 2; 8; 1; 7; 3; 6]%float]>
  (<["pr_status_binary" :=
       [1; 0; 1; 1; 0; 1; 1; 0; 1; 1; 0; 1]%float]>
  (<["pr_reviews_count" :=
       [1; 2; 1; 0; 3; 1; 2; 2; 1; 0; 4; 1]%float]> ∅))))).

(** An entry whose correlations are those of the pull request status
    alone, with the Pearson coefficient [r] and p-value [p]. *)
Definition entry_with (r p : float) : PullRequests.Entry :=
  {| PullRequests.question := "";
     PullRequests.metric := "";
     PullRequests.correlations :=
       {[ "pr_status_binary" :=
            {| ReportGenerator.pearson :=
                 {| ReportGenerator.correlation := r;
                    ReportGenerator.p_value := p |};
               ReportGenerator.spearman :=
                 {| ReportGenerator.correlation := r;
                    ReportGenerator.p_value := p |} |} ]};
     PullRequests.summary_stats :=
       {| Stats.mean := 0; Stats.median := 0; Stats.std := 0;
          Stats.min := 0; Stats.max := 0; Stats.count := 0 |} |}.





(** * Properties *)

(** ** Stepping through a computation *)

Lemma bind_returns {R A B : Type} (m : M R A) (k : A -> M R B)
  (w w' : world R) (a : A) :
  m w = (Returns a, w') -> bind m k w = k a w'.
Proof. intros H. unfold bind. rewrite H. reflexivity. Qed.

Lemma bind_ret {R A B : Type} (a : A) (k : A -> M R B) (w : world R) :
  bind (ret a) k w = k a w.
Proof. reflexivity. Qed.

Lemma bind_lift_returns {R A B : Type} (a : A) (k : A -> M R B)
  (w : world R) :
  bind (lift (Returns a)) k w = k a w.
Proof. reflexivity. Qed.

(** ** The Normality Classifier *)

Section NormalityFacts.
Context {R : Type} (lib : Externals R).

Lemma test_normality_normality (data : list float) (w : world R) :
  test_normality lib data w
  = (Returns (fst (normality lib data w)), snd (normality lib data w)).
Proof.
  unfold test_normality, normality, tested_sample.
  destruct (len data <? 3); [reflexivity|].
  destruct (5000 <? len data).
  - unfold bind at 1. unfold Series_sample.
    destruct (sample_draw lib (rng w) data (Z.min 5000 (len data)))
      as [s r'].
    unfold try_except, bind, shapiro, ret; simpl.
    destruct (shapiro_fn lib s) as [[stat p]|e]; reflexivity.
  - rewrite bind_ret.
    unfold try_except, bind, shapiro, ret; simpl.
    destruct (shapiro_fn lib data) as [[stat p]|e]; reflexivity.
Qed.

(** [test_normality] never raises. *)
Lemma test_normality_returns (data : list float) (w : world R) :
  exists v w', test_normality lib data w = (Returns v, w').
Proof. rewrite test_normality_normality. eauto. Qed.

Lemma verdict_of_sound (answer : outcome (float * float)) :
  fst (verdict_of answer) = true ->
  (0.05 <? snd (verdict_of answer))%float = true.
Proof.
  destruct answer as [[stat p]|e]; simpl; [tauto | discriminate].
Qed.

Lemma normality_sound (data : list float) (w : world R) :
  fst (fst (normality lib data w)) = true ->
  (0.05 <? snd (fst (normality lib data w)))%float = true.
Proof.
  unfold normality. destruct (len data <? 3); simpl; [discriminate|].
  destruct (tested_sample lib data w) as [s w1]; simpl.
  apply verdict_of_sound.
Qed.
End NormalityFacts.

(** ** The Test Selector *)

Section SelectorFacts.
Context {R : Type} (lib : Externals R).
Variables (column : Row -> float) (wording : Wording) (df : DataFrame).

#[local] Abbreviation pairs := (paired_groups lib column df) (only parsing).
#[local] Abbreviation all_graphql :=
  (column_of "graphql" column df) (only parsing).
#[local] Abbreviation all_rest := (column_of "rest" column df) (only parsing).

Lemma len_differences : len (map difference pairs) = len pairs.
Proof. unfold len. rewrite length_map. reflexivity. Qed.

Lemma analyzer_tested (w : world R) (gs rs : Stats.t) :
  1 < len pairs ->
  describe lib all_graphql = Returns gs ->
  describe lib all_rest = Returns rs ->
  ExperimentAnalyzer.analyze_rq lib column wording df w =
  match answer lib (selected lib column df w) with
  | Returns (_, p) =>
      (Returns
         {| ExperimentAnalyzer.graphql_stats := gs;
            ExperimentAnalyzer.rest_stats := rs;
            ExperimentAnalyzer.test_name :=
              selected_name (fst (graphql_verdict lib column df w))
                (fst (rest_verdict lib column df w));
            ExperimentAnalyzer.p_value := p;
            ExperimentAnalyzer.cohens_d :=
              effect_size lib (map difference pairs);
            ExperimentAnalyzer.conclusion :=
              conclusion_of wording p (np_mean lib (map difference pairs));
            ExperimentAnalyzer.mean_difference :=
              np_mean lib (map difference pairs);
            ExperimentAnalyzer.graphql_faster :=
              (np_mean lib (map difference pairs) <? 0)%float |},
       record_call (selected lib column df w) (after_rest lib column df w))
  | Raises e =>
      (Raises e,
       record_call (selected lib column df w) (after_rest lib column df w))
  end.
Proof.
  intros Hn Hg Hr.
  unfold ExperimentAnalyzer.analyze_rq.
  rewrite Hg, bind_lift_returns, Hr, bind_lift_returns.
  rewrite (bind_returns _ _ _ _ _
             (test_normality_normality lib all_graphql w)).
  rewrite (bind_returns _ _ _ _ _
             (test_normality_normality lib all_rest
                (snd (normality lib all_graphql w)))).
  unfold selected, selected_test, selected_name, graphql_verdict,
    rest_verdict, after_rest, after_graphql.
  destruct (normality lib all_graphql w) as [[gn gp] w1]; simpl.
  destruct (normality lib all_rest w1) as [[rn rp] w2]; simpl.
  rewrite len_differences.
  assert (E1 : (1 <? len pairs) = true) by (apply Z.ltb_lt; exact Hn).
  assert (E0 : (len pairs =? 0) = false) by (apply Z.eqb_neq; lia).
  rewrite E1, E0.
  unfold bind at 1. unfold bind at 1.
  destruct (gn && rn); simpl.
  - unfold ttest_rel.
    destruct (ttest_rel_fn lib (map graphql_mean pairs)
                (map rest_mean pairs)) as [[t p]|e]; reflexivity.
  - unfold wilcoxon.
    destruct (wilcoxon_fn lib (map graphql_mean pairs)
                (map rest_mean pairs) "two-sided") as [[t p]|e];
      reflexivity.
Qed.
Lemma analyzer_untested (w : world R) (gs rs : Stats.t) :
  len pairs <= 1 ->
  describe lib all_graphql = Returns gs ->
  describe lib all_rest = Returns rs ->
  ExperimentAnalyzer.analyze_rq lib column wording df w =
  (Returns
     {| ExperimentAnalyzer.graphql_stats := gs;
        ExperimentAnalyzer.rest_stats := rs;
        ExperimentAnalyzer.test_name := "N/A";
        ExperimentAnalyzer.p_value := 1.0%float;
        ExperimentAnalyzer.cohens_d := 0.0%float;
        ExperimentAnalyzer.conclusion :=
          ExperimentAnalyzer.insufficient_data;
        ExperimentAnalyzer.mean_difference :=
          if negb (len pairs =? 0)
          then np_mean lib (map difference pairs)
          else 0%float;
        ExperimentAnalyzer.graphql_faster :=
          if negb (len pairs =? 0)
          then (np_mean lib (map difference pairs) <? 0)%float
          else false |},
   after_rest lib column df w).
Proof.
  intros Hn Hg Hr.
  unfold ExperimentAnalyzer.analyze_rq.
  rewrite Hg, bind_lift_returns, Hr, bind_lift_returns.
  rewrite (bind_returns _ _ _ _ _
             (test_normality_normality lib all_graphql w)).
  rewrite (bind_returns _ _ _ _ _
             (test_normality_normality lib all_rest
                (snd (normality lib all_graphql w)))).
  unfold after_rest, after_graphql.
  destruct (normality lib all_graphql w) as [[gn gp] w1]; simpl.
  destruct (normality lib all_rest w1) as [[rn rp] w2]; simpl.
  rewrite len_differences.
  assert (E1 : (1 <? len pairs) = false) by (apply Z.ltb_ge; exact Hn).
  rewrite E1. reflexivity.
Qed.

Lemma reporter_tested (w : world R) (gs rs : Stats.t) :
  1 < len pairs ->
  describe lib all_graphql = Returns gs ->
  describe lib all_rest = Returns rs ->
  GraphQLvsRESTReportGenerator.analyze_rq lib column wording df w =
  match answer lib (selected lib column df w) with
  | Returns (_, p) =>
      (Returns
         {| GraphQLvsRESTReportGenerator.graphql_stats := gs;
            GraphQLvsRESTReportGenerator.rest_stats := rs;
            GraphQLvsRESTReportGenerator.test_name :=
              selected_name (fst (graphql_verdict lib column df w))
                (fst (rest_verdict lib column df w));
            GraphQLvsRESTReportGenerator.p_value := p;
            GraphQLvsRESTReportGenerator.cohens_d :=
              effect_size lib (map difference pairs);
            GraphQLvsRESTReportGenerator.conclusion :=
              conclusion_of wording p (np_mean lib (map difference pairs));
            GraphQLvsRESTReportGenerator.graphql_normal :=
              fst (graphql_verdict lib column df w);
            GraphQLvsRESTReportGenerator.rest_normal :=
              fst (rest_verdict lib column df w);
            GraphQLvsRESTReportGenerator.graphql_p :=
              snd (graphql_verdict lib column df w);
            GraphQLvsRESTReportGenerator.rest_p :=
              snd (rest_verdict lib column df w) |},
       record_call (selected lib column df w) (after_rest lib column df w))
  | Raises e =>
      (Raises e,
       record_call (selected lib column df w) (after_rest lib column df w))
  end.
Proof.
  intros Hn Hg Hr.
  unfold GraphQLvsRESTReportGenerator.analyze_rq.
  rewrite Hg, bind_lift_returns, Hr, bind_lift_returns.
  rewrite (bind_returns _ _ _ _ _
             (test_normality_normality lib all_graphql w)).
  rewrite (bind_returns _ _ _ _ _
             (test_normality_normality lib all_rest
                (snd (normality lib all_graphql w)))).
  unfold selected, selected_test, selected_name, graphql_verdict,
    rest_verdict, after_rest, after_graphql.
  destruct (normality lib all_graphql w) as [[gn gp] w1]; simpl.
  destruct (normality lib all_rest w1) as [[rn rp] w2]; simpl.
  rewrite len_differences.
  assert (E1 : (1 <? len pairs) = true) by (apply Z.ltb_lt; exact Hn).
  rewrite E1.
  unfold bind at 1. unfold bind at 1.
  destruct (gn && rn); simpl.
  - unfold ttest_rel.
    destruct (ttest_rel_fn lib (map graphql_mean pairs)
                (map rest_mean pairs)) as [[t p]|e]; reflexivity.
  - unfold wilcoxon.
    destruct (wilcoxon_fn lib (map graphql_mean pairs)
                (map rest_mean pairs) "two-sided") as [[t p]|e];
      reflexivity.
Qed.

Lemma reporter_untested (w : world R) (gs rs : Stats.t) :
  len pairs <= 1 ->
  describe lib all_graphql = Returns gs ->
  describe lib all_rest = Returns rs ->
  GraphQLvsRESTReportGenerator.analyze_rq lib column wording df w =
  (Returns
     {| GraphQLvsRESTReportGenerator.graphql_stats := gs;
        GraphQLvsRESTReportGenerator.rest_stats := rs;
        GraphQLvsRESTReportGenerator.test_name := "N/A";
        GraphQLvsRESTReportGenerator.p_value := 1.0%float;
        GraphQLvsRESTReportGenerator.cohens_d := 0.0%float;
        GraphQLvsRESTReportGenerator.conclusion :=
          GraphQLvsRESTReportGenerator.insufficient_data;
        GraphQLvsRESTReportGenerator.graphql_normal :=
          fst (graphql_verdict lib column df w);
        GraphQLvsRESTReportGenerator.rest_normal :=
          fst (rest_verdict lib column df w);
        GraphQLvsRESTReportGenerator.graphql_p :=
          snd (graphql_verdict lib column df w);
        GraphQLvsRESTReportGenerator.rest_p :=
          snd (rest_verdict lib column df w) |},
   after_rest lib column df w).
Proof.
  intros Hn Hg Hr.
  unfold GraphQLvsRESTReportGenerator.analyze_rq.
  rewrite Hg, bind_lift_returns, Hr, bind_lift_returns.
  rewrite (bind_returns _ _ _ _ _
             (test_normality_normality lib all_graphql w)).
  rewrite (bind_returns _ _ _ _ _
             (test_normality_normality lib all_rest
                (snd (normality lib all_graphql w)))).
  unfold graphql_verdict, rest_verdict, after_rest, after_graphql.
  destruct (normality lib all_graphql w) as [[gn gp] w1]; simpl.
  destruct (normality lib all_rest w1) as [[rn rp] w2]; simpl.
  rewrite len_differences.
  assert (E1 : (1 <? len pairs) = false) by (apply Z.ltb_ge; exact Hn).
  rewrite E1. reflexivity.
Qed.

(** When the descriptive statistics raise, so does the analysis, before
    any test is called. *)
Lemma analyzer_describe_raises (w : world R) (e : exn) :
  describe lib all_graphql = Raises e ->
  ExperimentAnalyzer.analyze_rq lib column wording df w = (Raises e, w).
Proof.
  intros Hg. unfold ExperimentAnalyzer.analyze_rq. rewrite Hg. reflexivity.
Qed.
End SelectorFacts.

(** * The claims: Normality Classifier *)

(** C6.  A sample of fewer than 3 values is classified not normal with
    p-value 1.0; the world is left as it was, so the goodness-of-fit test
    is not called and no random draw is made. *)
Theorem small_sample_is_not_normal {R : Type} (lib : Externals R)
  (data : list float) (w : world R) :
  len data < 3 ->
  test_normality lib data w = (Returns (false, 1.0%float), w).
Proof.
  intros H. unfold test_normality.
  replace (len data <? 3) with true by (symmetry; apply Z.ltb_lt; exact H).
  reflexivity.
Qed.

Lemma small_sample_is_not_normal_witness :
  test_normality
    (Reference.library (Returns (0.9, 0.5)%float) (Raises ValueError)
       (Raises ValueError) (Raises ValueError) (Raises ValueError))
    [4.0; 2.0]%float (Reference.start 7)
  = (Returns (false, 1.0%float), Reference.start 7).
Proof.
  apply small_sample_is_not_normal. vm_compute. reflexivity.
Defined.

(** C7, as the code has it.  On a sample of at least 3 values the
    goodness-of-fit test is called once, on the sample itself or on the
    draw of 5000 values.  When it returns a p-value, the verdict is
    [p_value > 0.05] with that p-value; when it raises, whatever the
    exception, the verdict is (False, 0.0) and nothing is raised.  Nothing
    else leads to the verdict (False, 0.0): it means that the test raised
    or that it returned the p-value 0.0 itself. *)
Theorem normality_decision_rule {R : Type} (lib : Externals R)
  (data : list float) (w : world R) :
  3 <= len data ->
  let s := fst (tested_sample lib data w) in
  let w' := record_call (Shapiro s) (snd (tested_sample lib data w)) in
  (forall stat p,
      shapiro_fn lib s = Returns (stat, p) ->
      test_normality lib data w = (Returns ((0.05 <? p)%float, p), w'))
  /\ (forall e,
      shapiro_fn lib s = Raises e ->
      test_normality lib data w = (Returns (false, 0.0%float), w'))
  /\ (fst (test_normality lib data w) = Returns (false, 0.0%float) ->
      (exists e, shapiro_fn lib s = Raises e)
      \/ (exists stat, shapiro_fn lib s = Returns (stat, 0.0%float))).
Proof.
  intros H s w'.
  assert (E : (len data <? 3) = false) by (apply Z.ltb_ge; exact H).
  pose proof (test_normality_normality lib data w) as Hn.
  unfold normality in Hn. rewrite E in Hn.
  subst s w'.
  destruct (tested_sample lib data w) as [s w1]; simpl in *.
  split; [|split].
  - intros stat p Hs. rewrite Hn, Hs. reflexivity.
  - intros e Hs. rewrite Hn, Hs. reflexivity.
  - rewrite Hn. simpl.
    destruct (shapiro_fn lib s) as [[stat p]|e]; simpl.
    + intros Hv. injection Hv as _ ->. right. exists stat. reflexivity.
    + intros _. left. exists e. reflexivity.
Qed.

Lemma normality_decision_rule_witness :
  test_normality Reference.lab [1.0; 2.0; 4.0]%float (Reference.start 7)
  = (Returns (true, 0.5%float), World 7 [Shapiro [1.0; 2.0; 4.0]%float]).
Proof.
  refine (proj1 (normality_decision_rule Reference.lab _
                   (Reference.start 7) _) 0.9%float 0.5%float _).
  - vm_compute. discriminate.
  - reflexivity.
Defined.

(** C7, as the claim states it, fails on the constant sample that it
    names: Shapiro-Wilk does not raise on [5, 5, 5] but answers W = 1 and
    p = 1, so the fallback is not taken and the sample is classified
    normal with the p-value 1.0, not (False, 0.0). *)
Lemma constant_sample_counterexample :
  shapiro_fn Reference.degenerate [5; 5; 5]%float
  = Returns (1.0, 1.0)%float
  /\ test_normality Reference.degenerate [5; 5; 5]%float
       (Reference.start 7)
     = (Returns (true, 1.0%float), World 7 [Shapiro [5; 5; 5]%float]).
Proof. split; reflexivity. Qed.

(** C10.  Whatever the sample and the branch taken, a verdict with
    [is_normal = True] carries a p-value above 0.05.  The converse fails:
    the empty sample gets [is_normal = False] with the p-value 1.0, which
    is above 0.05. *)
Theorem normal_implies_p_above_threshold {R : Type} (lib : Externals R) :
  (forall (data : list float) (w w' : world R) (is_normal : bool)
          (p_value : float),
      test_normality lib data w = (Returns (is_normal, p_value), w') ->
      is_normal = true ->
      (0.05 <? p_value)%float = true)
  /\ (exists (data : list float),
       forall w : world R,
         test_normality lib data w = (Returns (false, 1.0%float), w)
         /\ (0.05 <? 1.0)%float = true).
Proof.
  split.
  - intros data w w' is_normal p_value Hrun Hn.
    rewrite test_normality_normality in Hrun.
    injection Hrun as Hv _.
    pose proof (normality_sound lib data w) as Hs.
    rewrite Hv in Hs. simpl in Hs. apply Hs. exact Hn.
  - exists []. intros w. split; reflexivity.
Qed.

Lemma normal_implies_p_above_threshold_witness :
  (0.05 <? 0.5)%float = true.
Proof.
  refine (proj1 (normal_implies_p_above_threshold
                   (Reference.library (Returns (0.9, 0.5)%float)
                      (Raises ValueError) (Raises ValueError)
                      (Raises ValueError) (Raises ValueError)))
            [1.0; 2.0; 4.0]%float (Reference.start 7)
            (World 7 [Shapiro [1.0; 2.0; 4.0]%float]) true 0.5%float _ _).
  - reflexivity.
  - reflexivity.
Defined.

(** ** The comparison of either class, in closed form *)

Section ComparisonFacts.
Context {R : Type} (lib : Externals R).
Variables (impl : implementation) (column : Row -> float)
  (wording : Wording) (df : DataFrame).

#[local] Abbreviation pairs := (paired_groups lib column df) (only parsing).
#[local] Abbreviation all_graphql :=
  (column_of "graphql" column df) (only parsing).
#[local] Abbreviation all_rest := (column_of "rest" column df) (only parsing).
#[local] Abbreviation differences := (map difference pairs) (only parsing).

Lemma compare_tested (w : world R) (gs rs : Stats.t) :
  1 < len pairs ->
  describe lib all_graphql = Returns gs ->
  describe lib all_rest = Returns rs ->
  compare_rq impl lib column wording df w =
  match answer lib (selected lib column df w) with
  | Returns (_, p) =>
      (Returns
         {| test_name :=
              selected_name (fst (graphql_verdict lib column df w))
                (fst (rest_verdict lib column df w));
            p_value := p;
            cohens_d := effect_size lib differences;
            conclusion :=
              conclusion_of wording p (np_mean lib differences) |},
       record_call (selected lib column df w)
         (after_rest lib column df w))
  | Raises e =>
      (Raises e,
       record_call (selected lib column df w)
         (after_rest lib column df w))
  end.
Proof.
  intros Hn Hg Hr. unfold compare_rq, fmap.
  destruct impl.
  - rewrite (analyzer_tested lib column wording df w gs rs Hn Hg Hr).
    destruct (answer lib (selected lib column df w)) as [[t p]|e];
      reflexivity.
  - rewrite (reporter_tested lib column wording df w gs rs Hn Hg Hr).
    destruct (answer lib (selected lib column df w)) as [[t p]|e];
      reflexivity.
Qed.

Lemma compare_untested (w : world R) (gs rs : Stats.t) :
  len pairs <= 1 ->
  describe lib all_graphql = Returns gs ->
  describe lib all_rest = Returns rs ->
  compare_rq impl lib column wording df w =
  (Returns
     {| test_name := "N/A";
        p_value := 1.0%float;
        cohens_d := 0.0%float;
        conclusion := insufficient_data impl |},
   after_rest lib column df w).
Proof.
  intros Hn Hg Hr. unfold compare_rq, fmap.
  destruct impl.
  - rewrite (analyzer_untested lib column wording df w gs rs Hn Hg Hr).
    reflexivity.
  - rewrite (reporter_untested lib column wording df w gs rs Hn Hg Hr).
    reflexivity.
Qed.

(** When the descriptive statistics raise, so does the analysis, in
    the world in which it started. *)
Lemma compare_describe_raises (w : world R) (e : exn) :
  describe lib (column_of "graphql" column df) = Raises e ->
  compare_rq impl lib column wording df w = (Raises e, w).
Proof.
  intros Hg. unfold compare_rq, fmap.
  destruct impl.
  - unfold ExperimentAnalyzer.analyze_rq. rewrite Hg. reflexivity.
  - unfold GraphQLvsRESTReportGenerator.analyze_rq. rewrite Hg. reflexivity.
Qed.

Lemma compare_describe_rest_raises (w : world R) (gs : Stats.t) (e : exn) :
  describe lib (column_of "graphql" column df) = Returns gs ->
  describe lib (column_of "rest" column df) = Raises e ->
  compare_rq impl lib column wording df w = (Raises e, w).
Proof.
  intros Hg Hr. unfold compare_rq, fmap.
  destruct impl.
  - unfold ExperimentAnalyzer.analyze_rq. rewrite Hg, Hr. reflexivity.
  - unfold GraphQLvsRESTReportGenerator.analyze_rq. rewrite Hg, Hr.
    reflexivity.
Qed.

Lemma compare_rq1_eq (w : world R) :
  compare_rq1 impl lib df w
  = compare_rq impl lib response_time_ms rq1_wording df w.
Proof. destruct impl; reflexivity. Qed.

Lemma tested_sample_calls (data : list float) (w : world R) :
  calls (snd (tested_sample lib data w)) = calls w.
Proof.
  unfold tested_sample. destruct (5000 <? len data); [|reflexivity].
  destruct (sample_draw lib (rng w) data (Z.min 5000 (len data)));
    reflexivity.
Qed.

Lemma normality_log (data : list float) (w : world R) :
  calls (snd (normality lib data w))
  = (calls w ++
     (if len data <? 3 then []
      else [Shapiro (fst (tested_sample lib data w))]))%list.
Proof.
  unfold normality. destruct (len data <? 3); simpl.
  - rewrite app_nil_r. reflexivity.
  - pose proof (tested_sample_calls data w) as H.
    destruct (tested_sample lib data w) as [s w1]; simpl in *.
    rewrite H. reflexivity.
Qed.

Lemma after_rest_calls (w : world R) :
  calls (after_rest lib column df w)
  = (calls w ++ normality_calls lib column df w)%list.
Proof.
  unfold after_rest, normality_calls.
  rewrite normality_log. unfold after_graphql at 1.
  rewrite normality_log. fold all_graphql all_rest.
  rewrite <- app_assoc. reflexivity.
Qed.

Lemma normality_calls_are_normality_tests (w : world R) :
  forallb is_normality_test (normality_calls lib column df w) = true.
Proof.
  unfold normality_calls.
  destruct (len all_graphql <? 3), (len all_rest <? 3); reflexivity.
Qed.
End ComparisonFacts.

Lemma no_paired_test_among_normality_tests (l : list call) :
  forallb is_normality_test l = true ->
  List.filter is_paired_test l = [].
Proof.
  induction l as [|c l IH]; [reflexivity|].
  simpl. intros H. apply andb_true_iff in H as [Hc Hl].
  destruct c; try discriminate. simpl. apply IH. exact Hl.
Qed.

(** * The claims: Test Selector and Effect Size Calculator *)

(** C1.  In a run of [analyze_rq1] (of either class) with more than one
    paired group, the two normality verdicts are those of
    [test_normality] on the pooled graphql column and on the pooled rest
    column of the frame.  Exactly one paired test is then called: the
    paired t-test on the per-group means when both verdicts are normal,
    otherwise the two-sided Wilcoxon test on the same per-group means.
    When the test returns, its p-value and its name are reported. *)
Theorem paired_test_selection {R : Type} (lib : Externals R)
  (impl : implementation) (df : DataFrame) (w : world R)
  (gs rs : Stats.t) :
  let pairs := paired_groups lib response_time_ms df in
  let all_graphql := column_of "graphql" response_time_ms df in
  let all_rest := column_of "rest" response_time_ms df in
  1 < len pairs ->
  describe lib all_graphql = Returns gs ->
  describe lib all_rest = Returns rs ->
  exists (graphql_normal rest_normal : bool) (graphql_p rest_p : float)
         (w1 w2 : world R),
    test_normality lib all_graphql w
      = (Returns (graphql_normal, graphql_p), w1)
    /\ test_normality lib all_rest w1 = (Returns (rest_normal, rest_p), w2)
    /\ List.filter is_paired_test (calls w2)
       = List.filter is_paired_test (calls w)
    /\ let chosen :=
         if graphql_normal && rest_normal
         then TTestRel (map graphql_mean pairs) (map rest_mean pairs)
         else Wilcoxon (map graphql_mean pairs) (map rest_mean pairs)
                "two-sided" in
       snd (compare_rq1 impl lib df w) = record_call chosen w2
       /\ forall stat p,
           answer lib chosen = Returns (stat, p) ->
           exists c,
             fst (compare_rq1 impl lib df w) = Returns c
             /\ p_value c = p
             /\ test_name c =
                  (if graphql_normal && rest_normal
                   then "Teste t pareado" else "Teste de Wilcoxon").
Proof.
  intros pairs all_graphql all_rest Hn Hg Hr.
  subst pairs all_graphql all_rest.
  pose proof (compare_tested lib impl response_time_ms rq1_wording df w
                gs rs Hn Hg Hr) as Hrun.
  pose proof (after_rest_calls lib response_time_ms df w) as Hlog.
  pose proof (normality_calls_are_normality_tests lib response_time_ms df w)
    as Hshapiro.
  unfold selected, selected_test, selected_name, graphql_verdict,
    rest_verdict, after_rest, after_graphql in *.
  set (all_graphql := column_of "graphql" response_time_ms df) in *.
  set (all_rest := column_of "rest" response_time_ms df) in *.
  pose proof (test_normality_normality lib all_graphql w) as H1.
  pose proof (test_normality_normality lib all_rest
                (snd (normality lib all_graphql w))) as H2.
  destruct (normality lib all_graphql w) as [[gn gp] w1]; simpl in *.
  destruct (normality lib all_rest w1) as [[rn rp] w2]; simpl in *.
  exists gn, rn, gp, rp, w1, w2.
  split; [exact H1|]. split; [exact H2|]. split.
  - rewrite Hlog, List.filter_app.
    rewrite (no_paired_test_among_normality_tests _ Hshapiro).
    apply app_nil_r.
  - rewrite compare_rq1_eq, Hrun. split.
    + destruct (gn && rn).
      * simpl. destruct (ttest_rel_fn lib _ _) as [[t p]|e]; reflexivity.
      * simpl. destruct (wilcoxon_fn lib _ _ _) as [[t p]|e]; reflexivity.
    + intros stat p Ha. destruct (gn && rn); simpl in *; rewrite Ha;
        eexists; (split; [reflexivity|]); split; reflexivity.
Qed.

Lemma paired_test_selection_witness :
  let lib := Reference.lab in
  let df := Reference.three_groups in
  let w := Reference.start 1 in
  let pairs := paired_groups lib response_time_ms df in
  let all_graphql := column_of "graphql" response_time_ms df in
  let all_rest := column_of "rest" response_time_ms df in
  exists (graphql_normal rest_normal : bool) (graphql_p rest_p : float)
         (w1 w2 : world Z),
    test_normality lib all_graphql w
      = (Returns (graphql_normal, graphql_p), w1)
    /\ test_normality lib all_rest w1 = (Returns (rest_normal, rest_p), w2)
    /\ List.filter is_paired_test (calls w2)
       = List.filter is_paired_test (calls w)
    /\ let chosen :=
         if graphql_normal && rest_normal
         then TTestRel (map graphql_mean pairs) (map rest_mean pairs)
         else Wilcoxon (map graphql_mean pairs) (map rest_mean pairs)
                "two-sided" in
       snd (compare_rq1 Analyzer lib df w) = record_call chosen w2
       /\ forall stat p,
           answer lib chosen = Returns (stat, p) ->
           exists c,
             fst (compare_rq1 Analyzer lib df w) = Returns c
             /\ p_value c = p
             /\ test_name c =
                  (if graphql_normal && rest_normal
                   then "Teste t pareado" else "Teste de Wilcoxon").
Proof.
  intros lib df w.
  refine (paired_test_selection lib Analyzer df w _ _ _ eq_refl eq_refl).
  reflexivity.
Defined.




(** C3, as the code has it.  The Test Selector has no fallback of its own
    for a degenerate paired input.  With more than one paired group, an
    exception raised by the selected test is raised by [analyze_rq1], and
    a p-value returned by the selected test is reported as it is; the value
    1.0 is substituted only in the branch without a test. *)
Theorem paired_test_outcome_is_passed_on {R : Type} (lib : Externals R)
  (impl : implementation) (df : DataFrame) (w : world R)
  (gs rs : Stats.t) :
  1 < len (paired_groups lib response_time_ms df) ->
  describe lib (column_of "graphql" response_time_ms df) = Returns gs ->
  describe lib (column_of "rest" response_time_ms df) = Returns rs ->
  let chosen := selected lib response_time_ms df w in
  is_paired_test chosen = true
  /\ (forall e,
        answer lib chosen = Raises e ->
        fst (compare_rq1 impl lib df w) = Raises e)
  /\ (forall stat p,
        answer lib chosen = Returns (stat, p) ->
        exists c,
          fst (compare_rq1 impl lib df w) = Returns c /\ p_value c = p).
Proof.
  intros Hn Hg Hr chosen.
  pose proof (compare_tested lib impl response_time_ms rq1_wording df w
                gs rs Hn Hg Hr) as Hrun.
  fold chosen in Hrun. rewrite compare_rq1_eq.
  repeat split.
  - unfold chosen, selected, selected_test.
    destruct (_ && _); reflexivity.
  - intros e He. rewrite Hrun, He. reflexivity.
  - intros stat p Hp. rewrite Hrun, Hp. eexists. split; reflexivity.
Qed.

Lemma paired_test_outcome_is_passed_on_witness :
  let chosen :=
    selected Reference.degenerate response_time_ms Reference.two_fives
      (Reference.start 1) in
  is_paired_test chosen = true
  /\ (forall e,
        answer Reference.degenerate chosen = Raises e ->
        fst (compare_rq1 Analyzer Reference.degenerate Reference.two_fives
               (Reference.start 1)) = Raises e)
  /\ (forall stat p,
        answer Reference.degenerate chosen = Returns (stat, p) ->
        exists c,
          fst (compare_rq1 Analyzer Reference.degenerate
                 Reference.two_fives (Reference.start 1)) = Returns c
          /\ p_value c = p).
Proof.
  refine (paired_test_outcome_is_passed_on Reference.degenerate Analyzer
            Reference.two_fives (Reference.start 1) _ _ _ eq_refl eq_refl).
  reflexivity.
Defined.

(** C3, as the claim states it, fails.  On the paired means A = [5, 5, 5]
    and B = [5, 5, 5] the run of either class reports the NaN p-value of
    the t-test, not 1.0; on A = [5, 5] and B = [5, 5] the ValueError of the
    rank test leaves [analyze_rq1]. *)
Lemma degenerate_pairs_counterexample :
  let lib := Reference.degenerate in
  let w := Reference.start 1 in
  map graphql_mean (paired_groups lib response_time_ms Reference.fives)
    = [5; 5; 5]%float
  /\ map rest_mean (paired_groups lib response_time_ms Reference.fives)
    = [5; 5; 5]%float
  /\ (exists c w',
        compare_rq1 Analyzer lib Reference.fives w = (Returns c, w')
        /\ p_value c = nan /\ (p_value c =? 1.0)%float = false)
  /\ (exists c w',
        compare_rq1 Reporter lib Reference.fives w = (Returns c, w')
        /\ p_value c = nan /\ (p_value c =? 1.0)%float = false)
  /\ fst (compare_rq1 Analyzer lib Reference.two_fives w)
     = Raises ValueError
  /\ fst (compare_rq1 Reporter lib Reference.two_fives w)
     = Raises ValueError.
Proof.
  cbv zeta.
  split; [vm_compute; reflexivity|].
  split; [vm_compute; reflexivity|].
  split; [do 2 eexists; vm_compute; repeat split|].
  split; [do 2 eexists; vm_compute; repeat split|].
  split; vm_compute; reflexivity.
Qed.

(** A float equal to zero is not above zero. *)
Lemma zero_is_not_positive (s : float) :
  (s =? 0)%float = true -> (0 <? s)%float = false.
Proof.
  rewrite FloatAxioms.eqb_spec, FloatAxioms.ltb_spec.
  unfold SFeqb, SFltb.
  replace (Prim2SF 0) with (S754_zero false) by reflexivity.
  destruct (Prim2SF s) as [b|b| |b m e]; simpl;
    try discriminate; try reflexivity.
  all: destruct b; simpl; try discriminate; reflexivity.
Qed.

(** C8, as the code has it.  In a run of [analyze_rq1] (of either class)
    that returns, the effect size is [mean / std] of the paired
    differences when there is more than one pair and the population
    standard deviation is above 0, and exactly 0 otherwise: with at most
    one pair, with a standard deviation equal to 0, and with one that is
    NaN.  Computing it never raises: the run raises only when the paired
    test does.  A NaN or infinite effect size can only be the quotient
    itself. *)
Theorem effect_size_rule {R : Type} (lib : Externals R)
  (impl : implementation) (df : DataFrame) (w : world R)
  (gs rs : Stats.t) :
  let pairs := paired_groups lib response_time_ms df in
  let differences := map difference pairs in
  let mean_diff := np_mean lib differences in
  let std_diff := np_std lib differences in
  describe lib (column_of "graphql" response_time_ms df) = Returns gs ->
  describe lib (column_of "rest" response_time_ms df) = Returns rs ->
  (forall e w',
      compare_rq1 impl lib df w = (Raises e, w') ->
      1 < len pairs
      /\ answer lib (selected lib response_time_ms df w) = Raises e)
  /\ (forall c w',
      compare_rq1 impl lib df w = (Returns c, w') ->
      cohens_d c =
        (if (1 <? len pairs) && (0 <? std_diff)%float
         then (mean_diff / std_diff)%float else 0%float)
      /\ ((std_diff =? 0)%float = true -> cohens_d c = 0%float)
      /\ (PrimFloat.is_nan (cohens_d c)
          || PrimFloat.is_infinity (cohens_d c) = true ->
          1 < len pairs /\ (0 <? std_diff)%float = true
          /\ cohens_d c = (mean_diff / std_diff)%float)).
Proof.
  intros pairs differences mean_diff std_diff Hg Hr.
  subst pairs differences mean_diff std_diff.
  set (pairs := paired_groups lib response_time_ms df).
  assert (Hcase : 1 < len pairs \/ len pairs <= 1) by lia.
  rewrite compare_rq1_eq.
  destruct Hcase as [Hn | Hn].
  - pose proof (compare_tested lib impl response_time_ms rq1_wording df w
                  gs rs Hn Hg Hr) as Hrun.
    assert (E : (1 <? len pairs) = true) by (apply Z.ltb_lt; exact Hn).
    rewrite E. simpl andb.
    destruct (answer lib (selected lib response_time_ms df w))
      as [[t p]|e0].
    + split; intros x w' Hx; rewrite Hrun in Hx; [discriminate|].
      injection Hx as Hc _. subst x. simpl.
      unfold effect_size. fold pairs.
      split; [reflexivity|]. split.
      * intros Hz. rewrite (zero_is_not_positive _ Hz). reflexivity.
      * destruct (0 <? np_std lib (map difference pairs))%float; [auto|].
        intros Hbad. vm_compute in Hbad. discriminate.
    + split; intros x w' Hx; rewrite Hrun in Hx; [|discriminate].
      injection Hx as He _. subst x. split; [exact Hn | reflexivity].
  - pose proof (compare_untested lib impl response_time_ms rq1_wording df w
                  gs rs Hn Hg Hr) as Hrun.
    assert (E : (1 <? len pairs) = false) by (apply Z.ltb_ge; exact Hn).
    rewrite E. simpl andb.
    split; intros x w' Hx; rewrite Hrun in Hx; [discriminate|].
    injection Hx as Hc _. subst x. simpl.
    split; [reflexivity|]. split; [reflexivity|].
    intros Hbad. vm_compute in Hbad. discriminate.
Qed.

Lemma effect_size_rule_witness :
  let lib := Reference.lab in
  let df := Reference.three_groups in
  let w := Reference.start 1 in
  let pairs := paired_groups lib response_time_ms df in
  let differences := map difference pairs in
  let mean_diff := np_mean lib differences in
  let std_diff := np_std lib differences in
  (forall e w',
      compare_rq1 Analyzer lib df w = (Raises e, w') ->
      1 < len pairs
      /\ answer lib (selected lib response_time_ms df w) = Raises e)
  /\ (forall c w',
      compare_rq1 Analyzer lib df w = (Returns c, w') ->
      cohens_d c =
        (if (1 <? len pairs) && (0 <? std_diff)%float
         then (mean_diff / std_diff)%float else 0%float)
      /\ ((std_diff =? 0)%float = true -> cohens_d c = 0%float)
      /\ (PrimFloat.is_nan (cohens_d c)
          || PrimFloat.is_infinity (cohens_d c) = true ->
          1 < len pairs /\ (0 <? std_diff)%float = true
          /\ cohens_d c = (mean_diff / std_diff)%float)).
Proof.
  intros lib df w.
  refine (effect_size_rule lib Analyzer df w _ _ eq_refl eq_refl).
Defined.

(** C8, as the claim states it, fails.  The paired differences
    [1.5e308, 1e308] have a sum above the largest binary64 value: their
    mean and their standard deviation are both infinite, the guard
    [std_diff > 0] passes, and the effect size of either class is NaN. *)
Lemma effect_size_counterexample :
  let lib := Reference.lab in
  let w := Reference.start 1 in
  let differences :=
    map difference (paired_groups lib response_time_ms Reference.huge) in
  differences = [1.5e308; 1e308]%float
  /\ np_mean lib differences = infinity
  /\ np_std lib differences = infinity
  /\ (exists c w',
        compare_rq1 Analyzer lib Reference.huge w = (Returns c, w')
        /\ PrimFloat.is_nan (cohens_d c) = true)
  /\ (exists c w',
        compare_rq1 Reporter lib Reference.huge w = (Returns c, w')
        /\ PrimFloat.is_nan (cohens_d c) = true).
Proof.
  cbv zeta.
  split; [vm_compute; reflexivity|].
  split; [vm_compute; reflexivity|].
  split; [vm_compute; reflexivity|].
  split; do 2 eexists; vm_compute; split; reflexivity.
Qed.

(** ** The order of binary64 values *)

Lemma SFcompare_antisym (a b : spec_float) :
  SFcompare b a = option_map CompOpp (SFcompare a b).
Proof.
  destruct a as [sa|sa| |sa ma ea], b as [sb|sb| |sb mb eb]; simpl;
    try reflexivity;
    try (destruct sa; reflexivity);
    try (destruct sb; reflexivity);
    try (destruct sa, sb; reflexivity).
  destruct sa, sb; simpl; try reflexivity;
    rewrite (Z.compare_antisym ea eb);
    destruct (ea ?= eb) eqn:E; simpl; try reflexivity;
    change (Pos.compare_cont Eq mb ma) with (Pos.compare mb ma);
    change (Pos.compare_cont Eq ma mb) with (Pos.compare ma mb);
    rewrite (Pos.compare_antisym ma mb);
    destruct (ma ?= mb)%positive; reflexivity.
Qed.

Lemma SFcompare_none (a b : spec_float) :
  SFcompare a b = None -> a = S754_nan \/ b = S754_nan.
Proof.
  destruct a as [sa|sa| |sa ma ea], b as [sb|sb| |sb mb eb]; simpl;
    intros H; try discriminate; auto.
Qed.

Lemma SFcompare_refl (a : spec_float) :
  a <> S754_nan -> SFcompare a a = Some Eq.
Proof.
  destruct a as [sa|sa| |sa ma ea]; simpl; intros H;
    try reflexivity; try congruence.
  - destruct sa; reflexivity.
  - destruct sa; rewrite Z.compare_refl;
      change (Pos.compare_cont Eq ma ma) with (Pos.compare ma ma);
      rewrite Pos.compare_refl; reflexivity.
Qed.

Lemma leb_true_ltb_false (a b : float) :
  (a <=? b)%float = true -> (b <? a)%float = false.
Proof.
  rewrite FloatAxioms.leb_spec, FloatAxioms.ltb_spec.
  unfold SFleb, SFltb.
  rewrite (SFcompare_antisym (Prim2SF a) (Prim2SF b)).
  destruct (SFcompare (Prim2SF a) (Prim2SF b)) as [[ | | ]|]; simpl;
    intros H; try discriminate; reflexivity.
Qed.

Lemma not_nan_spec (a : float) :
  PrimFloat.is_nan a = false -> Prim2SF a <> S754_nan.
Proof.
  unfold PrimFloat.is_nan. rewrite FloatAxioms.eqb_spec. unfold SFeqb.
  intros H E. rewrite E in H. discriminate.
Qed.

Lemma ltb_false_leb_true (a b : float) :
  PrimFloat.is_nan a = false -> PrimFloat.is_nan b = false ->
  (a <? b)%float = false -> (b <=? a)%float = true.
Proof.
  intros Ha Hb.
  rewrite FloatAxioms.leb_spec, FloatAxioms.ltb_spec.
  unfold SFleb, SFltb.
  rewrite (SFcompare_antisym (Prim2SF a) (Prim2SF b)).
  destruct (SFcompare (Prim2SF a) (Prim2SF b)) as [[ | | ]|] eqn:E; simpl;
    intros H; try discriminate; try reflexivity.
  apply SFcompare_none in E. destruct E as [E | E].
  - exfalso. exact (not_nan_spec a Ha E).
  - exfalso. exact (not_nan_spec b Hb E).
Qed.

Lemma abs_not_nan (a : float) :
  PrimFloat.is_nan a = false -> PrimFloat.is_nan (PrimFloat.abs a) = false.
Proof.
  intros Ha. pose proof (not_nan_spec a Ha) as Hs.
  unfold PrimFloat.is_nan. rewrite FloatAxioms.eqb_spec, FloatAxioms.abs_spec.
  unfold SFeqb. rewrite SFcompare_refl; [reflexivity|].
  destruct (Prim2SF a); simpl; congruence.
Qed.

Lemma SFcompare_trans_lt (x y z : spec_float) :
  SFcompare x y = Some Lt \/ SFcompare x y = Some Eq ->
  SFcompare y z = Some Lt ->
  SFcompare x z = Some Lt.
Proof.
  destruct x as [sx|sx| |sx mx ex], y as [sy|sy| |sy my ey],
    z as [sz|sz| |sz mz ez]; simpl; intros [H1|H1] H2;
    try discriminate; try reflexivity;
    try (destruct sx; try discriminate; try reflexivity;
         destruct sy; try discriminate; try reflexivity;
         destruct sz; try discriminate; reflexivity);
    try (destruct sx; try discriminate; try reflexivity;
         destruct sz; try discriminate; try reflexivity;
         destruct sy; try discriminate; reflexivity);
    try (destruct sy; try discriminate; try reflexivity;
         destruct sz; try discriminate; try reflexivity;
         destruct sx; try discriminate; reflexivity).
  all: change (Pos.compare_cont Eq) with Pos.compare in *.
  all: destruct sx, sy, sz; simpl in *; try discriminate; try reflexivity.
  all: destruct (Z.compare_spec ex ey); try discriminate;
    destruct (Z.compare_spec ey ez); try discriminate;
    destruct (Z.compare_spec ex ez); try lia; try reflexivity; subst.
  all: destruct (Pos.compare_spec mx my); simpl in *; try discriminate;
    destruct (Pos.compare_spec my mz); simpl in *; try discriminate;
    destruct (Pos.compare_spec mx mz); simpl in *; try lia; try reflexivity.
Qed.

Lemma leb_ltb_trans (a m b : float) :
  (a <=? m)%float = true -> (m <? b)%float = true -> (a <? b)%float = true.
Proof.
  rewrite FloatAxioms.leb_spec, !FloatAxioms.ltb_spec.
  unfold SFleb, SFltb. intros H1 H2.
  rewrite (SFcompare_trans_lt (Prim2SF a) (Prim2SF m) (Prim2SF b));
    [reflexivity| |].
  - destruct (SFcompare (Prim2SF a) (Prim2SF m)) as [[ | | ]|];
      try discriminate; auto.
  - destruct (SFcompare (Prim2SF m) (Prim2SF b)) as [[ | | ]|];
      try discriminate; auto.
Qed.

(** A value at or above the cut point [c] is not below a cut point [t]
    that is not above [c]. *)
Lemma above_cut (c t m : float) :
  (c <=? m)%float = true -> (c <? t)%float = false ->
  (m <? t)%float = false.
Proof.
  intros H Hc. destruct (m <? t)%float eqn:E; [|reflexivity].
  rewrite (leb_ltb_trans c m t H E) in Hc. discriminate.
Qed.

(** * The claims: Correlation Classifier *)

Section LabelFacts.
Import ReportGenerator.

Lemma labels_distinct : List.NoDup labels.
Proof.
  unfold labels.
  repeat (constructor; [simpl; intros H;
    repeat (destruct H as [H | H]; [discriminate H|]); exact H|]).
  constructor.
Qed.

Lemma interpretation_in_labels (c : Correlations) :
  In (interpretation c) labels.
Proof.
  unfold interpretation, labels.
  destruct (_ <? 0.1)%float; [destruct (_ <? 0.05)%float; simpl; tauto|].
  destruct (_ <? 0.3)%float; [destruct (_ <? 0.05)%float; simpl; tauto|].
  destruct (_ <? 0.5)%float; [destruct (_ <? 0.05)%float; simpl; tauto|].
  destruct (_ <? 0.7)%float; destruct (_ <? 0.05)%float; simpl; tauto.
Qed.

(** The label is a function of the four band tests on [|pearson_r|] and
    of the gate on [pearson_p]. *)
Lemma interpretation_by_bands (c c' : Correlations) :
  (forall t, In t cut_points ->
     (PrimFloat.abs (correlation (pearson c)) <? t)%float
     = (PrimFloat.abs (correlation (pearson c')) <? t)%float) ->
  (p_value (pearson c) <? 0.05)%float
  = (p_value (pearson c') <? 0.05)%float ->
  interpretation c = interpretation c'.
Proof.
  intros Hb Hp. unfold interpretation.
  rewrite (Hb 0.1%float), (Hb 0.3%float), (Hb 0.5%float),
    (Hb 0.7%float), Hp by (unfold cut_points; simpl; tauto).
  reflexivity.
Qed.

(** The code gives the label of every row of the table. *)
Lemma table_sound (c : Correlations) (l : string) :
  spec_table (correlation (pearson c)) (p_value (pearson c)) l ->
  interpretation c = l.
Proof.
  unfold spec_table, interpretation.
  set (m := PrimFloat.abs (correlation (pearson c))).
  set (p := p_value (pearson c)).
  intros H.
  repeat match goal with
         | H : _ \/ _ |- _ => destruct H as [H | H]
         end;
    repeat match goal with
           | H : _ /\ _ |- _ => destruct H as [? H]
           end;
    subst l;
    repeat match goal with
           | H : (0.05 <=? p)%float = true |- _ =>
               apply leb_true_ltb_false in H
           end;
    try match goal with
        | H : (?c <=? m)%float = true |- _ =>
            try (assert ((m <? 0.1)%float = false)
                  by (apply (above_cut c 0.1%float m H); reflexivity));
            try (assert ((m <? 0.3)%float = false)
                  by (apply (above_cut c 0.3%float m H); reflexivity));
            try (assert ((m <? 0.5)%float = false)
                  by (apply (above_cut c 0.5%float m H); reflexivity));
            try (assert ((m <? 0.7)%float = false)
                  by (apply (above_cut c 0.7%float m H); reflexivity));
            clear H
        end;
    repeat match goal with
           | H : (_ <? _)%float = _ |- _ => rewrite H; clear H
           end;
    reflexivity.
Qed.

(** Every pair of numbers has a row in the table. *)
Lemma table_total (c : Correlations) :
  PrimFloat.is_nan (correlation (pearson c)) = false ->
  PrimFloat.is_nan (p_value (pearson c)) = false ->
  spec_table (correlation (pearson c)) (p_value (pearson c))
    (interpretation c).
Proof.
  intros Hr Hp. apply abs_not_nan in Hr.
  unfold spec_table, interpretation.
  set (m := PrimFloat.abs (correlation (pearson c))) in *.
  set (p := p_value (pearson c)) in *.
  assert (Hnum : forall t, PrimFloat.is_nan t = false ->
                   (m <? t)%float = false -> (t <=? m)%float = true).
  { intros t Ht H. apply ltb_false_leb_true; assumption. }
  assert (Hgate : (p <? 0.05)%float = false -> (0.05 <=? p)%float = true).
  { intros H. apply ltb_false_leb_true; [exact Hp|reflexivity|exact H]. }
  destruct (m <? 0.1)%float eqn:E1.
  { destruct (p <? 0.05)%float eqn:Ep; [tauto|].
    right; left. auto. }
  apply Hnum in E1; [|reflexivity].
  destruct (m <? 0.3)%float eqn:E3.
  { destruct (p <? 0.05)%float eqn:Ep.
    - do 2 right; left. auto.
    - do 3 right; left. auto. }
  apply Hnum in E3; [|reflexivity].
  destruct (m <? 0.5)%float eqn:E5.
  { destruct (p <? 0.05)%float eqn:Ep.
    - do 4 right; left. auto.
    - do 5 right; left. auto. }
  apply Hnum in E5; [|reflexivity].
  destruct (m <? 0.7)%float eqn:E7.
  { destruct (p <? 0.05)%float eqn:Ep.
    - do 6 right; left. auto.
    - do 7 right; left. auto. }
  apply Hnum in E7; [|reflexivity].
  destruct (p <? 0.05)%float eqn:Ep.
  - do 8 right; left. auto.
  - do 9 right. auto.
Qed.
End LabelFacts.

(** C2.  Every entry of the correlation dictionary gets exactly one of
    ten distinct labels.  The label is a function of the outcomes of the
    four tests [|pearson_r| < 0.1], [< 0.3], [< 0.5], [< 0.7] and of the
    gate [pearson_p < 0.05]; the Spearman coefficient and its p-value are
    not consulted.  The label is the one of the classification table in
    every row, and every pair of numbers has a row.  (A NaN coefficient
    fails the four tests and a NaN p-value fails the gate, so they get the
    labels of the last band and of the second column.) *)
Theorem correlation_label_is_total_and_gated :
  List.NoDup ReportGenerator.labels
  /\ forall c : ReportGenerator.Correlations,
      let r := ReportGenerator.correlation (ReportGenerator.pearson c) in
      let p := ReportGenerator.p_value (ReportGenerator.pearson c) in
      In (ReportGenerator.interpretation c) ReportGenerator.labels
      /\ (forall c' : ReportGenerator.Correlations,
            let r' :=
              ReportGenerator.correlation (ReportGenerator.pearson c') in
            let p' :=
              ReportGenerator.p_value (ReportGenerator.pearson c') in
            (forall t, In t ReportGenerator.cut_points ->
               (PrimFloat.abs r <? t)%float = (PrimFloat.abs r' <? t)%float) ->
            (p <? 0.05)%float = (p' <? 0.05)%float ->
            ReportGenerator.interpretation c
            = ReportGenerator.interpretation c')
      /\ (forall s : ReportGenerator.Coefficient,
            ReportGenerator.interpretation
              {| ReportGenerator.pearson := ReportGenerator.pearson c;
                 ReportGenerator.spearman := s |}
            = ReportGenerator.interpretation c)
      /\ (forall l, ReportGenerator.spec_table r p l ->
                    ReportGenerator.interpretation c = l)
      /\ (PrimFloat.is_nan r = false -> PrimFloat.is_nan p = false ->
          ReportGenerator.spec_table r p (ReportGenerator.interpretation c)).
Proof.
  split; [exact labels_distinct|].
  intros c r p.
  split; [apply interpretation_in_labels|].
  split; [intros c' r' p'; apply interpretation_by_bands|].
  split; [intros s; reflexivity|].
  split; [apply table_sound | apply table_total].
Qed.

Lemma correlation_label_is_total_and_gated_witness :
  ReportGenerator.interpretation
    {| ReportGenerator.pearson :=
         {| ReportGenerator.correlation := (-0.2)%float;
            ReportGenerator.p_value := 0.01%float |};
       ReportGenerator.spearman :=
         {| ReportGenerator.correlation := 0.9%float;
            ReportGenerator.p_value := 0.9%float |} |}
  = "Correlação fraca".
Proof.
  refine (proj1 (proj2 (proj2 (proj2
            (proj2 correlation_label_is_total_and_gated _)))) _ _).
  unfold ReportGenerator.spec_table. do 2 right; left.
  repeat split; reflexivity.
Defined.

Section CorrelationFacts.
Import ReportGenerator.
Context {R : Type} (lib : Externals R).
Variables (data : gmap string (list float)) (process_metric : string).

Lemma correlate_neutral (quality_metric : string) (w : world R) :
  valid_count data quality_metric <= 10 ->
  correlate lib data process_metric quality_metric w
  = (Returns neutral, w).
Proof.
  unfold valid_count, correlate. intros H.
  destruct (data !! quality_metric) as [series|]; [|reflexivity].
  replace (10 <? notna_sum series) with false; [reflexivity|].
  symmetry. apply Z.ltb_ge. exact H.
Qed.

End CorrelationFacts.


Lemma valid_pairs_notna_sum (x y : list float) :
  length x = length y ->
  List.Forall (fun v => PrimFloat.is_nan v = false) x ->
  ReportGenerator.valid_pairs x y = ReportGenerator.notna_sum y.
Proof.
  unfold ReportGenerator.valid_pairs, ReportGenerator.notna_sum, len.
  intros Hlen Hx. f_equal. revert y Hlen.
  induction Hx as [|a x Ha Hx IH]; intros [|b y] Hlen;
    simpl in *; try discriminate; [reflexivity|].
  injection Hlen as Hlen. rewrite Ha. simpl.
  destruct (negb (PrimFloat.is_nan b)); simpl; rewrite (IH y Hlen);
    reflexivity.
Qed.




(** So a frame of [analyze_research_questions] with at most 10 rows gets
    the neutral entry. *)
Lemma too_few_valid_pairs_gives_neutral {R : Type} (lib : Externals R)
  (data : gmap string (list float))
  (process_metric quality_metric : string) (x y : list float)
  (w : world R) :
  data !! process_metric = Some x ->
  data !! quality_metric = Some y ->
  length x = length y ->
  List.Forall (fun v => PrimFloat.is_nan v = false) x ->
  ReportGenerator.valid_pairs x y <= 10 ->
  ReportGenerator.calculate_correlations lib data process_metric
    [quality_metric] w
  = (Returns {[ quality_metric := ReportGenerator.neutral ]}, w).
Proof.
  intros Hx Hy Hlen Hnan Hn.
  rewrite (valid_pairs_notna_sum x y Hlen Hnan) in Hn.
  unfold ReportGenerator.calculate_correlations. simpl.
  unfold bind. rewrite (correlate_neutral lib data process_metric _ w).
  - unfold ret. rewrite insert_empty. reflexivity.
  - unfold ReportGenerator.valid_count. rewrite Hy. exact Hn.
Qed.

(** * The claims: reproducibility *)

Section Oblivious.
Context {R : Type} (lib : Externals R).

Lemma oblivious_ret {A : Type} (a : A) : oblivious (R := R) (ret a).
Proof.
  intros r. exists (Returns a), r, []. intros c.
  unfold ret. rewrite app_nil_r. reflexivity.
Qed.

Lemma oblivious_raise {A : Type} (e : exn) :
  oblivious (R := R) (A := A) (raise e).
Proof.
  intros r. exists (Raises e), r, []. intros c.
  unfold raise. rewrite app_nil_r. reflexivity.
Qed.

Lemma oblivious_lift {A : Type} (o : outcome A) :
  oblivious (R := R) (lift o).
Proof.
  intros r. exists o, r, []. intros c.
  unfold lift. rewrite app_nil_r. reflexivity.
Qed.

Lemma oblivious_bind {A B : Type} (m : M R A) (k : A -> M R B) :
  oblivious m -> (forall a, oblivious (k a)) -> oblivious (bind m k).
Proof.
  intros Hm Hk r. destruct (Hm r) as (o & r1 & new1 & H1).
  destruct o as [a|e].
  - destruct (Hk a r1) as (o2 & r2 & new2 & H2).
    exists o2, r2, (new1 ++ new2)%list. intros c.
    unfold bind. rewrite H1, H2, app_assoc. reflexivity.
  - exists (Raises e), r1, new1. intros c.
    unfold bind. rewrite H1. reflexivity.
Qed.

Lemma oblivious_try {A : Type} (body : M R A) (handler : exn -> M R A) :
  oblivious body -> (forall e, oblivious (handler e)) ->
  oblivious (try_except body handler).
Proof.
  intros Hm Hk r. destruct (Hm r) as (o & r1 & new1 & H1).
  destruct o as [a|e].
  - exists (Returns a), r1, new1. intros c.
    unfold try_except. rewrite H1. reflexivity.
  - destruct (Hk e r1) as (o2 & r2 & new2 & H2).
    exists o2, r2, (new1 ++ new2)%list. intros c.
    unfold try_except. rewrite H1, H2, app_assoc. reflexivity.
Qed.

Lemma oblivious_fmap {A B : Type} (f : A -> B) (m : M R A) :
  oblivious m -> oblivious (fmap f m).
Proof.
  intros Hm r. destruct (Hm r) as (o & r1 & new1 & H1).
  destruct o as [a|e].
  - exists (Returns (f a)), r1, new1. intros c.
    unfold fmap. rewrite H1. reflexivity.
  - exists (Raises e), r1, new1. intros c.
    unfold fmap. rewrite H1. reflexivity.
Qed.

Lemma oblivious_sample (data : list float) (n : Z) :
  oblivious (Series_sample lib data n).
Proof.
  intros r. unfold Series_sample. simpl.
  destruct (sample_draw lib r data n) as [s r'].
  exists (Returns s), r', []. intros c. rewrite app_nil_r. reflexivity.
Qed.

Lemma oblivious_shapiro (x : list float) : oblivious (shapiro lib x).
Proof.
  intros r. exists (shapiro_fn lib x), r, [Shapiro x]. reflexivity.
Qed.

Lemma oblivious_ttest_rel (a b : list float) :
  oblivious (ttest_rel lib a b).
Proof.
  intros r. exists (ttest_rel_fn lib a b), r, [TTestRel a b]. reflexivity.
Qed.

Lemma oblivious_wilcoxon (x y : list float) (alternative : string) :
  oblivious (wilcoxon lib x y alternative).
Proof.
  intros r.
  exists (wilcoxon_fn lib x y alternative), r, [Wilcoxon x y alternative].
  reflexivity.
Qed.

Lemma oblivious_pearsonr (x y : list float) : oblivious (pearsonr lib x y).
Proof.
  intros r. exists (pearsonr_fn lib x y), r, [Pearsonr x y]. reflexivity.
Qed.

Lemma oblivious_spearmanr (x y : list float) :
  oblivious (spearmanr lib x y).
Proof.
  intros r. exists (spearmanr_fn lib x y), r, [Spearmanr x y].
  reflexivity.
Qed.

(** Two runs from the same state of the generator. *)
Lemma oblivious_same_seed {A : Type} (m : M R A) (w1 w2 : world R) :
  oblivious m -> rng w1 = rng w2 ->
  fst (m w1) = fst (m w2) /\ rng (snd (m w1)) = rng (snd (m w2)).
Proof.
  intros Hm Hr. destruct w1 as [r1 c1], w2 as [r2 c2]. simpl in Hr.
  subst r2. destruct (Hm r1) as (o & r' & new & H).
  rewrite (H c1), (H c2). split; reflexivity.
Qed.
End Oblivious.

Create HintDb oblivious.
#[export] Hint Resolve oblivious_ret oblivious_raise oblivious_lift
  oblivious_sample oblivious_shapiro oblivious_ttest_rel
  oblivious_wilcoxon oblivious_pearsonr oblivious_spearmanr : oblivious.

Ltac oblivious_step :=
  first
    [ apply oblivious_bind; [|intros]
    | apply oblivious_try; [|intros]
    | apply oblivious_fmap
    | solve [auto with oblivious]
    | match goal with
      | |- oblivious (if ?b then _ else _) => destruct b
      | |- oblivious (let '(_, _) := ?x in _) => destruct x
      | |- oblivious (match ?x with _ => _ end) => destruct x
      end ].

Section ObliviousPrograms.
Context {R : Type} (lib : Externals R).

Lemma oblivious_test_normality (data : list float) :
  oblivious (test_normality lib data).
Proof. unfold test_normality. repeat oblivious_step. Qed.

Hint Resolve oblivious_test_normality : oblivious.

Lemma oblivious_analyzer (column : Row -> float) (wording : Wording)
  (df : DataFrame) :
  oblivious (ExperimentAnalyzer.analyze_rq lib column wording df).
Proof. unfold ExperimentAnalyzer.analyze_rq. repeat oblivious_step. Qed.

Lemma oblivious_reporter (column : Row -> float) (wording : Wording)
  (df : DataFrame) :
  oblivious (GraphQLvsRESTReportGenerator.analyze_rq lib column wording df).
Proof.
  unfold GraphQLvsRESTReportGenerator.analyze_rq. repeat oblivious_step.
Qed.

Hint Resolve oblivious_analyzer oblivious_reporter : oblivious.

Lemma oblivious_analyzer_run (df : DataFrame) :
  oblivious (ExperimentAnalyzer.run_analysis lib df).
Proof.
  unfold ExperimentAnalyzer.run_analysis, ExperimentAnalyzer.analyze_rq1,
    ExperimentAnalyzer.analyze_rq2.
  repeat oblivious_step.
Qed.

Lemma oblivious_reporter_run (df : DataFrame) :
  oblivious (GraphQLvsRESTReportGenerator.run_analysis lib df).
Proof.
  unfold GraphQLvsRESTReportGenerator.run_analysis,
    GraphQLvsRESTReportGenerator.analyze_rq1,
    GraphQLvsRESTReportGenerator.analyze_rq2.
  repeat oblivious_step.
Qed.

Lemma oblivious_getitem (data : gmap string (list float)) (name : string) :
  oblivious (R := R) (ReportGenerator.getitem data name).
Proof. unfold ReportGenerator.getitem. repeat oblivious_step. Qed.

Hint Resolve oblivious_getitem : oblivious.

Lemma oblivious_correlate (data : gmap string (list float))
  (process_metric quality_metric : string) :
  oblivious (ReportGenerator.correlate lib data process_metric
               quality_metric).
Proof. unfold ReportGenerator.correlate. repeat oblivious_step. Qed.

Lemma oblivious_correlations (data : gmap string (list float))
  (process_metric : string) (quality_metrics : list string) :
  oblivious (ReportGenerator.calculate_correlations lib data
               process_metric quality_metrics).
Proof.
  unfold ReportGenerator.calculate_correlations.
  generalize (∅ : gmap string ReportGenerator.Correlations).
  induction quality_metrics as [|q rest IH]; intros acc; simpl.
  - apply oblivious_ret.
  - apply oblivious_bind; [apply oblivious_correlate|].
    intros entry. apply IH.
Qed.
End ObliviousPrograms.

(** Data of at most 5000 values is tested as it is, and the verdict does
    not depend on the state of the generator. *)
Lemma no_draw_up_to_cap {R : Type} (lib : Externals R) (data : list float)
  (w : world R) :
  len data <= 5000 -> tested_sample lib data w = (data, w).
Proof.
  intros H. unfold tested_sample.
  replace (5000 <? len data) with false; [reflexivity|].
  symmetry. apply Z.ltb_ge. exact H.
Qed.

Lemma verdict_ignores_seed_up_to_cap {R : Type} (lib : Externals R)
  (data : list float) (r1 r2 : R) (c : list call) :
  len data <= 5000 ->
  fst (test_normality lib data (World r1 c))
  = fst (test_normality lib data (World r2 c)).
Proof.
  intros H. rewrite !test_normality_normality. simpl. unfold normality.
  destruct (len data <? 3); [reflexivity|].
  rewrite !(no_draw_up_to_cap lib data _ H). reflexivity.
Qed.

(** ** Computations that do not read the generator *)

Section IgnoresWorld.
Context {R : Type} (lib : Externals R).











End IgnoresWorld.


Section IgnoresPrograms.
Context {R : Type} (lib : Externals R).




End IgnoresPrograms.




(** * Further properties of the program *)

(** ** The groups of a frame *)

Lemma add_to_group_rows (k : group_key) (r : Row)
  (groups : list (group_key * DataFrame)) :
  Permutation (concat (map snd (add_to_group k r groups)))
    (r :: concat (map snd groups)).
Proof.
  induction groups as [|[k' rows] rest IH]; simpl.
  - reflexivity.
  - destruct (key_compare k k'); simpl.
    + rewrite <- app_assoc. simpl.
      symmetry. apply Permutation_middle.
    + reflexivity.
    + rewrite IH. symmetry. apply Permutation_middle.
Qed.

Lemma groupby_rows_from (df : DataFrame)
  (groups : list (group_key * DataFrame)) :
  Permutation
    (concat (map snd
       (fold_left
          (fun groups r =>
             match key_of r with
             | Some k => add_to_group k r groups
             | None => groups
             end)
          df groups)))
    (concat (map snd groups)
     ++ List.filter (fun r => match key_of r with Some _ => true | None => false end) df)%list.
Proof.
  revert groups. induction df as [|r df IH]; intros groups; simpl.
  - rewrite app_nil_r. reflexivity.
  - rewrite IH. destruct (key_of r) as [k|].
    + rewrite add_to_group_rows. simpl. apply Permutation_middle.
    + reflexivity.
Qed.

(** The groups hold the rows of the frame that have a key, each one
    once. *)
Lemma groupby_rows (df : DataFrame) :
  Permutation (concat (map snd (groupby df)))
    (List.filter
       (fun r => match key_of r with Some _ => true | None => false end)
       df).
Proof. unfold groupby. rewrite groupby_rows_from. reflexivity. Qed.

Lemma filter_length_le {A : Type} (p : A -> bool) (l : list A) :
  (length (List.filter p l) <= length l)%nat.
Proof.
  induction l as [|a l IH]; simpl; [lia|]. destruct (p a); simpl; lia.
Qed.

Lemma filter_permutation {A : Type} (p : A -> bool) (l l' : list A) :
  Permutation l l' -> Permutation (List.filter p l) (List.filter p l').
Proof.
  induction 1; simpl.
  - reflexivity.
  - destruct (p x); [constructor|]; assumption.
  - destruct (p x), (p y); try reflexivity. apply perm_swap.
  - etransitivity; eassumption.
Qed.

Lemma filter_concat {A : Type} (p : A -> bool) (ls : list (list A)) :
  List.filter p (concat ls) = concat (map (List.filter p) ls).
Proof.
  induction ls as [|l ls IH]; simpl; [reflexivity|].
  rewrite List.filter_app, IH. reflexivity.
Qed.

(** The rows of one API in the groups are no more than in the frame. *)
Lemma groupby_api_rows (api : string) (df : DataFrame) :
  (length
     (concat
        (map (fun g => List.filter (fun r => String.eqb (api_type r) api)
                         (snd g))
           (groupby df)))
   <= length (List.filter (fun r => String.eqb (api_type r) api) df))%nat.
Proof.
  rewrite <- (map_map snd (List.filter _)), <- filter_concat.
  rewrite (Permutation_length (filter_permutation _ _ _ (groupby_rows df))).
  set (p := fun r : Row => String.eqb (api_type r) api).
  set (q := fun r : Row =>
              match key_of r with Some _ => true | None => false end).
  clearbody p q. induction df as [|r df IH]; simpl; [lia|].
  destruct (q r); simpl; destruct (p r); simpl; lia.
Qed.

Section Pairing.
Context {R : Type} (lib : Externals R).
Variables (column : Row -> float) (df : DataFrame).

Lemma paired_groups_bound (api : string) :
  api = "graphql" \/ api = "rest" ->
  len (paired_groups lib column df)
  <= len (concat
            (map (fun g => List.filter
                             (fun r => String.eqb (api_type r) api) (snd g))
               (groupby df))).
Proof.
  intros Hapi. unfold paired_groups. generalize (groupby df) as groups.
  induction groups as [|[[[o n] q] group] rest IH]; simpl;
    [unfold len; simpl; lia|].
  unfold len in *. rewrite !length_app.
  assert (H : forall a, length (column_of a column group)
                        = length (List.filter
                            (fun r => String.eqb (api_type r) a) group)).
  { intros a. unfold column_of. rewrite length_map. reflexivity. }
  destruct (0 <? Z.of_nat (length (column_of "graphql" column group)))
    eqn:Eg;
    destruct (0 <? Z.of_nat (length (column_of "rest" column group)))
      eqn:Er;
    cbn [andb length]; try lia.
  apply Z.ltb_lt in Eg, Er. rewrite H in Eg, Er.
  destruct Hapi; subst api; lia.
Qed.

Lemma pairs_le_api (api : string) :
  api = "graphql" \/ api = "rest" ->
  len (paired_groups lib column df) <= len (column_of api column df).
Proof.
  intros Hapi.
  etransitivity; [apply (paired_groups_bound api Hapi)|].
  unfold column_of, len. rewrite length_map. apply Nat2Z.inj_le.
  apply groupby_api_rows.
Qed.

Lemma api_rows_disjoint :
  len (column_of "graphql" column df) + len (column_of "rest" column df)
  <= len df.
Proof.
  unfold column_of, len. rewrite !length_map.
  induction df as [|r d IH]; simpl; [lia|].
  destruct (String.eqb_spec (api_type r) "graphql") as [E|E];
    destruct (String.eqb_spec (api_type r) "rest") as [E'|E'];
    simpl; try lia.
  rewrite E in E'. discriminate.
Qed.
End Pairing.

(** X1.  A frame gives no more paired groups than it has GraphQL rows, no
    more than it has REST rows, and so at most half as many as it has
    rows: [analyze_rq1] and [analyze_rq2] reach a paired test only on a
    frame of at least four rows with two measurements of each API. *)
Theorem pairs_are_bounded_by_the_pooled_samples {R : Type}
  (lib : Externals R) (column : Row -> float) (df : DataFrame) :
  let pairs := paired_groups lib column df in
  len pairs <= len (column_of "graphql" column df)
  /\ len pairs <= len (column_of "rest" column df)
  /\ 2 * len pairs <= len df.
Proof.
  intros pairs. subst pairs.
  pose proof (pairs_le_api lib column df "graphql" (or_introl eq_refl)).
  pose proof (pairs_le_api lib column df "rest" (or_intror eq_refl)).
  pose proof (api_rows_disjoint column df).
  lia.
Qed.

(** ** What makes an analysis fail *)

Section Failures.
Context {R : Type} (lib : Externals R).
Variables (impl : implementation) (column : Row -> float)
  (wording : Wording) (df : DataFrame).


Lemma describe_returns (x : list float) :
  (forall x, x <> [] -> exists v, np_min lib x = Returns v) ->
  (forall x, x <> [] -> exists v, np_max lib x = Returns v) ->
  x <> [] -> exists s, describe lib x = Returns s.
Proof.
  intros Hmin Hmax Hx. unfold describe.
  destruct (Hmin x Hx) as [lo ->]. destruct (Hmax x Hx) as [hi ->].
  eexists. reflexivity.
Qed.

Lemma nonempty_of_len {A : Type} (x : list A) : 0 < len x -> x <> [].
Proof. intros H E. rewrite E in H. unfold len in H. simpl in H. lia. Qed.
End Failures.



(** X3.  With at least one paired group, and numpy's [min] and [max]
    answering on every array that is not empty, the analysis of either
    class can only fail in the paired test: it returns a result, or there
    are at least two pairs and it raises what the selected test raised. *)
Theorem only_the_paired_test_fails {R : Type} (lib : Externals R)
  (impl : implementation) (column : Row -> float) (wording : Wording)
  (df : DataFrame) (w : world R) :
  (forall x, x <> [] -> exists v, np_min lib x = Returns v) ->
  (forall x, x <> [] -> exists v, np_max lib x = Returns v) ->
  0 < len (paired_groups lib column df) ->
  (exists c w', compare_rq impl lib column wording df w = (Returns c, w'))
  \/ (1 < len (paired_groups lib column df)
      /\ exists e w',
           answer lib (selected lib column df w) = Raises e
           /\ compare_rq impl lib column wording df w = (Raises e, w')).
Proof.
  intros Hmin Hmax Hn.
  pose proof (pairs_le_api lib column df "graphql" (or_introl eq_refl))
    as Hg.
  pose proof (pairs_le_api lib column df "rest" (or_intror eq_refl)) as Hr.
  destruct (describe_returns lib (column_of "graphql" column df) Hmin Hmax)
    as [gs Hgs]; [apply nonempty_of_len; lia|].
  destruct (describe_returns lib (column_of "rest" column df) Hmin Hmax)
    as [rs Hrs]; [apply nonempty_of_len; lia|].
  destruct (Z_lt_le_dec 1 (len (paired_groups lib column df))) as [H2 | H1].
  - rewrite (compare_tested lib impl column wording df w gs rs H2 Hgs Hrs).
    destruct (answer lib (selected lib column df w)) as [[t p]|e].
    + left. eauto.
    + right. split; [exact H2|]. eauto.
  - left.
    rewrite (compare_untested lib impl column wording df w gs rs H1 Hgs Hrs).
    eauto.
Qed.

Lemma only_the_paired_test_fails_witness :
  (exists c w',
     compare_rq Reporter Reference.degenerate response_time_ms rq1_wording
       Reference.fives (Reference.start 1) = (Returns c, w'))
  \/ (1 < len (paired_groups Reference.degenerate response_time_ms
                 Reference.fives)
      /\ exists e w',
           answer Reference.degenerate
             (selected Reference.degenerate response_time_ms Reference.fives
                (Reference.start 1)) = Raises e
           /\ compare_rq Reporter Reference.degenerate response_time_ms
                rq1_wording Reference.fives (Reference.start 1)
              = (Raises e, w')).
Proof.
  apply (only_the_paired_test_fails Reference.degenerate Reporter
           response_time_ms rq1_wording Reference.fives (Reference.start 1)).
  - intros [|v x] H; [congruence|]. eexists. reflexivity.
  - intros [|v x] H; [congruence|]. eexists. reflexivity.
  - reflexivity.
Defined.

(** X4.  The two copies of the analysis, in [experiment_analyzer.py] and
    in [generate_experiment_report.py], agree: on every frame and from
    every world they leave the same world, both return or both raise the
    same exception, and the results they return have the same test name,
    p-value and effect size; the conclusions are the same too, except on
    fewer than two pairs, where each class has its own sentence. *)
Theorem the_two_classes_agree {R : Type} (lib : Externals R)
  (column : Row -> float) (wording : Wording) (df : DataFrame)
  (w : world R) :
  let analyzer := compare_rq Analyzer lib column wording df w in
  let reporter := compare_rq Reporter lib column wording df w in
  snd analyzer = snd reporter
  /\ match fst analyzer, fst reporter with
     | Returns a, Returns r =>
         test_name a = test_name r
         /\ p_value a = p_value r
         /\ cohens_d a = cohens_d r
         /\ (if 1 <? len (paired_groups lib column df)
             then conclusion a = conclusion r
             else conclusion a = ExperimentAnalyzer.insufficient_data
                  /\ conclusion r
                     = GraphQLvsRESTReportGenerator.insufficient_data)
     | Raises e, Raises e' => e = e'
     | _, _ => False
     end.
Proof.
  intros analyzer reporter. subst analyzer reporter.
  destruct (describe lib (column_of "graphql" column df)) as [gs|e] eqn:Hg.
  2:{ rewrite !(compare_describe_raises lib _ column wording df w e Hg).
      simpl. auto. }
  destruct (describe lib (column_of "rest" column df)) as [rs|e] eqn:Hr.
  2:{ rewrite !(compare_describe_rest_raises lib _ column wording df w gs e
                  Hg Hr).
      simpl. auto. }
  destruct (1 <? len (paired_groups lib column df)) eqn:E.
  - apply Z.ltb_lt in E.
    rewrite !(compare_tested lib _ column wording df w gs rs E Hg Hr).
    destruct (answer lib (selected lib column df w)) as [[t p]|e]; simpl;
      auto.
  - apply Z.ltb_ge in E.
    rewrite !(compare_untested lib _ column wording df w gs rs E Hg Hr).
    simpl. auto 10.
Qed.

(** ** What a returned result says *)

Section ReturnedResults.
Context {R : Type} (lib : Externals R).
Variables (column : Row -> float) (wording : Wording) (df : DataFrame).

Lemma analyzer_returns_described (w w' : world R)
  (r : ExperimentAnalyzer.Result) :
  ExperimentAnalyzer.analyze_rq lib column wording df w = (Returns r, w') ->
  exists gs rs,
    describe lib (column_of "graphql" column df) = Returns gs
    /\ describe lib (column_of "rest" column df) = Returns rs.
Proof.
  unfold ExperimentAnalyzer.analyze_rq.
  destruct (describe lib (column_of "graphql" column df)) as [gs|e];
    [|discriminate].
  destruct (describe lib (column_of "rest" column df)) as [rs|e];
    [|discriminate].
  eauto.
Qed.

Lemma reporter_returns_described (w w' : world R)
  (r : GraphQLvsRESTReportGenerator.Result) :
  GraphQLvsRESTReportGenerator.analyze_rq lib column wording df w
  = (Returns r, w') ->
  exists gs rs,
    describe lib (column_of "graphql" column df) = Returns gs
    /\ describe lib (column_of "rest" column df) = Returns rs.
Proof.
  unfold GraphQLvsRESTReportGenerator.analyze_rq.
  destruct (describe lib (column_of "graphql" column df)) as [gs|e];
    [|discriminate].
  destruct (describe lib (column_of "rest" column df)) as [rs|e];
    [|discriminate].
  eauto.
Qed.

Lemma selected_name_is_a_test (a b : bool) :
  String.eqb (selected_name a b) "N/A" = false.
Proof. unfold selected_name. destruct (a && b); reflexivity. Qed.
End ReturnedResults.

(** X5.  The entries of a result of [ExperimentAnalyzer] are consistent:
    the flag [graphql_faster] (or [graphql_smaller]) says whether the
    returned mean difference is negative, and the conclusion is the
    sentence that the returned p-value, flag and test name determine.  In
    particular a p-value below 0.05 with a mean difference that is zero or
    NaN is reported as a win of REST. *)
Theorem analyzer_result_is_consistent {R : Type} (lib : Externals R)
  (column : Row -> float) (wording : Wording) (df : DataFrame)
  (w w' : world R) (r : ExperimentAnalyzer.Result) :
  ExperimentAnalyzer.analyze_rq lib column wording df w = (Returns r, w') ->
  ExperimentAnalyzer.graphql_faster r
  = (ExperimentAnalyzer.mean_difference r <? 0)%float
  /\ ExperimentAnalyzer.conclusion r
     = (if (ExperimentAnalyzer.p_value r <? 0.05)%float then
          if ExperimentAnalyzer.graphql_faster r
          then graphql_wins wording
          else rest_wins wording
        else if String.eqb (ExperimentAnalyzer.test_name r) "N/A"
             then ExperimentAnalyzer.insufficient_data
             else no_difference).
Proof.
  intros Hrun.
  destruct (analyzer_returns_described lib column wording df w w' r Hrun)
    as (gs & rs & Hg & Hr).
  destruct (Z_lt_le_dec 1 (len (paired_groups lib column df))) as [H2 | H1].
  - rewrite (analyzer_tested lib column wording df w gs rs H2 Hg Hr)
      in Hrun.
    destruct (answer lib (selected lib column df w)) as [[t p]|e];
      [|discriminate].
    injection Hrun as <- _. simpl.
    rewrite selected_name_is_a_test. split; reflexivity.
  - rewrite (analyzer_untested lib column wording df w gs rs H1 Hg Hr)
      in Hrun.
    injection Hrun as <- _. simpl. split; [|reflexivity].
    destruct (len (paired_groups lib column df) =? 0); reflexivity.
Qed.

Lemma analyzer_result_is_consistent_witness :
  exists r : ExperimentAnalyzer.Result,
    ExperimentAnalyzer.conclusion r = rest_wins rq1_wording
    /\ ExperimentAnalyzer.graphql_faster r
       = (ExperimentAnalyzer.mean_difference r <? 0)%float
    /\ ExperimentAnalyzer.conclusion r
       = (if (ExperimentAnalyzer.p_value r <? 0.05)%float then
            if ExperimentAnalyzer.graphql_faster r
            then graphql_wins rq1_wording
            else rest_wins rq1_wording
          else if String.eqb (ExperimentAnalyzer.test_name r) "N/A"
               then ExperimentAnalyzer.insufficient_data
               else no_difference).
Proof.
  eexists. split; [|
    refine (analyzer_result_is_consistent Reference.lab response_time_ms
              rq1_wording Reference.fives (Reference.start 1) _ _ eq_refl)].
  reflexivity.
Defined.

(** X6.  The report of [GraphQLvsRESTReportGenerator] names, in its
    interpretation, the test that the two normality flags select.  This is
    the test that was run when there were at least two pairs; with fewer
    pairs no test was run and the result says "N/A", but the
    interpretation still names one. *)
Theorem interpretation_names_a_test {R : Type} (lib : Externals R)
  (column : Row -> float) (wording : Wording) (df : DataFrame)
  (w w' : world R) (r : GraphQLvsRESTReportGenerator.Result) :
  GraphQLvsRESTReportGenerator.analyze_rq lib column wording df w
  = (Returns r, w') ->
  GraphQLvsRESTReportGenerator.test_name r
  = (if 1 <? len (paired_groups lib column df)
     then Markdown.interpretation_test r
     else "N/A")
  /\ Markdown.interpretation_test r <> "N/A".
Proof.
  intros Hrun.
  destruct (reporter_returns_described lib column wording df w w' r Hrun)
    as (gs & rs & Hg & Hr).
  assert (Hname : Markdown.interpretation_test r <> "N/A").
  { unfold Markdown.interpretation_test.
    destruct (_ && _); discriminate. }
  split; [|exact Hname].
  destruct (1 <? len (paired_groups lib column df)) eqn:E.
  - apply Z.ltb_lt in E.
    rewrite (reporter_tested lib column wording df w gs rs E Hg Hr)
      in Hrun.
    destruct (answer lib (selected lib column df w)) as [[t p]|e];
      [|discriminate].
    injection Hrun as <- _. reflexivity.
  - apply Z.ltb_ge in E.
    rewrite (reporter_untested lib column wording df w gs rs E Hg Hr)
      in Hrun.
    injection Hrun as <- _. reflexivity.
Qed.

Lemma interpretation_names_a_test_witness :
  exists r : GraphQLvsRESTReportGenerator.Result,
    GraphQLvsRESTReportGenerator.test_name r = "N/A"
    /\ Markdown.interpretation_test r = "Teste t pareado"
    /\ GraphQLvsRESTReportGenerator.test_name r
       = (if 1 <? len (paired_groups Reference.lab response_time_ms
                         Reference.one_group)
          then Markdown.interpretation_test r
          else "N/A")
    /\ Markdown.interpretation_test r <> "N/A".
Proof.
  eexists. split; [|split; [|
    refine (interpretation_names_a_test Reference.lab response_time_ms
              rq1_wording Reference.one_group (Reference.start 1) _ _
              eq_refl)]]; reflexivity.
Defined.

(** X7.  In the report of [GraphQLvsRESTReportGenerator] on the two
    research questions, the sentence on the null hypothesis and the
    conclusion agree: the report says that the null hypothesis is rejected
    exactly when the conclusion names GraphQL or REST as the better one. *)
Theorem null_hypothesis_agrees_with_conclusion {R : Type}
  (lib : Externals R) (column : Row -> float) (wording : Wording)
  (df : DataFrame) (w w' : world R)
  (r : GraphQLvsRESTReportGenerator.Result) :
  wording = rq1_wording \/ wording = rq2_wording ->
  GraphQLvsRESTReportGenerator.analyze_rq lib column wording df w
  = (Returns r, w') ->
  Markdown.null_hypothesis r = "rejeitamos a hipótese nula (p < 0.05)"
  <-> (GraphQLvsRESTReportGenerator.conclusion r = graphql_wins wording
       \/ GraphQLvsRESTReportGenerator.conclusion r = rest_wins wording).
Proof.
  intros Hw Hrun.
  destruct (reporter_returns_described lib column wording df w w' r Hrun)
    as (gs & rs & Hg & Hr).
  unfold Markdown.null_hypothesis.
  destruct (Z_lt_le_dec 1 (len (paired_groups lib column df))) as [H2 | H1].
  - rewrite (reporter_tested lib column wording df w gs rs H2 Hg Hr)
      in Hrun.
    destruct (answer lib (selected lib column df w)) as [[t p]|e];
      [|discriminate].
    injection Hrun as <- _. simpl. unfold conclusion_of.
    destruct (p <? 0.05)%float.
    + split; [intros _|reflexivity].
      destruct (_ <? 0)%float; auto.
    + split; [discriminate|].
      destruct Hw; subst wording; intros [H|H]; discriminate H.
  - rewrite (reporter_untested lib column wording df w gs rs H1 Hg Hr)
      in Hrun.
    injection Hrun as <- _. simpl.
    split; [discriminate|].
    destruct Hw; subst wording; intros [H|H]; discriminate H.
Qed.

Lemma null_hypothesis_agrees_with_conclusion_witness :
  exists r : GraphQLvsRESTReportGenerator.Result,
    Markdown.null_hypothesis r = "rejeitamos a hipótese nula (p < 0.05)"
    <-> (GraphQLvsRESTReportGenerator.conclusion r
         = graphql_wins rq2_wording
         \/ GraphQLvsRESTReportGenerator.conclusion r
            = rest_wins rq2_wording).
Proof.
  eexists.
  refine (null_hypothesis_agrees_with_conclusion Reference.lab
            response_size_bytes rq2_wording Reference.three_groups
            (Reference.start 1) _ _ (or_intror eq_refl) eq_refl).
Defined.

(** ** The table by query type *)

Lemma filter_nonempty_existsb {A : Type} (p : A -> bool) (l : list A) :
  (0 <? len (List.filter p l)) = existsb p l.
Proof.
  induction l as [|a l IH]; simpl; [reflexivity|].
  destruct (p a); simpl; [|exact IH].
  unfold len. simpl. apply Z.ltb_lt. lia.
Qed.

(** A query type of the list that occurs in the frame has an entry. *)
Lemma table_entry {R : Type} (lib : Externals R) (df : DataFrame)
  (qt : string) :
  In qt query_types -> existsb (has_query_type qt) df = true ->
  In qt (map fst (analyze_by_query_type lib df)).
Proof.
  intros Hqt Hdf. unfold analyze_by_query_type.
  apply in_map_iff. eexists (qt, _). split; [reflexivity|].
  apply in_flat_map. exists qt. split; [exact Hqt|].
  rewrite filter_nonempty_existsb, Hdf. left. reflexivity.
Qed.


(** ** The size of an effect, in words *)

Lemma abs_opp (d : float) : PrimFloat.abs (- d) = PrimFloat.abs d.
Proof.
  apply FloatAxioms.Prim2SF_inj.
  rewrite !FloatAxioms.abs_spec, FloatAxioms.opp_spec.
  destruct (Prim2SF d); reflexivity.
Qed.

Lemma nan_is_not_below (a t : float) :
  PrimFloat.is_nan a = true -> (PrimFloat.abs a <? t)%float = false.
Proof.
  unfold PrimFloat.is_nan. rewrite FloatAxioms.eqb_spec, FloatAxioms.ltb_spec,
    FloatAxioms.abs_spec.
  unfold SFeqb, SFltb.
  destruct (Prim2SF a) as [s|s| |s m e]; simpl.
  - destruct s; discriminate.
  - destruct s; discriminate.
  - reflexivity.
  - destruct s; rewrite Z.compare_refl;
      change (Pos.compare_cont Eq m m) with (Pos.compare m m);
      rewrite Pos.compare_refl; discriminate.
Qed.

(** X9.  The word for the size of an effect in the report depends on the
    magnitude of Cohen's d alone, grows with it through "muito pequeno",
    "pequeno", "médio" and "grande", and is "grande" for a d that is
    NaN. *)
Theorem effect_magnitude_follows_the_magnitude (d : float) :
  Markdown.effect_magnitude (- d) = Markdown.effect_magnitude d
  /\ (PrimFloat.is_nan d = true -> Markdown.effect_magnitude d = "grande")
  /\ (forall d' : float,
        (PrimFloat.abs d <=? PrimFloat.abs d')%float = true ->
        (Markdown.magnitude_rank (Markdown.effect_magnitude d)
         <= Markdown.magnitude_rank (Markdown.effect_magnitude d'))%nat).
Proof.
  split; [|split].
  - unfold Markdown.effect_magnitude. rewrite abs_opp. reflexivity.
  - intros Hnan. unfold Markdown.effect_magnitude.
    rewrite !(nan_is_not_below d _ Hnan). reflexivity.
  - intros d' Hle. unfold Markdown.effect_magnitude.
    destruct (PrimFloat.abs d' <? 0.2)%float eqn:E2.
    { rewrite (leb_ltb_trans _ _ _ Hle E2). reflexivity. }
    destruct (PrimFloat.abs d' <? 0.5)%float eqn:E5.
    { rewrite (leb_ltb_trans _ _ _ Hle E5).
      destruct (PrimFloat.abs d <? 0.2)%float; vm_compute; lia. }
    destruct (PrimFloat.abs d' <? 0.8)%float eqn:E8.
    { rewrite (leb_ltb_trans _ _ _ Hle E8).
      destruct (PrimFloat.abs d <? 0.2)%float;
        [|destruct (PrimFloat.abs d <? 0.5)%float]; vm_compute; lia. }
    destruct (PrimFloat.abs d <? 0.2)%float;
      [|destruct (PrimFloat.abs d <? 0.5)%float;
        [|destruct (PrimFloat.abs d <? 0.8)%float]]; vm_compute; lia.
Qed.

Lemma effect_magnitude_follows_the_magnitude_witness :
  (Markdown.magnitude_rank (Markdown.effect_magnitude (-0.3))
   <= Markdown.magnitude_rank (Markdown.effect_magnitude 0.9))%nat.
Proof.
  destruct (effect_magnitude_follows_the_magnitude (-0.3)%float)
    as (_ & _ & H).
  apply (H 0.9%float). reflexivity.
Defined.

(** ** The rows of a group *)

Lemma key_compare_eq (a b : group_key) : key_compare a b = Eq -> a = b.
Proof.
  destruct a as [[o1 n1] q1], b as [[o2 n2] q2]. unfold key_compare.
  destruct (String.compare o1 o2) eqn:Eo; try discriminate.
  destruct (String.compare n1 n2) eqn:En; try discriminate.
  intros Eq.
  apply String.compare_eq_iff in Eo, En, Eq. congruence.
Qed.

Lemma add_to_group_keyed (k : group_key) (r : Row)
  (groups : list (group_key * DataFrame)) :
  key_of r = Some k ->
  Forall (fun g => Forall (fun r => key_of r = Some (fst g)) (snd g)) groups ->
  Forall (fun g => Forall (fun r => key_of r = Some (fst g)) (snd g))
    (add_to_group k r groups).
Proof.
  intros Hk. induction 1 as [|[k' rows] rest Hg Hrest IH]; simpl.
  - repeat constructor. exact Hk.
  - destruct (key_compare k k') eqn:E.
    + apply key_compare_eq in E. subst k'.
      constructor; [|exact Hrest]. simpl in *.
      apply List.Forall_app. split; [exact Hg|]. repeat constructor. exact Hk.
    + constructor; [|constructor; assumption].
      repeat constructor. exact Hk.
    + constructor; assumption.
Qed.

(** Every row of a group has the key of the group. *)
Lemma groupby_keyed (df : DataFrame) :
  Forall (fun g => Forall (fun r => key_of r = Some (fst g)) (snd g))
    (groupby df).
Proof.
  unfold groupby.
  assert (H : Forall (fun g : group_key * DataFrame =>
                        Forall (fun r => key_of r = Some (fst g)) (snd g))
                []) by constructor.
  revert H. generalize (@nil (group_key * DataFrame)) as groups.
  induction df as [|r df IH]; intros groups H; simpl; [exact H|].
  apply IH. destruct (key_of r) as [k|] eqn:E; [|exact H].
  apply add_to_group_keyed; assumption.
Qed.

Lemma groupby_row_in_frame (df : DataFrame) (g : group_key * DataFrame)
  (r : Row) :
  In g (groupby df) -> In r (snd g) -> In r df.
Proof.
  intros Hg Hr.
  assert (H : In r (concat (map snd (groupby df)))).
  { apply in_concat. exists (snd g). split; [|exact Hr].
    apply in_map. exact Hg. }
  apply (Permutation_in _ (groupby_rows df)) in H.
  apply filter_In in H. tauto.
Qed.

(** X10.  A query type among "simple", "complex" and "multiple" that
    gives a paired group to [analyze_rq1] or [analyze_rq2] has an entry
    in the table of [analyze_by_query_type]. *)
Theorem paired_query_types_are_in_the_table {R : Type} (lib : Externals R)
  (column : Row -> float) (df : DataFrame) (g : GroupResult) :
  In g (paired_groups lib column df) ->
  In (group_query_type g) ["simple"; "complex"; "multiple"] ->
  In (group_query_type g) (map fst (analyze_by_query_type lib df)).
Proof.
  intros Hg Hq. apply table_entry; [exact Hq|].
  unfold paired_groups in Hg. apply in_flat_map in Hg.
  destruct Hg as ([[[o n] q] rows] & Hin & Hg).
  pose proof (groupby_keyed df) as Hkeys.
  rewrite List.Forall_forall in Hkeys. specialize (Hkeys _ Hin). simpl in Hkeys.
  destruct (0 <? len (column_of "graphql" column rows)) eqn:E;
    [|destruct Hg].
  destruct (0 <? len (column_of "rest" column rows)); [|destruct Hg].
  destruct Hg as [<-|[]].
  simpl. unfold column_of in E.
  destruct (List.filter _ rows) as [|r l] eqn:Ef; [discriminate E|].
  assert (Hr : In r rows).
  { assert (H : In r (List.filter
                        (fun r => String.eqb (api_type r) "graphql") rows))
      by (rewrite Ef; left; reflexivity).
    apply filter_In in H. tauto. }
  apply existsb_exists. exists r. split.
  - apply (groupby_row_in_frame df _ r Hin Hr).
  - rewrite List.Forall_forall in Hkeys. specialize (Hkeys r Hr).
    unfold key_of in Hkeys. unfold has_query_type.
    destruct (repository_owner r), (repository_name r), (query_type r);
      try discriminate.
    injection Hkeys as _ _ ->. apply String.eqb_refl.
Qed.

Lemma paired_query_types_are_in_the_table_witness :
  In "complex"
    (map fst (analyze_by_query_type Reference.lab Reference.three_groups)).
Proof.
  refine (paired_query_types_are_in_the_table Reference.lab response_time_ms
            Reference.three_groups
            (nth 0 (paired_groups Reference.lab response_time_ms
                      Reference.three_groups)
               {| repository := ""; group_query_type := "";
                  graphql_mean := 0; rest_mean := 0; difference := 0 |})
            _ _).
  - vm_compute. left. reflexivity.
  - vm_compute. right. left. reflexivity.
Defined.

(** ** Runs that draw no sample *)

Section NoDraw.
Context {R : Type} (lib : Externals R).

Lemma keeps_rng_bind {A B : Type} (m : M R A) (k : A -> M R B) :
  keeps_rng m -> (forall a, keeps_rng (k a)) -> keeps_rng (bind m k).
Proof.
  intros Hm Hk w. unfold bind. specialize (Hm w).
  destruct (m w) as [[a|e] w1]; simpl in *.
  - rewrite Hk. exact Hm.
  - exact Hm.
Qed.

Lemma keeps_rng_ret {A : Type} (a : A) : keeps_rng (R := R) (ret a).
Proof. intros w. reflexivity. Qed.

Lemma column_len (api : string) (c1 c2 : Row -> float) (df : DataFrame) :
  len (column_of api c1 df) = len (column_of api c2 df).
Proof. unfold column_of, len. rewrite !length_map. reflexivity. Qed.

Lemma normality_keeps_rng (data : list float) (w : world R) :
  len data <= 5000 -> rng (snd (normality lib data w)) = rng w.
Proof.
  intros H. unfold normality. destruct (len data <? 3); [reflexivity|].
  rewrite (no_draw_up_to_cap lib data w H). reflexivity.
Qed.

Lemma after_rest_keeps_rng (column : Row -> float) (df : DataFrame)
  (w : world R) :
  len (column_of "graphql" column df) <= 5000 ->
  len (column_of "rest" column df) <= 5000 ->
  rng (after_rest lib column df w) = rng w.
Proof.
  intros Hg Hr. unfold after_rest, after_graphql.
  rewrite !normality_keeps_rng by assumption. reflexivity.
Qed.

Lemma compare_keeps_rng (impl : implementation) (column : Row -> float)
  (wording : Wording) (df : DataFrame) :
  len (column_of "graphql" column df) <= 5000 ->
  len (column_of "rest" column df) <= 5000 ->
  keeps_rng (compare_rq impl lib column wording df).
Proof.
  intros Hg Hr w.
  destruct (describe lib (column_of "graphql" column df)) as [gs|e] eqn:Dg.
  2:{ rewrite (compare_describe_raises lib _ column wording df w e Dg).
      reflexivity. }
  destruct (describe lib (column_of "rest" column df)) as [rs|e] eqn:Dr.
  2:{ rewrite (compare_describe_rest_raises lib _ column wording df w gs e
                 Dg Dr).
      reflexivity. }
  destruct (Z_lt_le_dec 1 (len (paired_groups lib column df))) as [H2 | H1].
  - rewrite (compare_tested lib impl column wording df w gs rs H2 Dg Dr).
    destruct (answer lib (selected lib column df w)) as [[t p]|e]; simpl;
      apply after_rest_keeps_rng; assumption.
  - rewrite (compare_untested lib impl column wording df w gs rs H1 Dg Dr).
    simpl. apply after_rest_keeps_rng; assumption.
Qed.

Lemma fmap_world {A B : Type} (f : A -> B) (m : M R A) (w : world R) :
  snd (fmap f m w) = snd (m w).
Proof. unfold fmap. destruct (m w) as [[a|e] w1]; reflexivity. Qed.

Lemma analyzer_keeps_rng (column : Row -> float) (wording : Wording)
  (df : DataFrame) :
  len (column_of "graphql" column df) <= 5000 ->
  len (column_of "rest" column df) <= 5000 ->
  keeps_rng (ExperimentAnalyzer.analyze_rq lib column wording df).
Proof.
  intros Hg Hr w.
  rewrite <- (compare_keeps_rng Analyzer column wording df Hg Hr w).
  unfold compare_rq. rewrite fmap_world. reflexivity.
Qed.

Lemma reporter_keeps_rng (column : Row -> float) (wording : Wording)
  (df : DataFrame) :
  len (column_of "graphql" column df) <= 5000 ->
  len (column_of "rest" column df) <= 5000 ->
  keeps_rng (GraphQLvsRESTReportGenerator.analyze_rq lib column wording df).
Proof.
  intros Hg Hr w.
  rewrite <- (compare_keeps_rng Reporter column wording df Hg Hr w).
  unfold compare_rq. rewrite fmap_world. reflexivity.
Qed.

(** A second run of a computation that is oblivious of the log and keeps
    the generator has the outcome of the first. *)
Lemma second_run {A : Type} (m : M R A) (w : world R) :
  oblivious m -> keeps_rng m -> fst (m (snd (m w))) = fst (m w).
Proof.
  intros Ho Hk. apply (oblivious_same_seed m _ _ Ho). apply Hk.
Qed.
End NoDraw.

(** X11.  On a frame with at most 5000 rows of each API, the results
    that [main] of [experiment_analyzer.py] prints are the results that
    [generate_summary_report] then writes, and the results that
    [generate_complete_report] of [generate_experiment_report.py] computes
    first are those that [generate_markdown_report] then reports: the
    second run of [analyze_rq1] and [analyze_rq2] repeats the first. *)
Theorem second_run_repeats_the_first {R : Type} (lib : Externals R)
  (df : DataFrame) (w : world R) :
  len (column_of "graphql" response_time_ms df) <= 5000 ->
  len (column_of "rest" response_time_ms df) <= 5000 ->
  fst (analyzer_main lib df w)
  = match fst (ExperimentAnalyzer.run_analysis lib df w) with
    | Returns results => Returns (results, results)
    | Raises e => Raises e
    end
  /\ fst (reporter_complete_report lib df w)
     = match fst (GraphQLvsRESTReportGenerator.run_analysis lib df w) with
       | Returns results => Returns (results, results)
       | Raises e => Raises e
       end.
Proof.
  intros Hg Hr.
  assert (Hg' : len (column_of "graphql" response_size_bytes df) <= 5000)
    by (rewrite (column_len "graphql" _ response_time_ms); exact Hg).
  assert (Hr' : len (column_of "rest" response_size_bytes df) <= 5000)
    by (rewrite (column_len "rest" _ response_time_ms); exact Hr).
  split.
  - assert (Hk : keeps_rng (ExperimentAnalyzer.run_analysis lib df)).
    { unfold ExperimentAnalyzer.run_analysis.
      apply keeps_rng_bind; [apply analyzer_keeps_rng; assumption|].
      intros a.
      apply keeps_rng_bind; [apply analyzer_keeps_rng; assumption|].
      intros b. apply keeps_rng_ret. }
    pose proof (second_run (ExperimentAnalyzer.run_analysis lib df) w
                  (oblivious_analyzer_run lib df) Hk) as H2.
    unfold analyzer_main, bind at 1.
    destruct (ExperimentAnalyzer.run_analysis lib df w) as [[a|e] w1];
      simpl in *; [|reflexivity].
    unfold bind.
    destruct (ExperimentAnalyzer.run_analysis lib df w1) as [[b|e] w2];
      simpl in *; [|discriminate].
    injection H2 as ->. reflexivity.
  - assert (Hk : keeps_rng (GraphQLvsRESTReportGenerator.run_analysis lib df)).
    { unfold GraphQLvsRESTReportGenerator.run_analysis.
      apply keeps_rng_bind; [apply reporter_keeps_rng; assumption|].
      intros a.
      apply keeps_rng_bind; [apply reporter_keeps_rng; assumption|].
      intros b. apply keeps_rng_ret. }
    pose proof (second_run (GraphQLvsRESTReportGenerator.run_analysis lib df)
                  w (oblivious_reporter_run lib df) Hk) as H2.
    unfold reporter_complete_report, bind at 1.
    destruct (GraphQLvsRESTReportGenerator.run_analysis lib df w)
      as [[a|e] w1]; simpl in *; [|reflexivity].
    unfold bind.
    destruct (GraphQLvsRESTReportGenerator.run_analysis lib df w1)
      as [[b|e] w2]; simpl in *; [|discriminate].
    injection H2 as ->. reflexivity.
Qed.

Lemma second_run_repeats_the_first_witness :
  let lib := Reference.lab in
  let df := Reference.three_groups in
  let w := Reference.start 3 in
  fst (analyzer_main lib df w)
  = match fst (ExperimentAnalyzer.run_analysis lib df w) with
    | Returns results => Returns (results, results)
    | Raises e => Raises e
    end
  /\ fst (reporter_complete_report lib df w)
     = match fst (GraphQLvsRESTReportGenerator.run_analysis lib df w) with
       | Returns results => Returns (results, results)
       | Raises e => Raises e
       end.
Proof.
  intros lib df w.
  apply (second_run_repeats_the_first lib df w); vm_compute; discriminate.
Defined.

(** ** The cells an analysis reads *)

Section Cells.
Context {R : Type} (lib : Externals R).
Variable column : Row -> float.

Lemma same_but_key (r r' : Row) :
  same_but column r r' -> key_of r = key_of r'.
Proof.
  intros (Ho & Hn & Hq & _). unfold key_of. rewrite Ho, Hn, Hq. reflexivity.
Qed.

Lemma column_of_same (api : string) (df df' : DataFrame) :
  Forall2 (same_but column) df df' ->
  column_of api column df = column_of api column df'.
Proof.
  unfold column_of. induction 1 as [|r r' df df' Hr Hdf IH]; simpl;
    [reflexivity|].
  destruct Hr as (_ & _ & _ & Ha & Hc). rewrite <- Ha.
  destruct (String.eqb (api_type r) api); simpl; [rewrite Hc|];
    rewrite IH; reflexivity.
Qed.

#[local] Abbreviation same_groups :=
  (Forall2 (fun g g' : group_key * DataFrame =>
              fst g = fst g' /\ Forall2 (same_but column) (snd g) (snd g')))
  (only parsing).

Lemma add_to_group_same (k : group_key) (r r' : Row)
  (groups groups' : list (group_key * DataFrame)) :
  same_but column r r' -> same_groups groups groups' ->
  same_groups (add_to_group k r groups) (add_to_group k r' groups').
Proof.
  intros Hr.
  assert (Hone : Forall2 (same_but column) [r] [r'])
    by (constructor; [exact Hr|constructor]).
  induction 1 as [|[k1 rows] [k2 rows'] rest rest' Hg Hrest IH]; simpl.
  - constructor; [split; [reflexivity|exact Hone]|constructor].
  - destruct Hg as [Hk Hrows]. simpl in Hk, Hrows. subst k2.
    destruct (key_compare k k1).
    + constructor; [|exact Hrest]. split; [reflexivity|]. simpl.
      apply Forall2_app; [exact Hrows|exact Hone].
    + constructor; [split; [reflexivity|exact Hone]|].
      constructor; [split; [reflexivity|exact Hrows]|exact Hrest].
    + constructor; [split; [reflexivity|exact Hrows]|exact IH].
Qed.

Lemma groupby_same (df df' : DataFrame) :
  Forall2 (same_but column) df df' -> same_groups (groupby df) (groupby df').
Proof.
  unfold groupby. intros H.
  assert (H0 : same_groups [] []) by constructor.
  revert H0. generalize (@nil (group_key * DataFrame)) at 1 3 as groups.
  generalize (@nil (group_key * DataFrame)) as groups'.
  induction H as [|r r' df df' Hr Hdf IH]; intros groups' groups H0; simpl;
    [exact H0|].
  apply IH. rewrite <- (same_but_key r r' Hr).
  destruct (key_of r) as [k|]; [|exact H0].
  apply add_to_group_same; assumption.
Qed.

Lemma paired_groups_same (df df' : DataFrame) :
  Forall2 (same_but column) df df' ->
  paired_groups lib column df = paired_groups lib column df'.
Proof.
  intros H. unfold paired_groups.
  induction (groupby_same df df' H)
    as [|[[[o n] q] rows] [k' rows'] rest rest' Hg Hrest IH]; simpl;
    [reflexivity|].
  destruct Hg as [Hk Hrows]. simpl in Hk, Hrows. subst k'.
  rewrite !(column_of_same _ rows rows' Hrows), IH. reflexivity.
Qed.
End Cells.

(** X12.  Each research question reads its own column: two frames that
    agree, row by row, on repository, query type, API and response time
    give the same outcome of [analyze_rq1] in the same world, whatever
    their response sizes, and two frames that agree on all but the
    response times give the same outcome of [analyze_rq2], in either
    class. *)
Theorem each_question_reads_its_own_column {R : Type} (lib : Externals R)
  (df df' : DataFrame) (w : world R) :
  (Forall2 (same_but response_time_ms) df df' ->
   ExperimentAnalyzer.analyze_rq1 lib df w
   = ExperimentAnalyzer.analyze_rq1 lib df' w
   /\ GraphQLvsRESTReportGenerator.analyze_rq1 lib df w
      = GraphQLvsRESTReportGenerator.analyze_rq1 lib df' w)
  /\ (Forall2 (same_but response_size_bytes) df df' ->
      ExperimentAnalyzer.analyze_rq2 lib df w
      = ExperimentAnalyzer.analyze_rq2 lib df' w
      /\ GraphQLvsRESTReportGenerator.analyze_rq2 lib df w
         = GraphQLvsRESTReportGenerator.analyze_rq2 lib df' w).
Proof.
  split; intros H.
  - unfold ExperimentAnalyzer.analyze_rq1,
      GraphQLvsRESTReportGenerator.analyze_rq1,
      ExperimentAnalyzer.analyze_rq,
      GraphQLvsRESTReportGenerator.analyze_rq.
    rewrite (paired_groups_same lib _ df df' H),
      !(column_of_same _ _ df df' H).
    split; reflexivity.
  - unfold ExperimentAnalyzer.analyze_rq2,
      GraphQLvsRESTReportGenerator.analyze_rq2,
      ExperimentAnalyzer.analyze_rq,
      GraphQLvsRESTReportGenerator.analyze_rq.
    rewrite (paired_groups_same lib _ df df' H),
      !(column_of_same _ _ df df' H).
    split; reflexivity.
Qed.

Lemma each_question_reads_its_own_column_witness :
  GraphQLvsRESTReportGenerator.analyze_rq2 Reference.lab Reference.two_fives
    (Reference.start 1)
  = GraphQLvsRESTReportGenerator.analyze_rq2 Reference.lab
      (firstn 4 Reference.huge) (Reference.start 1).
Proof.
  destruct (each_question_reads_its_own_column Reference.lab
              Reference.two_fives (firstn 4 Reference.huge)
              (Reference.start 1)) as [_ H].
  apply H. repeat constructor.
Defined.

(** ** The rows that [dropna] keeps *)

Section Dropna.
Import ReportGenerator PullRequests.

Lemma kept_rows_length (keep : nat -> bool) (series : list float)
  (a : nat) :
  length (List.filter (fun iv : nat * float => keep (fst iv))
            (combine (seq a (length series)) series))
  = length (List.filter keep (seq a (length series))).
Proof.
  revert a. induction series as [|v series IH]; intros a; simpl;
    [reflexivity|].
  destruct (keep a); simpl; rewrite IH; reflexivity.
Qed.

Lemma take_rows_length (keep : nat -> bool) (series : list float) :
  length (take_rows keep series)
  = length (List.filter keep (seq 0 (length series))).
Proof. unfold take_rows. rewrite length_map. apply kept_rows_length. Qed.

Lemma combine_seq_nth (series : list float) (a i : nat) (v : float) :
  In (i, v) (combine (seq a (length series)) series) ->
  (a <= i)%nat /\ nth (i - a) series nan = v.
Proof.
  revert a. induction series as [|u series IH]; intros a; simpl;
    [tauto|].
  intros [H | H].
  - injection H as <- <-. rewrite Nat.sub_diag. split; [lia|reflexivity].
  - destruct (IH (S a) H) as [Hle Hnth]. split; [lia|].
    replace (i - a)%nat with (S (i - S a)) by lia. exact Hnth.
Qed.

Lemma take_rows_kept (keep : nat -> bool) (series : list float)
  (v : float) :
  In v (take_rows keep series) ->
  exists i : nat, keep i = true /\ nth i series nan = v.
Proof.
  unfold take_rows. intros H. apply in_map_iff in H.
  destruct H as ([i u] & Hv & H). simpl in Hv. subst u.
  apply filter_In in H. destruct H as [H Hk]. simpl in Hk.
  apply combine_seq_nth in H. destruct H as [_ H].
  rewrite Nat.sub_0_r in H. eauto.
Qed.

Lemma complete_column (columns : list (list float)) (series : list float)
  (i : nat) :
  In series columns -> complete columns i = true ->
  notna (nth i series nan) = true.
Proof.
  intros Hin H. unfold complete in H.
  rewrite forallb_forall in H. exact (H series Hin).
Qed.

Lemma take_rows_complete (columns : list (list float))
  (series : list float) :
  In series columns ->
  forallb notna (take_rows (complete columns) series) = true.
Proof.
  intros Hin. apply forallb_forall. intros v Hv.
  apply take_rows_kept in Hv. destruct Hv as (i & Hi & <-).
  exact (complete_column columns series i Hin Hi).
Qed.

Lemma columns_of_returns (df : gmap string (list float))
  (names : list string) (columns : list (list float)) :
  columns_of df names = Returns columns ->
  forall name, In name names ->
    exists series, df !! name = Some series /\ In series columns.
Proof.
  revert columns. induction names as [|n names IH]; intros columns; simpl.
  - intros _ name [].
  - destruct (df !! n) as [s|] eqn:En; [|discriminate].
    destruct (columns_of df names) as [others|e]; [|discriminate].
    intros H. injection H as <-. intros name [<- | Hin].
    + exists s. split; [exact En|left; reflexivity].
    + destruct (IH others eq_refl name Hin) as (s' & Hs & Hin').
      exists s'. split; [exact Hs|right; exact Hin'].
Qed.

Lemma columns_of_raises (df : gmap string (list float))
  (names : list string) :
  (exists name, In name names /\ df !! name = None) ->
  columns_of df names = Raises KeyError.
Proof.
  induction names as [|n names IH]; simpl.
  - intros (name & [] & _).
  - intros (name & [<- | Hin] & Hnone).
    + rewrite Hnone. reflexivity.
    + destruct (df !! n); [|reflexivity].
      rewrite IH by eauto. reflexivity.
Qed.

Lemma columns_of_total (df : gmap string (list float))
  (names : list string) :
  (forall name, In name names -> exists series, df !! name = Some series) ->
  exists columns, columns_of df names = Returns columns.
Proof.
  induction names as [|n names IH]; simpl; intros H.
  - eauto.
  - destruct (H n (or_introl eq_refl)) as [s ->].
    destruct IH as [others ->]; [intros; apply H; right; assumption|].
    eauto.
Qed.

Lemma all_notna_filter (series : list float) :
  forallb notna series = true -> List.filter notna series = series.
Proof.
  induction series as [|v series IH]; simpl; [reflexivity|].
  intros H. apply andb_prop in H. destruct H as [Hv H].
  rewrite Hv, (IH H). reflexivity.
Qed.
End Dropna.

(** The rows that are kept are the same in every column. *)
Lemma take_rows_rows (df : gmap string (list float)) (keep : nat -> bool)
  (n : nat) :
  PullRequests.rows df n ->
  PullRequests.rows (PullRequests.take_rows keep <$> df)
    (length (List.filter keep (seq 0 n))).
Proof.
  intros Hrows name series Hs. rewrite lookup_fmap in Hs.
  destruct (df !! name) as [s0|] eqn:E; [|discriminate].
  simpl in Hs. injection Hs as <-.
  rewrite take_rows_length, (Hrows name s0 E). reflexivity.
Qed.

(** A column of the subset has no missing value in the rows kept. *)
Lemma subset_column_kept (df : gmap string (list float))
  (subset : list string) (columns : list (list float)) (name : string) :
  PullRequests.columns_of df subset = Returns columns ->
  In name subset ->
  exists series,
    (PullRequests.take_rows (PullRequests.complete columns) <$> df) !! name
    = Some series
    /\ forallb PullRequests.notna series = true.
Proof.
  intros Hc Hin.
  destruct (columns_of_returns df subset columns Hc name Hin)
    as (s0 & Hs0 & Hcol).
  exists (PullRequests.take_rows (PullRequests.complete columns) s0).
  split; [rewrite lookup_fmap, Hs0; reflexivity|].
  exact (take_rows_complete columns s0 Hcol).
Qed.

(** The frame of valid data: what the correlations are computed on. *)
Lemma dropna_valid (df valid : gmap string (list float))
  (subset : list string) (n : nat) :
  PullRequests.rows df n ->
  PullRequests.dropna df subset = Returns valid ->
  exists m : nat,
    PullRequests.rows valid m
    /\ forall name, In name subset ->
         exists series,
           valid !! name = Some series
           /\ forallb PullRequests.notna series = true.
Proof.
  intros Hrows Hrun. unfold PullRequests.dropna in Hrun.
  destruct (PullRequests.columns_of df subset) as [columns|e] eqn:Hc;
    [|discriminate].
  injection Hrun as <-. eexists. split.
  - apply take_rows_rows. exact Hrows.
  - intros name Hin. exact (subset_column_kept df subset columns name Hc Hin).
Qed.

Lemma notna_sum_all (series : list float) :
  forallb PullRequests.notna series = true ->
  ReportGenerator.notna_sum series = len series.
Proof.
  intros H. unfold ReportGenerator.notna_sum.
  change (fun v : float => negb (PrimFloat.is_nan v))
    with PullRequests.notna.
  rewrite (all_notna_filter _ H). reflexivity.
Qed.

(** X13.  [dropna] on a frame of [n] rows, when it returns, gives a
    frame with the same columns, all of one length that is at most [n],
    in which no column of the subset has a missing value; so the number of
    values that [calculate_correlations] counts in such a column, and the
    number that [get_summary_stats] counts, is the number of rows of the
    frame. *)
Theorem dropna_keeps_the_complete_rows
  (df valid : gmap string (list float)) (subset : list string) (n : nat) :
  PullRequests.rows df n ->
  PullRequests.dropna df subset = Returns valid ->
  exists m : nat,
    (m <= n)%nat
    /\ PullRequests.rows valid m
    /\ (forall name, valid !! name = None <-> df !! name = None)
    /\ forall name, In name subset ->
         exists series,
           valid !! name = Some series
           /\ forallb PullRequests.notna series = true
           /\ ReportGenerator.notna_sum series = Z.of_nat m
           /\ len (PullRequests.Series_dropna series) = Z.of_nat m.
Proof.
  intros Hrows Hrun. unfold PullRequests.dropna in Hrun.
  destruct (PullRequests.columns_of df subset) as [columns|e] eqn:Hc;
    [|discriminate].
  injection Hrun as <-.
  set (keep := PullRequests.complete columns).
  exists (length (List.filter keep (seq 0 n))).
  pose proof (take_rows_rows df keep n Hrows) as Hvalid.
  split; [|split; [exact Hvalid|split]].
  - etransitivity; [apply filter_length_le|]. rewrite length_seq. lia.
  - intros name. rewrite lookup_fmap.
    destruct (df !! name); simpl; split; intros H; try discriminate;
      reflexivity.
  - intros name Hin.
    destruct (subset_column_kept df subset columns name Hc Hin)
      as (series & Hl & Hna).
    exists series. split; [exact Hl|]. split; [exact Hna|].
    unfold PullRequests.Series_dropna.
    rewrite (notna_sum_all _ Hna), (all_notna_filter _ Hna). unfold len.
    rewrite (Hvalid name _ Hl). split; reflexivity.
Qed.

Lemma dropna_keeps_the_complete_rows_witness :
  exists valid : gmap string (list float),
    PullRequests.dropna PullRequests.twelve
      ["pr_size_score"; "total_interactions"] = Returns valid
    /\ exists m : nat,
         (m <= 12)%nat
         /\ PullRequests.rows valid m
         /\ (forall name,
               valid !! name = None <-> PullRequests.twelve !! name = None)
         /\ forall name, In name ["pr_size_score"; "total_interactions"] ->
              exists series,
                valid !! name = Some series
                /\ forallb PullRequests.notna series = true
                /\ ReportGenerator.notna_sum series = Z.of_nat m
                /\ len (PullRequests.Series_dropna series) = Z.of_nat m.
Proof.
  eexists. split; [reflexivity|].
  refine (dropna_keeps_the_complete_rows PullRequests.twelve _
            ["pr_size_score"; "total_interactions"] 12 _ eq_refl).
  intros name series. unfold PullRequests.twelve.
  repeat (rewrite lookup_insert; case_decide;
          [intros E; injection E as <-; reflexivity|]).
  rewrite lookup_empty. discriminate.
Defined.

(** ** The research questions *)

Section ResearchQuestions.
Import ReportGenerator PullRequests.
Context {R : Type} (lib : Externals R) (pd : Series).

Lemma logs_only_ret {A : Type} (P : call -> bool) (a : A) :
  logs_only (R := R) P (ret a).
Proof. intros w. exists []. rewrite app_nil_r. split; reflexivity. Qed.

Lemma logs_only_lift {A : Type} (P : call -> bool) (o : outcome A) :
  logs_only (R := R) P (lift o).
Proof. intros w. exists []. rewrite app_nil_r. split; reflexivity. Qed.

Lemma logs_only_bind {A B : Type} (P : call -> bool) (m : M R A)
  (k : A -> M R B) :
  logs_only P m -> (forall a, logs_only P (k a)) -> logs_only P (bind m k).
Proof.
  intros Hm Hk w. destruct (Hm w) as (new1 & H1 & P1). unfold bind.
  destruct (m w) as [[a|e] w1]; simpl in *.
  - destruct (Hk a w1) as (new2 & H2 & P2).
    exists (new1 ++ new2)%list. rewrite H2, H1, app_assoc.
    split; [reflexivity|]. rewrite forallb_app, P1, P2. reflexivity.
  - exists new1. auto.
Qed.

Lemma notna_sum_le (series : list float) : notna_sum series <= len series.
Proof.
  unfold notna_sum, len. apply Nat2Z.inj_le. apply filter_length_le.
Qed.

(** The calls of [correlate] on a frame whose two columns have no
    missing value. *)
Lemma correlate_logs (valid : gmap string (list float)) (m : nat)
  (process_metric outcome_metric : string) :
  rows valid m ->
  (forall x, valid !! process_metric = Some x -> forallb notna x = true) ->
  (forall y, valid !! outcome_metric = Some y -> forallb notna y = true) ->
  logs_only complete_pair
    (correlate lib valid process_metric outcome_metric).
Proof.
  intros Hrows Hp Ho w. unfold correlate.
  destruct (valid !! outcome_metric) as [y|] eqn:Ey;
    [|exists []; rewrite app_nil_r; split; reflexivity].
  destruct (10 <? notna_sum y) eqn:E10;
    [|exists []; rewrite app_nil_r; split; reflexivity].
  unfold getitem. rewrite Ey.
  destruct (valid !! process_metric) as [x|] eqn:Ex;
    [|exists []; rewrite app_nil_r; split; reflexivity].
  assert (Hpair : forall c, c = Pearsonr x y \/ c = Spearmanr x y ->
                            complete_pair c = true).
  { apply Z.ltb_lt in E10. pose proof (notna_sum_le y) as Hle.
    pose proof (Hrows _ _ Ex) as Lx. pose proof (Hrows _ _ Ey) as Ly.
    intros c [-> | ->]; simpl;
      rewrite (Hp x eq_refl), (Ho y eq_refl), Lx, Ly, Nat.eqb_refl;
      simpl; rewrite !andb_true_r; apply Z.ltb_lt;
      unfold len in *; lia. }
  rewrite bind_ret, bind_ret. unfold bind at 1. unfold pearsonr at 1.
  destruct (pearsonr_fn lib x y) as [linear|e].
  - rewrite bind_ret, bind_ret. unfold bind, spearmanr.
    exists [Pearsonr x y; Spearmanr x y].
    split.
    + destruct (spearmanr_fn lib x y); simpl; rewrite <- app_assoc;
        reflexivity.
    + cbn [forallb]. rewrite !Hpair by auto. reflexivity.
  - exists [Pearsonr x y]. split; [reflexivity|].
    cbn [forallb]. rewrite Hpair by auto. reflexivity.
Qed.

Lemma rq_entry_logs (valid : gmap string (list float)) (m : nat)
  (question metric process_metric outcome_metric : string) :
  rows valid m ->
  (forall x, valid !! process_metric = Some x -> forallb notna x = true) ->
  (forall y, valid !! outcome_metric = Some y -> forallb notna y = true) ->
  logs_only complete_pair
    (rq_entry lib pd valid question metric process_metric outcome_metric).
Proof.
  intros Hrows Hp Ho. unfold rq_entry, calculate_correlations. simpl.
  apply logs_only_bind.
  - apply logs_only_bind; [|intros; apply logs_only_ret].
    exact (correlate_logs valid m _ _ Hrows Hp Ho).
  - intros c. apply logs_only_bind; [apply logs_only_lift|].
    intros s. apply logs_only_ret.
Qed.

Lemma get_summary_stats_returns (valid : gmap string (list float))
  (name : string) (x : list float) :
  valid !! name = Some x ->
  exists s, get_summary_stats pd valid name = Returns s.
Proof. intros H. unfold get_summary_stats. rewrite H. eauto. Qed.

(** The entry of a question whose outcome metric has at most 10 values:
    the neutral correlations, and no call. *)
Lemma rq_entry_neutral (valid : gmap string (list float))
  (question metric process_metric outcome_metric : string)
  (x : list float) (w : world R) :
  valid !! process_metric = Some x ->
  valid_count valid outcome_metric <= 10 ->
  exists s : Stats.t,
    rq_entry lib pd valid question metric process_metric outcome_metric w
    = (Returns {| PullRequests.question := question;
                  PullRequests.metric := metric;
                  correlations := {[ outcome_metric := neutral ]};
                  summary_stats := s |}, w).
Proof.
  intros Hx Hn.
  destruct (get_summary_stats_returns valid process_metric x Hx) as [s Hs].
  exists s. unfold rq_entry, calculate_correlations.
  cbn [correlations_loop]. unfold bind at 1 2.
  rewrite (correlate_neutral lib valid process_metric outcome_metric w Hn).
  rewrite Hs, insert_empty. reflexivity.
Qed.
End ResearchQuestions.

Section Verdicts.
Import ReportGenerator PullRequests.
Variables (upper : string -> string) (format_3f : float -> string).

Lemma neutral_entry_says_nothing (rq_result : Entry)
  (outcome_metric hypothesis_type : string) :
  correlations rq_result = {[ outcome_metric := neutral ]} ->
  analyze_hypothesis upper rq_result hypothesis_type = not_supported
  /\ get_main_finding upper format_3f rq_result = Returns no_finding.
Proof.
  intros H. unfold analyze_hypothesis, get_main_finding.
  rewrite H, map_to_list_singleton. split; reflexivity.
Qed.
End Verdicts.

(** X14.  When the frame lacks one of the four process metrics or of
    the two outcome metrics, [analyze_research_questions] raises KeyError
    in [dropna], before any correlation is computed: the world is left as
    it was. *)
Theorem missing_metric_raises_key_error {R : Type} (lib : Externals R)
  (pd : PullRequests.Series) (df : gmap string (list float))
  (name : string) (w : world R) :
  In name (PullRequests.process_metrics ++ PullRequests.outcome_metrics) ->
  df !! name = None ->
  PullRequests.analyze_research_questions lib pd df w = (Raises KeyError, w).
Proof.
  intros Hin Hnone. unfold PullRequests.analyze_research_questions.
  unfold PullRequests.dropna.
  rewrite (columns_of_raises df _ (ex_intro _ name (conj Hin Hnone))).
  reflexivity.
Qed.

Lemma missing_metric_raises_key_error_witness :
  PullRequests.analyze_research_questions Reference.lab PullRequests.series
    PullRequests.without_reviews (Reference.start 1)
  = (Raises KeyError, Reference.start 1).
Proof.
  apply (missing_metric_raises_key_error Reference.lab PullRequests.series
           PullRequests.without_reviews "pr_reviews_count").
  - vm_compute. tauto.
  - apply lookup_delete_eq.
Defined.

Section FewRows.
Import ReportGenerator PullRequests.
Context {R : Type} (lib : Externals R) (pd : Series).
Variables (upper : string -> string) (format_3f : float -> string).

Ltac metric_in := vm_compute; tauto.

(** The run of [analyze_research_questions] on a frame of which at most
    10 rows are complete. *)
Lemma analyze_few_rows (df valid : gmap string (list float)) (n m : nat)
  (w : world R) :
  rows df n ->
  dropna df (process_metrics ++ outcome_metrics) = Returns valid ->
  rows valid m -> (m <= 10)%nat ->
  exists s1 s2 s3 s4 s5 s6 s7 s8 : Stats.t,
    analyze_research_questions lib pd df w
    = (Returns
         (<["RQ08" :=
              {| question :=
                   "Qual a relação entre as interações nos PRs e o número de revisões realizadas?";
                 metric := "Total de Interações";
                 correlations := {[ "pr_reviews_count" := neutral ]};
                 summary_stats := s8 |}]>
         (<["RQ07" :=
              {| question :=
                   "Qual a relação entre a descrição dos PRs e o número de revisões realizadas?";
                 metric := "Tamanho da Descrição";
                 correlations := {[ "pr_reviews_count" := neutral ]};
                 summary_stats := s7 |}]>
         (<["RQ06" :=
              {| question :=
                   "Qual a relação entre o tempo de análise dos PRs e o número de revisões realizadas?";
                 metric := "Tempo de Análise";
                 correlations := {[ "pr_reviews_count" := neutral ]};
                 summary_stats := s6 |}]>
         (<["RQ05" :=
              {| question :=
                   "Qual a relação entre o tamanho dos PRs e o número de revisões realizadas?";
                 metric := "Tamanho do PR";
                 correlations := {[ "pr_reviews_count" := neutral ]};
                 summary_stats := s5 |}]>
         (<["RQ04" :=
              {| question :=
                   "Qual a relação entre as interações nos PRs e o feedback final das revisões?";
                 metric := "Total de Interações";
                 correlations := {[ "pr_status_binary" := neutral ]};
                 summary_stats := s4 |}]>
         (<["RQ03" :=
              {| question :=
                   "Qual a relação entre a descrição dos PRs e o feedback final das revisões?";
                 metric := "Tamanho da Descrição";
                 correlations := {[ "pr_status_binary" := neutral ]};
                 summary_stats := s3 |}]>
         (<["RQ02" :=
              {| question :=
                   "Qual a relação entre o tempo de análise dos PRs e o feedback final das revisões?";
                 metric := "Tempo de Análise";
                 correlations := {[ "pr_status_binary" := neutral ]};
                 summary_stats := s2 |}]>
         (<["RQ01" :=
              {| question :=
                   "Qual a relação entre o tamanho dos PRs e o feedback final das revisões?";
                 metric := "Tamanho do PR";
                 correlations := {[ "pr_status_binary" := neutral ]};
                 summary_stats := s1 |}]> ∅)))))))), w).
Proof.
  intros Hrows Hdrop Hvalid Hm.
  destruct (dropna_valid df valid _ n Hrows Hdrop) as (m' & _ & Hcols).
  assert (Hcol : forall name,
             In name (process_metrics ++ outcome_metrics) ->
             exists x, valid !! name = Some x
                       /\ valid_count valid name <= 10).
  { intros name Hin. destruct (Hcols name Hin) as (x & Hx & Hna).
    exists x. split; [exact Hx|]. unfold valid_count.
    rewrite Hx, (notna_sum_all x Hna). unfold len.
    rewrite (Hvalid name x Hx). lia. }
  destruct (Hcol "pr_size_score") as (x1 & X1 & _); [metric_in|].
  destruct (Hcol "analysis_time_hours") as (x2 & X2 & _); [metric_in|].
  destruct (Hcol "pr_description_length") as (x3 & X3 & _); [metric_in|].
  destruct (Hcol "total_interactions") as (x4 & X4 & _); [metric_in|].
  destruct (Hcol "pr_status_binary") as [? [_ Hs]]; [metric_in|].
  destruct (Hcol "pr_reviews_count") as [? [_ Hr]]; [metric_in|].
  unfold analyze_research_questions. rewrite Hdrop, bind_lift_returns.
  repeat
    match goal with
    | |- context [bind (rq_entry lib pd valid ?q ?mt ?p ?o) _ w] =>
        let s := fresh "s" in
        let E := fresh "E" in
        let X := match p with
                 | "pr_size_score" => X1
                 | "analysis_time_hours" => X2
                 | "pr_description_length" => X3
                 | "total_interactions" => X4
                 end in
        let H := match o with
                 | "pr_status_binary" => Hs
                 | "pr_reviews_count" => Hr
                 end in
        destruct (rq_entry_neutral lib pd valid q mt p o _ w X H) as [s E];
        rewrite (bind_returns _ _ _ _ _ E)
    end.
  eexists _, _, _, _, _, _, _, _. reflexivity.
Qed.
End FewRows.

(** X15.  On a frame with at most 10 pull requests that have a value in
    each of the six metrics, the report has nothing to say: the verdict on
    each of the four hypotheses is "Não suportada", each of the eight main
    findings is "Nenhuma correlação significativa identificada", and the
    world is left as it was, so neither [pearsonr] nor [spearmanr] was
    called. *)
Theorem few_complete_rows_give_no_finding {R : Type} (lib : Externals R)
  (pd : PullRequests.Series) (upper : string -> string)
  (format_3f : float -> string) (df valid : gmap string (list float))
  (n m : nat) (w : world R) :
  PullRequests.rows df n ->
  PullRequests.dropna df
    (PullRequests.process_metrics ++ PullRequests.outcome_metrics)
  = Returns valid ->
  PullRequests.rows valid m ->
  (m <= 10)%nat ->
  PullRequests.report_verdicts upper format_3f lib pd df w
  = (Returns (repeat PullRequests.not_supported 4,
              repeat PullRequests.no_finding 8), w).
Proof.
  intros Hrows Hdrop Hvalid Hm.
  destruct (analyze_few_rows lib pd df valid n m w Hrows Hdrop Hvalid Hm)
    as (s1 & s2 & s3 & s4 & s5 & s6 & s7 & s8 & Hrun).
  unfold PullRequests.report_verdicts.
  rewrite (bind_returns _ _ _ _ _ Hrun).
  unfold PullRequests.getitem_rq.
  repeat
    (repeat (rewrite lookup_insert_ne by discriminate);
     rewrite lookup_insert_eq, bind_lift_returns;
     repeat
       match goal with
       | |- context [PullRequests.analyze_hypothesis upper ?e ?h] =>
           rewrite (proj1 (neutral_entry_says_nothing upper format_3f e _ h
                             eq_refl))
       | |- context [PullRequests.get_main_finding upper format_3f ?e] =>
           rewrite (proj2 (neutral_entry_says_nothing upper format_3f e _ ""
                             eq_refl));
           rewrite bind_lift_returns
       end).
  reflexivity.
Qed.

Lemma few_complete_rows_give_no_finding_witness :
  PullRequests.report_verdicts (fun s => s) (fun _ => "")
    Reference.lab PullRequests.series PullRequests.twelve
    (Reference.start 1)
  = (Returns (repeat PullRequests.not_supported 4,
              repeat PullRequests.no_finding 8), Reference.start 1).
Proof.
  refine (few_complete_rows_give_no_finding Reference.lab
            PullRequests.series (fun s => s) (fun _ => "")
            PullRequests.twelve _ 12 10 (Reference.start 1) _ eq_refl _ _).
  - intros name series. unfold PullRequests.twelve.
    repeat (rewrite lookup_insert; case_decide;
            [intros E; injection E as <-; reflexivity|]).
    rewrite lookup_empty. discriminate.
  - intros name series. unfold PullRequests.twelve.
    rewrite lookup_fmap.
    repeat (rewrite lookup_insert; case_decide;
            [intros E; injection E as <-; reflexivity|]).
    rewrite lookup_empty. discriminate.
  - lia.
Defined.

Lemma logs_only_ext {R A : Type} (P : call -> bool) (m m' : M R A) :
  (forall w, m w = m' w) ->
  PullRequests.logs_only P m' -> PullRequests.logs_only P m.
Proof. intros E H w. rewrite E. apply H. Qed.

(** X16.  Whatever the frame, as long as its columns have one length,
    every call of [pearsonr] and of [spearmanr] that
    [analyze_research_questions] makes is given two columns of the same
    length, of more than 10 values, without a missing value; it calls no
    other routine of scipy. *)
Theorem scipy_is_given_complete_pairs {R : Type} (lib : Externals R)
  (pd : PullRequests.Series) (df : gmap string (list float)) (n : nat) :
  PullRequests.rows df n ->
  PullRequests.logs_only PullRequests.complete_pair
    (PullRequests.analyze_research_questions lib pd df).
Proof.
  intros Hrows. unfold PullRequests.analyze_research_questions.
  destruct (PullRequests.dropna df
              (PullRequests.process_metrics ++ PullRequests.outcome_metrics))
    as [valid|e] eqn:Hdrop.
  2:{ intros w. exists []. rewrite app_nil_r. split; reflexivity. }
  destruct (dropna_valid df valid _ n Hrows Hdrop) as (m & Hvalid & Hcols).
  assert (Hcol : forall name,
             In name (PullRequests.process_metrics
                      ++ PullRequests.outcome_metrics) ->
             forall x, valid !! name = Some x ->
                       forallb PullRequests.notna x = true).
  { intros name Hin x Hx.
    destruct (Hcols name Hin) as (x' & Hx' & Hna).
    congruence. }
  apply (logs_only_ext _ _ _ (bind_lift_returns valid _)).
  repeat (apply logs_only_bind;
          [apply (rq_entry_logs lib pd valid m); [exact Hvalid| |];
           apply Hcol; vm_compute; tauto
          |intros ?]).
  apply logs_only_ret.
Qed.

Lemma scipy_is_given_complete_pairs_witness :
  exists new : list call,
    calls (snd (PullRequests.analyze_research_questions Reference.lab
                  PullRequests.series dozen (Reference.start 1)))
    = (calls (Reference.start 1) ++ new)%list
    /\ forallb PullRequests.complete_pair new = true.
Proof.
  refine (scipy_is_given_complete_pairs Reference.lab PullRequests.series
            dozen 12 _ (Reference.start 1)).
  intros name series. unfold dozen.
  repeat (rewrite lookup_insert; case_decide;
          [intros E; injection E as <-; reflexivity|]).
  rewrite lookup_empty. discriminate.
Defined.

(** ** The verdict on a hypothesis and the main finding *)

Section Hypotheses.
Import ReportGenerator PullRequests.
Variables (upper : string -> string) (format_3f : float -> string).

Lemma hypothesis_line_known (hypothesis_type metric : string)
  (corr_data : Correlations) :
  In hypothesis_type
    ["RQ01"; "RQ02"; "RQ03"; "RQ04"; "RQ05"; "RQ06"; "RQ07"; "RQ08"] ->
  hypothesis_line upper hypothesis_type metric corr_data = []
  <-> (p_value (pearson corr_data) <? 0.05)%float = false.
Proof.
  intros Hin. unfold hypothesis_line.
  destruct (p_value (pearson corr_data) <? 0.05)%float;
    [|split; reflexivity].
  split; [|discriminate]. intros H. exfalso.
  simpl in Hin.
  repeat (destruct Hin as [<- | Hin];
          [cbn in H;
           repeat match type of H with
                  | (if ?b then _ else _) = _ => destruct b
                  end; discriminate H|]).
  exact Hin.
Qed.

Lemma hypothesis_line_unknown (hypothesis_type metric : string)
  (corr_data : Correlations) :
  ~ In hypothesis_type
      ["RQ01"; "RQ02"; "RQ03"; "RQ04"; "RQ05"; "RQ06"; "RQ07"; "RQ08"] ->
  hypothesis_line upper hypothesis_type metric corr_data = [].
Proof.
  intros Hout. unfold hypothesis_line.
  destruct (p_value (pearson corr_data) <? 0.05)%float; [|reflexivity].
  assert (E : forall h, In h ["RQ01"; "RQ02"; "RQ03"; "RQ04"; "RQ05";
                              "RQ06"; "RQ07"; "RQ08"] ->
                        String.eqb hypothesis_type h = false).
  { intros h Hh. apply String.eqb_neq. intros ->. exact (Hout Hh). }
  cbn [existsb].
  rewrite !E by (vm_compute; tauto). reflexivity.
Qed.

Lemma flat_map_nil {A B : Type} (f : A -> list B) (l : list A) :
  flat_map f l = [] <-> forall a, In a l -> f a = [].
Proof.
  induction l as [|a l IH]; simpl.
  - split; [intros _ a []|reflexivity].
  - split.
    + intros H. apply app_eq_nil in H. destruct H as [Ha Hl].
      intros b [<- | Hb]; [exact Ha|]. apply IH; assumption.
    + intros H. rewrite (H a (or_introl eq_refl)).
      apply IH. intros b Hb. apply H. right. exact Hb.
Qed.

Lemma verdict_not_supported (rq_result : Entry) (hypothesis_type : string) :
  analyze_hypothesis upper rq_result hypothesis_type = not_supported
  <-> flat_map
        (fun item =>
           hypothesis_line upper hypothesis_type (fst item) (snd item))
        (map_to_list (correlations rq_result)) = [].
Proof.
  unfold analyze_hypothesis.
  destruct (flat_map _ _) as [|line lines].
  - split; reflexivity.
  - split; [|discriminate]. intros H. exfalso.
    replace (len (line :: lines) =? 0) with false in H.
    + cbn in H. discriminate H.
    + symmetry. apply Z.eqb_neq. unfold len. simpl. lia.
Qed.

Lemma items_lookup {A : Type} (m : gmap string A) (P : string * A -> Prop) :
  (forall item, In item (map_to_list m) -> P item)
  <-> (forall k a, m !! k = Some a -> P (k, a)).
Proof.
  split.
  - intros H k a Hk. apply H. apply list_elem_of_In.
    apply elem_of_map_to_list. exact Hk.
  - intros H [k a] Hin. apply H. apply elem_of_map_to_list.
    apply list_elem_of_In. exact Hin.
Qed.
End Hypotheses.

(** X17.  For each of the eight research questions the verdict of
    [analyze_hypothesis] is "Não suportada" exactly when no entry of the
    correlations has a Pearson p-value below 0.05.  The sign of the
    coefficient has no part in it: a significant correlation against the
    hypothesis gives "Parcialmente suportada" as well. *)
Theorem verdict_depends_on_significance_alone (upper : string -> string)
  (rq_result : PullRequests.Entry) (hypothesis_type : string) :
  In hypothesis_type
    ["RQ01"; "RQ02"; "RQ03"; "RQ04"; "RQ05"; "RQ06"; "RQ07"; "RQ08"] ->
  PullRequests.analyze_hypothesis upper rq_result hypothesis_type
  = PullRequests.not_supported
  <-> forall (name : string) (corr_data : ReportGenerator.Correlations),
        PullRequests.correlations rq_result !! name = Some corr_data ->
        (ReportGenerator.p_value (ReportGenerator.pearson corr_data)
         <? 0.05)%float = false.
Proof.
  intros Hin. rewrite verdict_not_supported, flat_map_nil.
  rewrite (items_lookup (PullRequests.correlations rq_result)
             (fun item =>
                PullRequests.hypothesis_line upper hypothesis_type
                  (fst item) (snd item) = [])).
  split; intros H name corr_data Hl.
  - apply (hypothesis_line_known upper hypothesis_type name corr_data Hin).
    exact (H name corr_data Hl).
  - apply (hypothesis_line_known upper hypothesis_type name corr_data Hin).
    exact (H name corr_data Hl).
Qed.

Lemma verdict_depends_on_significance_alone_witness :
  PullRequests.analyze_hypothesis (fun s => s) (entry_with 0.4 0.5) "RQ01"
  = PullRequests.not_supported.
Proof.
  apply (verdict_depends_on_significance_alone (fun s => s)
           (entry_with 0.4 0.5) "RQ01" (or_introl eq_refl)).
  intros name corr_data Hl. unfold entry_with in Hl. simpl in Hl.
  apply lookup_singleton_Some in Hl. destruct Hl as [_ <-]. reflexivity.
Defined.

(** X18.  For a hypothesis type other than "RQ01" to "RQ08" the verdict
    of [analyze_hypothesis] is "Não suportada" whatever the correlations
    are. *)
Theorem unknown_hypothesis_is_not_supported (upper : string -> string)
  (rq_result : PullRequests.Entry) (hypothesis_type : string) :
  ~ In hypothesis_type
      ["RQ01"; "RQ02"; "RQ03"; "RQ04"; "RQ05"; "RQ06"; "RQ07"; "RQ08"] ->
  PullRequests.analyze_hypothesis upper rq_result hypothesis_type
  = PullRequests.not_supported.
Proof.
  intros Hout. apply verdict_not_supported, flat_map_nil.
  intros item _. apply hypothesis_line_unknown. exact Hout.
Qed.

Lemma unknown_hypothesis_is_not_supported_witness :
  PullRequests.analyze_hypothesis (fun s => s) (entry_with 0.9 0.001) "rq01"
  = PullRequests.not_supported.
Proof.
  apply unknown_hypothesis_is_not_supported.
  simpl. intros H.
  repeat (destruct H as [H | H]; [discriminate H|]).
  exact H.
Defined.

Lemma ltb_leb (a b : float) :
  (a <? b)%float = true -> (a <=? b)%float = true.
Proof.
  rewrite FloatAxioms.leb_spec, FloatAxioms.ltb_spec. unfold SFleb, SFltb.
  destruct (SFcompare (Prim2SF a) (Prim2SF b)) as [[ | | ]|];
    intros H; try discriminate; reflexivity.
Qed.

Lemma ltb_trans (a b c : float) :
  (a <? b)%float = true -> (b <? c)%float = true -> (a <? c)%float = true.
Proof. intros H1 H2. exact (leb_ltb_trans a b c (ltb_leb a b H1) H2). Qed.

Lemma ltb_irrefl (a : float) : (a <? a)%float = false.
Proof.
  rewrite FloatAxioms.ltb_spec. unfold SFltb.
  pose proof (SFcompare_antisym (Prim2SF a) (Prim2SF a)) as H.
  destruct (SFcompare (Prim2SF a) (Prim2SF a)) as [[ | | ]|];
    try reflexivity; discriminate H.
Qed.

Section MainFinding.
Import ReportGenerator PullRequests.

#[local] Abbreviation magnitude c :=
  (PrimFloat.abs (correlation (pearson c))) (only parsing).
#[local] Abbreviation significant c :=
  ((p_value (pearson c) <? 0.05)%float = true) (only parsing).

(** The invariant of the loop of [get_main_finding]: no significant
    entry seen so far is above [strongest_value], which is the magnitude
    of the entry [strongest_corr] when there is one and 0 otherwise. *)
Lemma strongest_invariant (items seen : list (string * Correlations))
  (acc : option string * float) :
  (forall item, In item seen -> significant (snd item) ->
                (snd acc <? magnitude (snd item))%float = false) ->
  match fst acc with
  | None => snd acc = 0%float
  | Some name =>
      exists c, In (name, c) seen /\ significant c
                /\ snd acc = magnitude c
                /\ (0 <? magnitude c)%float = true
  end ->
  let final := fold_left strongest_step items acc in
  (forall item, In item (seen ++ items) -> significant (snd item) ->
                (snd final <? magnitude (snd item))%float = false)
  /\ match fst final with
     | None => snd final = 0%float
     | Some name =>
         exists c, In (name, c) (seen ++ items) /\ significant c
                   /\ snd final = magnitude c
                   /\ (0 <? magnitude c)%float = true
     end.
Proof.
  revert seen acc.
  induction items as [|[k x] items IH]; intros seen acc Hmax Hbest; simpl.
  - rewrite app_nil_r. split; assumption.
  - replace (seen ++ (k, x) :: items)%list
      with ((seen ++ [(k, x)]) ++ items)%list
      by (rewrite <- app_assoc; reflexivity).
    apply IH.
    + intros item Hin Hsig. apply in_app_or in Hin.
      unfold strongest_step. simpl.
      destruct (p_value (pearson x) <? 0.05)%float eqn:Ep; simpl.
      * destruct (snd acc <? magnitude x)%float eqn:Ev; simpl.
        -- destruct Hin as [Hin | [<- | []]].
           ++ destruct (magnitude x <? magnitude (snd item))%float eqn:E;
                [|reflexivity].
              specialize (Hmax item Hin Hsig).
              rewrite (ltb_trans _ _ _ Ev E) in Hmax. discriminate Hmax.
           ++ apply ltb_irrefl.
        -- destruct Hin as [Hin | [<- | []]]; [auto|exact Ev].
      * destruct Hin as [Hin | [<- | []]]; [auto|].
        simpl in Hsig. congruence.
    + unfold strongest_step. simpl.
      destruct (p_value (pearson x) <? 0.05)%float eqn:Ep; simpl.
      * destruct (snd acc <? magnitude x)%float eqn:Ev; simpl.
        -- exists x. split; [apply in_or_app; right; left; reflexivity|].
           split; [exact Ep|]. split; [reflexivity|].
           destruct (fst acc) as [name|].
           ++ destruct Hbest as (c & _ & _ & Hv & Hpos).
              rewrite Hv in Ev. exact (ltb_trans _ _ _ Hpos Ev).
           ++ rewrite Hbest in Ev. exact Ev.
        -- destruct (fst acc) as [name|]; [|exact Hbest].
           destruct Hbest as (c & Hin & Hrest). exists c.
           split; [apply in_or_app; left; exact Hin|exact Hrest].
      * destruct (fst acc) as [name|]; [|exact Hbest].
        destruct Hbest as (c & Hin & Hrest). exists c.
        split; [apply in_or_app; left; exact Hin|exact Hrest].
Qed.
End MainFinding.

(** X19.  [get_main_finding] never raises, and what it names is the
    strongest significant correlation: an entry with a Pearson p-value
    below 0.05 and a coefficient that is not zero, whose magnitude no
    other entry with a p-value below 0.05 exceeds.  It reports that there
    is none exactly when no entry has a p-value below 0.05 and a
    coefficient other than zero (or when the strongest belongs to a metric
    with the empty name). *)
Theorem main_finding_is_the_strongest (upper : string -> string)
  (format_3f : float -> string) (rq_result : PullRequests.Entry) :
  let r c := ReportGenerator.correlation (ReportGenerator.pearson c) in
  let p c := ReportGenerator.p_value (ReportGenerator.pearson c) in
  (exists (name : string) (c : ReportGenerator.Correlations),
      PullRequests.correlations rq_result !! name = Some c
      /\ (p c <? 0.05)%float = true
      /\ (0 <? PrimFloat.abs (r c))%float = true
      /\ (forall name' c',
            PullRequests.correlations rq_result !! name' = Some c' ->
            (p c' <? 0.05)%float = true ->
            (PrimFloat.abs (r c) <? PrimFloat.abs (r c'))%float = false)
      /\ PullRequests.get_main_finding upper format_3f rq_result
         = Returns
             (if String.eqb name "" then PullRequests.no_finding
              else ("Correlação "
                    ++ (if (0 <? r c)%float then "positiva" else "negativa")
                    ++ " significativa mais forte com " ++ upper name
                    ++ " (r=" ++ format_3f (r c) ++ ")")%string))
  \/ ((forall name c,
         PullRequests.correlations rq_result !! name = Some c ->
         (p c <? 0.05)%float = true ->
         (0 <? PrimFloat.abs (r c))%float = false)
      /\ PullRequests.get_main_finding upper format_3f rq_result
         = Returns PullRequests.no_finding).
Proof.
  intros r p. subst r p.
  destruct (strongest_invariant
              (map_to_list (PullRequests.correlations rq_result)) []
              (None, 0%float)) as [Hmax Hbest].
  { intros item []. }
  { reflexivity. }
  simpl in Hmax, Hbest.
  unfold PullRequests.get_main_finding.
  destruct (fst (fold_left PullRequests.strongest_step _ _)) as [name|]
    eqn:Ebest.
  - left. destruct Hbest as (c & Hin & Hsig & Hv & Hpos).
    apply list_elem_of_In, elem_of_map_to_list in Hin.
    exists name, c. split; [exact Hin|]. split; [exact Hsig|].
    split; [exact Hpos|]. split.
    + intros name' c' Hl Hs. rewrite <- Hv.
      apply (Hmax (name', c')); [|exact Hs].
      apply list_elem_of_In, elem_of_map_to_list. exact Hl.
    + rewrite Hin. destruct (String.eqb name ""); reflexivity.
  - right. split; [|reflexivity].
    intros name c Hl Hs. rewrite <- Hbest.
    apply (Hmax (name, c)); [|exact Hs].
    apply list_elem_of_In, elem_of_map_to_list. exact Hl.
Qed.

(** ** The sample handed to the goodness-of-fit test *)



